(** * examquiz: the quiz models, the quiz views and the CSV question importer

    A shallow embedding of [quiz/models.py], of the session handling of
    [quiz/views.py] and [quiz/api_views.py], and of
    [quiz/management/commands/import_questions_csv.py], with the properties
    the specification states about them.

    Conventions.
    - Python [int] is [Z]; Python [float] is binary64 ([PrimFloat.float])
      where the code stores it ([QuizSession.score]); the seconds computed by
      [get_remaining_time] are kept as exact rationals (see [Models]).
    - Python [str] is [string], a sequence of code points below 256; the
      whitespace, case and digit tables are Python's, restricted to that
      range.
    - A [datetime] is its number of microseconds since the epoch ([Z]); a
      [date] is its day number.
    - The database is a record of tables; a table is the list of its rows in
      insertion order.  Code that raises is a function into [exn + A] that
      also returns the database it leaves behind: a Python exception does
      not undo the writes made before it. *)

From Stdlib Require Import ZArith QArith Qminmax List String Ascii Bool Lia Lqa Floats DecimalString
  Sorted DecimalPos DecimalZ.
From stdpp Require Import base gmap strings list.

Local Open Scope string_scope.
Local Open Scope Z_scope.

(** ** Python strings *)

Module Py.

Definition ord (c : ascii) : nat := nat_of_ascii c.

Definition chr (n : nat) : ascii := ascii_of_nat n.

(** The double quote and the apostrophe, by code point. *)
Definition dquote : ascii := chr 34.
Definition squote : ascii := chr 39.
Definition backslash : ascii := chr 92.

Definition between (lo hi n : nat) : bool := ((lo <=? n) && (n <=? hi))%nat.

(** [str.isspace] on one code point: TAB..CR, FS..US, space, NEL, NBSP. *)
Definition isspace (c : ascii) : bool :=
  between 9 13 (ord c) || between 28 32 (ord c)
  || (ord c =? 133)%nat || (ord c =? 160)%nat.

(** The whitespace [int()] skips around a number: C's [isspace] on an ASCII
    string, and the Unicode spaces of a non-ASCII one (which [int()] first
    rewrites to blanks). *)
Definition isspace_int (c : ascii) : bool :=
  between 9 13 (ord c) || (ord c =? 32)%nat
  || (ord c =? 133)%nat || (ord c =? 160)%nat.

Definition isdigit (c : ascii) : bool := between 48 57 (ord c).

Definition digit_val (c : ascii) : Z := Z.of_nat (ord c - 48).

(** [str.lower] on one code point: A..Z and the Latin-1 capitals. *)
Definition lower_char (c : ascii) : ascii :=
  if between 65 90 (ord c)
     || (between 192 222 (ord c) && negb (ord c =? 215)%nat)
  then chr (ord c + 32) else c.

Fixpoint lower (s : string) : string :=
  match s with
  | EmptyString => EmptyString
  | String c s' => String (lower_char c) (lower s')
  end.

Fixpoint lstrip_by (sp : ascii -> bool) (s : string) : string :=
  match s with
  | EmptyString => EmptyString
  | String c s' => if sp c then lstrip_by sp s' else s
  end.

Fixpoint rstrip_by (sp : ascii -> bool) (s : string) : string :=
  match s with
  | EmptyString => EmptyString
  | String c s' =>
      match rstrip_by sp s' with
      | EmptyString => if sp c then EmptyString else String c EmptyString
      | r => String c r
      end
  end.

(** [s.strip()] *)
Definition strip (s : string) : string := lstrip_by isspace (rstrip_by isspace s).

(** [s.startswith(p)] *)
Fixpoint startswith (p s : string) : bool :=
  match p, s with
  | EmptyString, _ => true
  | String a p', String b s' => Ascii.eqb a b && startswith p' s'
  | String _ _, EmptyString => false
  end.

Fixpoint rev_onto (s acc : string) : string :=
  match s with
  | EmptyString => acc
  | String c s' => rev_onto s' (String c acc)
  end.

Definition reverse (s : string) : string := rev_onto s EmptyString.

(** [s.endswith(p)] *)
Definition endswith (p s : string) : bool := startswith (reverse p) (reverse s).

Fixpoint drop_last (s : string) : string :=
  match s with
  | EmptyString => EmptyString
  | String c EmptyString => EmptyString
  | String c s' => String c (drop_last s')
  end.

(** [s[1:-1]] *)
Definition slice_1_m1 (s : string) : string :=
  match s with
  | EmptyString => EmptyString
  | String _ s' => drop_last s'
  end.

(** [needle in hay] *)
Fixpoint contains (needle hay : string) : bool :=
  startswith needle hay
  || match hay with
     | EmptyString => false
     | String _ hay' => contains needle hay'
     end.

(** [s.split(sep)] for a one-character separator. *)
Fixpoint split (sep : ascii) (s : string) : list string :=
  match s with
  | EmptyString => [EmptyString]
  | String c s' =>
      if Ascii.eqb c sep then EmptyString :: split sep s'
      else match split sep s' with
           | x :: xs => String c x :: xs
           | [] => [String c EmptyString]
           end
  end.

(** [s.replace(old, new)]: leftmost, non-overlapping occurrences.  [skip]
    counts the characters of a matched [old] still to be dropped. *)
Fixpoint replace_from (old new : string) (skip : nat) (s : string) : string :=
  match s with
  | EmptyString => EmptyString
  | String c s' =>
      match skip with
      | S k => replace_from old new k s'
      | O =>
          if startswith old s
          then new +:+ replace_from old new (String.length old - 1) s'
          else String c (replace_from old new O s')
      end
  end.

(** For a non-empty [old], as every call of the importer has it. *)
Definition replace (old new s : string) : string := replace_from old new O s.

(** The digits of [int()]: decimal digits, single underscores between them. *)
Fixpoint parse_digits (acc : Z) (after_digit : bool) (s : string) : option Z :=
  match s with
  | EmptyString => if after_digit then Some acc else None
  | String c s' =>
      if isdigit c then parse_digits (10 * acc + digit_val c) true s'
      else if Ascii.eqb c "_" && after_digit then
        match s' with
        | String d _ => if isdigit d then parse_digits acc false s' else None
        | EmptyString => None
        end
      else None
  end.

(** [int(s)]: [None] is [ValueError].  (The interpreter's cap on the number
    of digits, 4300 by default in recent versions, is not modelled.) *)
Definition int (s : string) : option Z :=
  match lstrip_by isspace_int (rstrip_by isspace_int s) with
  | String "+" r => parse_digits 0 false r
  | String "-" r => Z.opp <$> parse_digits 0 false r
  | t => parse_digits 0 false t
  end.

(** [str(n)] for an [int]. *)
Definition str_of_int (n : Z) : string := NilZero.string_of_int (Z.to_int n).

Definition hex_digit (n : nat) : ascii :=
  if (n <? 10)%nat then chr (48 + n) else chr (87 + n).

(** A code point [repr] writes as an escape: the C0 controls, DEL, the C1
    controls, NBSP and the soft hyphen. *)
Definition unprintable (c : ascii) : bool :=
  (ord c <? 32)%nat || between 127 160 (ord c) || (ord c =? 173)%nat.

Fixpoint has_char (c : ascii) (s : string) : bool :=
  match s with
  | EmptyString => false
  | String d s' => Ascii.eqb c d || has_char c s'
  end.

Definition repr_char (quote c : ascii) : string :=
  if Ascii.eqb c quote || Ascii.eqb c backslash then String backslash (String c EmptyString)
  else if (ord c =? 9)%nat then String backslash "t"
  else if (ord c =? 10)%nat then String backslash "n"
  else if (ord c =? 13)%nat then String backslash "r"
  else if unprintable c then
    String backslash (String "x" (String (hex_digit (ord c / 16)) (String (hex_digit (ord c mod 16)) EmptyString)))
  else String c EmptyString.

Fixpoint repr_body (quote : ascii) (s : string) : string :=
  match s with
  | EmptyString => EmptyString
  | String c s' => repr_char quote c +:+ repr_body quote s'
  end.

(** [repr(s)] for a [str]. *)
Definition repr (s : string) : string :=
  let quote := if has_char squote s && negb (has_char dquote s) then dquote else squote in
  String quote (repr_body quote s +:+ String quote EmptyString).

Fixpoint join (sep : string) (l : list string) : string :=
  match l with
  | [] => EmptyString
  | [x] => x
  | x :: xs => x +:+ sep +:+ join sep xs
  end.

(** [str(l)] for a list of [str]. *)
Definition repr_list (l : list string) : string :=
  "[" +:+ join ", " (List.map repr l) +:+ "]".

(** [enumerate(l)] *)
Definition enumerate {A} (l : list A) : list (Z * A) :=
  List.combine (List.map Z.of_nat (seq 0 (List.length l))) l.

End Py.

(** ** The relational schema ([quiz/models.py]) *)

Module Models.

(** Rows.  The [created_at]/[updated_at] stamps, which no modelled code
    reads, are left out; a foreign key is the key of the row it points to. *)

Record Category := {
  cat_id : Z;
  cat_name : string;
  cat_exam_category : string;
  cat_description : string }.

Record Exam := {
  exam_id : Z;
  exam_category : Z;
  exam_exam_name : string;
  exam_name : string;
  exam_description : string;
  exam_duration_minutes : Z;
  exam_total_questions : Z;
  exam_passing_score : Z;
  exam_is_active : bool }.

Record Topic := {
  topic_id : Z;
  topic_exam : Z;
  topic_name : string;
  topic_description : string;
  topic_order : Z }.

Record Question := {
  q_id : Z;
  q_exam : Z;
  q_topic : option Z;
  q_question_text : string;
  q_question_type : string;
  q_difficulty : string;
  q_explanation : string;
  q_points : Z;
  q_order : Z;
  q_is_active : bool }.

Record Choice := {
  ch_id : Z;
  ch_question : Z;
  ch_choice_text : string;
  ch_is_correct : bool;
  ch_order : Z }.

Record QuizSession := {
  qs_id : Z;
  qs_user : Z;
  qs_exam : Z;
  qs_started_at : Z;
  qs_completed_at : option Z;
  qs_is_completed : bool;
  qs_score : float;
  qs_total_questions : Z;
  qs_correct_answers : Z;
  qs_time_taken_seconds : option Z;
  qs_tokens_granted : bool;
  qs_is_paused : bool;
  qs_paused_at : option Z;
  qs_total_paused_seconds : Z }.

(** [selected_choices] is the many-to-many relation: the set of keys of the
    choices linked to the answer. *)
Record UserAnswer := {
  ua_id : Z;
  ua_quiz_session : Z;
  ua_question : Z;
  ua_selected_choices : gset Z;
  ua_is_correct : bool;
  ua_answered_at : Z }.

Record UserProfile := {
  up_id : Z;
  up_user : Z;
  up_subscription_plan : string;
  up_tokens : Z;
  up_last_token_grant_date : option Z }.

Record DB := {
  categories : list Category;
  exams : list Exam;
  topics : list Topic;
  questions : list Question;
  choices : list Choice;
  quiz_sessions : list QuizSession;
  user_answers : list UserAnswer;
  user_profiles : list UserProfile }.

Definition empty_db : DB :=
  {| categories := []; exams := []; topics := []; questions := []; choices := [];
     quiz_sessions := []; user_answers := []; user_profiles := [] |}.

Definition set_categories (v : list Category) (db : DB) : DB :=
  {| categories := v; exams := exams db; topics := topics db; questions := questions db;
     choices := choices db; quiz_sessions := quiz_sessions db;
     user_answers := user_answers db; user_profiles := user_profiles db |}.

Definition set_exams (v : list Exam) (db : DB) : DB :=
  {| categories := categories db; exams := v; topics := topics db; questions := questions db;
     choices := choices db; quiz_sessions := quiz_sessions db;
     user_answers := user_answers db; user_profiles := user_profiles db |}.

Definition set_topics (v : list Topic) (db : DB) : DB :=
  {| categories := categories db; exams := exams db; topics := v; questions := questions db;
     choices := choices db; quiz_sessions := quiz_sessions db;
     user_answers := user_answers db; user_profiles := user_profiles db |}.

Definition set_questions (v : list Question) (db : DB) : DB :=
  {| categories := categories db; exams := exams db; topics := topics db; questions := v;
     choices := choices db; quiz_sessions := quiz_sessions db;
     user_answers := user_answers db; user_profiles := user_profiles db |}.

Definition set_choices (v : list Choice) (db : DB) : DB :=
  {| categories := categories db; exams := exams db; topics := topics db;
     questions := questions db; choices := v; quiz_sessions := quiz_sessions db;
     user_answers := user_answers db; user_profiles := user_profiles db |}.

Definition set_quiz_sessions (v : list QuizSession) (db : DB) : DB :=
  {| categories := categories db; exams := exams db; topics := topics db;
     questions := questions db; choices := choices db; quiz_sessions := v;
     user_answers := user_answers db; user_profiles := user_profiles db |}.

Definition set_user_answers (v : list UserAnswer) (db : DB) : DB :=
  {| categories := categories db; exams := exams db; topics := topics db;
     questions := questions db; choices := choices db; quiz_sessions := quiz_sessions db;
     user_answers := v; user_profiles := user_profiles db |}.

Definition set_user_profiles (v : list UserProfile) (db : DB) : DB :=
  {| categories := categories db; exams := exams db; topics := topics db;
     questions := questions db; choices := choices db; quiz_sessions := quiz_sessions db;
     user_answers := user_answers db; user_profiles := v |}.

(** A key no row of the table has: one more than the largest (at least 1). *)
Definition fresh_id (ids : list Z) : Z := 1 + List.fold_right Z.max 0 ids.

(** [Model.save()] of a loaded row: the row with the instance's key is
    overwritten; an instance whose key is in no row is inserted. *)
Fixpoint save_row {A} (key : A -> Z) (x : A) (l : list A) : list A :=
  match l with
  | [] => [x]
  | y :: l' => if key y =? key x then x :: l' else y :: save_row key x l'
  end.

(** [Model.objects.filter(pk=k).first()] *)
Definition find_row {A} (key : A -> Z) (k : Z) (l : list A) : option A :=
  List.find (fun y => key y =? k) l.

(** [not l] for a list. *)
Definition is_nil {A} (l : list A) : bool :=
  match l with
  | [] => true
  | _ :: _ => false
  end.

(** [len(queryset)] as a Python int. *)
Definition count {A} (p : A -> bool) (l : list A) : Z :=
  Z.of_nat (List.length (List.filter p l)).

(** *** Numbers and clocks *)

(** [float(n)] for an [int] that binary64 holds exactly (below 2^53, as
    every row count is). *)
Definition float_of_int (n : Z) : float := PrimFloat.of_uint63 (Uint63.of_Z n).

(** What [calculate_score] returns: the [int] 0 or the [float] score. *)
Inductive pynum :=
| PyInt (n : Z)
| PyFloat (x : float).

Definition usec_per_sec : Z := 1000000.

(** [int(delta.total_seconds())] for a [timedelta] of [us] microseconds:
    the quotient truncated toward zero (exact while [us] is below 2^53). *)
Definition whole_seconds (us : Z) : Z := Z.quot us usec_per_sec.

(** [delta.total_seconds()], kept exact. *)
Definition total_seconds (us : Z) : Q := us # 1000000.

(** [timezone.now().date()]: the day number of an instant. *)
Definition date_of (now : Z) : Z := now / (86400 * usec_per_sec).

(** [int(x)] for a number kept as a rational: truncation toward zero. *)
Definition int_of_Q (x : Q) : Z := Z.quot (Qnum x) (Z.pos (Qden x)).

(** [max(0, x)]: the first argument unless the second is strictly greater. *)
Definition max0 (x : Q) : Q := if Qlt_le_dec 0 x then x else 0%Q.

(** *** QuizSession *)

(** [self.exam.questions.filter(is_active=True)] *)
Definition active_questions (db : DB) (exam : Z) : list Question :=
  List.filter (fun q => (q_exam q =? exam) && q_is_active q) (questions db).

(** [self.user_answers.filter(is_correct=True)] *)
Definition correct_user_answers (db : DB) (session : Z) : list UserAnswer :=
  List.filter (fun a => (ua_quiz_session a =? session) && ua_is_correct a) (user_answers db).

(** [(correct / total) * 100] *)
Definition percentage (correct total : Z) : float :=
  PrimFloat.mul (PrimFloat.div (float_of_int correct) (float_of_int total)) (float_of_int 100).

Definition set_score (correct total : Z) (score : float) (self : QuizSession) : QuizSession :=
  {| qs_id := qs_id self; qs_user := qs_user self; qs_exam := qs_exam self;
     qs_started_at := qs_started_at self; qs_completed_at := qs_completed_at self;
     qs_is_completed := qs_is_completed self; qs_score := score;
     qs_total_questions := total; qs_correct_answers := correct;
     qs_time_taken_seconds := qs_time_taken_seconds self;
     qs_tokens_granted := qs_tokens_granted self; qs_is_paused := qs_is_paused self;
     qs_paused_at := qs_paused_at self;
     qs_total_paused_seconds := qs_total_paused_seconds self |}.

(** [QuizSession.calculate_score]: the instance after the call and the value
    returned.  The instance is not saved here. *)
Definition calculate_score (db : DB) (self : QuizSession) : QuizSession * pynum :=
  let total_questions_in_exam := Z.of_nat (List.length (active_questions db (qs_exam self))) in
  if total_questions_in_exam =? 0 then (self, PyInt 0)
  else
    let correct := Z.of_nat (List.length (correct_user_answers db (qs_id self))) in
    let score := percentage correct total_questions_in_exam in
    (set_score correct total_questions_in_exam score self, PyFloat score).

Definition save_session (self : QuizSession) (db : DB) : DB :=
  set_quiz_sessions (save_row qs_id self (quiz_sessions db)) db.

Definition set_completed (now : Z) (self : QuizSession) : QuizSession :=
  {| qs_id := qs_id self; qs_user := qs_user self; qs_exam := qs_exam self;
     qs_started_at := qs_started_at self; qs_completed_at := Some now;
     qs_is_completed := true; qs_score := qs_score self;
     qs_total_questions := qs_total_questions self;
     qs_correct_answers := qs_correct_answers self;
     qs_time_taken_seconds := Some (whole_seconds (now - qs_started_at self));
     qs_tokens_granted := qs_tokens_granted self; qs_is_paused := qs_is_paused self;
     qs_paused_at := qs_paused_at self;
     qs_total_paused_seconds := qs_total_paused_seconds self |}.

(** [QuizSession.complete_quiz], [now] being what [timezone.now()] returns.
    [started_at] is set when the row is created, so the test on it holds. *)
Definition complete_quiz (now : Z) (db : DB) (self : QuizSession) : QuizSession * DB :=
  let self1 := set_completed now self in
  let self2 := fst (calculate_score db self1) in
  (self2, save_session self2 db).

Definition set_pause (paused : bool) (at_ : option Z) (total : Z) (self : QuizSession) : QuizSession :=
  {| qs_id := qs_id self; qs_user := qs_user self; qs_exam := qs_exam self;
     qs_started_at := qs_started_at self; qs_completed_at := qs_completed_at self;
     qs_is_completed := qs_is_completed self; qs_score := qs_score self;
     qs_total_questions := qs_total_questions self;
     qs_correct_answers := qs_correct_answers self;
     qs_time_taken_seconds := qs_time_taken_seconds self;
     qs_tokens_granted := qs_tokens_granted self; qs_is_paused := paused;
     qs_paused_at := at_; qs_total_paused_seconds := total |}.

(** [QuizSession.pause_quiz] *)
Definition pause_quiz (now : Z) (db : DB) (self : QuizSession) : QuizSession * DB * bool :=
  if negb (qs_is_paused self) && negb (qs_is_completed self) then
    let self1 := set_pause true (Some now) (qs_total_paused_seconds self) self in
    (self1, save_session self1 db, true)
  else (self, db, false).

(** [QuizSession.resume_quiz] *)
Definition resume_quiz (now : Z) (db : DB) (self : QuizSession) : QuizSession * DB * bool :=
  if qs_is_paused self && negb (qs_is_completed self) then
    let total :=
      match qs_paused_at self with
      | Some paused_at => qs_total_paused_seconds self + whole_seconds (now - paused_at)
      | None => qs_total_paused_seconds self
      end in
    let self1 := set_pause false None total self in
    (self1, save_session self1 db, true)
  else (self, db, false).

(** [QuizSession.get_remaining_time].  [exam] is the row [self.exam] loads;
    [now1] and [now2] are the two readings of [timezone.now()], the second
    taken only while a pause is in progress.  The float arithmetic of the
    source is carried out on exact rationals. *)
Definition get_remaining_time (exam : Exam) (now1 now2 : Z) (self : QuizSession) : Z :=
  if qs_is_completed self then 0
  else
    let exam_duration_seconds := exam_duration_minutes exam * 60 in
    let elapsed_time := total_seconds (now1 - qs_started_at self) in
    let current_pause_duration :=
      match qs_is_paused self, qs_paused_at self with
      | true, Some paused_at => total_seconds (now2 - paused_at)
      | _, _ => 0%Q
      end in
    let actual_elapsed :=
      (elapsed_time - inject_Z (qs_total_paused_seconds self) - current_pause_duration)%Q in
    let remaining := max0 (inject_Z exam_duration_seconds - actual_elapsed)%Q in
    int_of_Q remaining.

(** *** UserAnswer *)

(** [set(self.question.get_correct_choices())]: model instances are equal
    when their keys are, so the set is a set of keys. *)
Definition correct_choices (db : DB) (question : Z) : gset Z :=
  list_to_set (List.map ch_id
    (List.filter (fun c => (ch_question c =? question) && ch_is_correct c) (choices db))).

(** [set(self.selected_choices.all())]: the linked choices that exist. *)
Definition selected_choices (db : DB) (self : UserAnswer) : gset Z :=
  list_to_set (List.map ch_id
    (List.filter (fun c => bool_decide (ch_id c ∈ ua_selected_choices self)) (choices db))).

Definition set_is_correct (v : bool) (self : UserAnswer) : UserAnswer :=
  {| ua_id := ua_id self; ua_quiz_session := ua_quiz_session self;
     ua_question := ua_question self; ua_selected_choices := ua_selected_choices self;
     ua_is_correct := v; ua_answered_at := ua_answered_at self |}.

(** [UserAnswer.check_answer]; [question] is the row [self.question] loads.
    A question type other than the three leaves [is_correct] as it was. *)
Definition check_answer (db : DB) (question : Question) (self : UserAnswer) : UserAnswer * bool :=
  let correct := correct_choices db (q_id question) in
  let selected := selected_choices db self in
  let self1 :=
    if String.eqb (q_question_type question) "single" then
      set_is_correct (bool_decide (size selected = 1%nat) && bool_decide (selected = correct)) self
    else if String.eqb (q_question_type question) "multiple" then
      set_is_correct (bool_decide (selected = correct)) self
    else if String.eqb (q_question_type question) "true_false" then
      set_is_correct (bool_decide (size selected = 1%nat) && bool_decide (selected = correct)) self
    else self in
  (self1, ua_is_correct self1).

(** *** UserProfile *)

Definition save_profile (self : UserProfile) (db : DB) : DB :=
  set_user_profiles (save_row up_id self (user_profiles db)) db.

Definition set_tokens (tokens : Z) (granted : option Z) (self : UserProfile) : UserProfile :=
  {| up_id := up_id self; up_user := up_user self;
     up_subscription_plan := up_subscription_plan self;
     up_tokens := tokens; up_last_token_grant_date := granted |}.

(** [UserProfile.add_tokens] *)
Definition add_tokens (amount : Z) (db : DB) (self : UserProfile) : UserProfile * DB :=
  let self1 := set_tokens (up_tokens self + amount) (up_last_token_grant_date self) self in
  (self1, save_profile self1 db).

(** [UserProfile.deduct_tokens] *)
Definition deduct_tokens (amount : Z) (db : DB) (self : UserProfile) : UserProfile * DB * bool :=
  if up_tokens self >=? amount then
    let self1 := set_tokens (up_tokens self - amount) (up_last_token_grant_date self) self in
    (self1, save_profile self1 db, true)
  else (self, db, false).

(** [UserProfile.has_tokens] *)
Definition has_tokens (amount : Z) (self : UserProfile) : bool := up_tokens self >=? amount.

(** [UserProfile.grant_daily_tokens], [now] being what [timezone.now()]
    returns. *)
Definition grant_daily_tokens (now : Z) (db : DB) (self : UserProfile) : UserProfile * DB * bool :=
  let today := date_of now in
  if bool_decide (up_last_token_grant_date self = Some today) then (self, db, false)
  else
    let self1 := set_tokens (up_tokens self + 10) (Some today) self in
    (self1, save_profile self1 db, true).

(** *** Primary keys *)

(** No two rows of the session table share a key. *)
Definition session_keys_unique (db : DB) : Prop :=
  NoDup (List.map qs_id (quiz_sessions db)).

(** No two rows of the question table share a key. *)
Definition question_keys_unique (db : DB) : Prop :=
  NoDup (List.map q_id (questions db)).

End Models.

(** ** The CSV importer ([import_questions_csv.py]) *)

Module Importer.
Import Models.

(** *** Values, exceptions and the effect of a call *)

(** What a cell of a row holds: a [str], or [None] where the line of the
    file was shorter than its header. *)
Inductive pyval :=
| PyNone
| PyStr (s : string).

Inductive exn :=
| ValueError (msg : string)
| AttributeError (msg : string)
| IntegrityError (msg : string)
| MultipleObjectsReturned (msg : string).

(** [str(e)] *)
Definition str_of_exn (e : exn) : string :=
  match e with
  | ValueError msg | AttributeError msg | IntegrityError msg
  | MultipleObjectsReturned msg => msg
  end.

(** A call that reads and writes the database and either returns or raises;
    the database it leaves behind is returned in both cases. *)
Definition M (A : Type) : Type := DB -> (exn + A) * DB.

#[export] Instance M_ret : MRet M := fun A x db => (inr x, db).

#[export] Instance M_bind : MBind M := fun A B f m db =>
  match m db with
  | (inl e, db') => (inl e, db')
  | (inr x, db') => f x db'
  end.

Definition raise {A} (e : exn) : M A := fun db => (inl e, db).

Definition get_db : M DB := fun db => (inr db, db).

Definition put_db (db' : DB) : M unit := fun _ => (inr tt, db').

(** [try: body except Exception as e: ...]: the exception becomes a value,
    the writes made before it stay. *)
Definition try_except {A} (body : M A) : M (exn + A) := fun db =>
  let '(r, db') := body db in (inr r, db').

(** [with transaction.atomic(): body]: an exception that leaves the block
    restores the database the block started from; a block that ends
    normally keeps its writes. *)
Definition atomic {A} (body : M A) : M A := fun db =>
  match body db with
  | (inl e, _) => (inl e, db)
  | (inr x, db') => (inr x, db')
  end.

(** A call that leaves the database as it found it. *)
Definition reads_only {A} (m : M A) : Prop := forall db, snd (m db) = db.

(** A call that leaves the question table as it found it. *)
Definition keeps_questions {A} (m : M A) : Prop :=
  forall db, questions (snd (m db)) = questions db.

(** *** Helpers of [process_row] *)

(** [row.get(key, default)] *)
Definition row_get (row : gmap string pyval) (key : string) (default : pyval) : pyval :=
  match row !! key with
  | Some v => v
  | None => default
  end.

(** [v.strip()], which [None] does not have. *)
Definition strip_val (v : pyval) : M string :=
  match v with
  | PyStr s => mret (Py.strip s)
  | PyNone => raise (AttributeError "'NoneType' object has no attribute 'strip'")
  end.

(** [Command.remove_all_brackets] on a [str]. *)
Definition remove_all_brackets (text : string) : string :=
  Py.replace "]" "" (Py.replace "[" "" text).

(** [Command.remove_all_brackets] on any value: not a [str], returned as is. *)
Definition remove_all_brackets_val (v : pyval) : pyval :=
  match v with
  | PyStr s => PyStr (remove_all_brackets s)
  | PyNone => PyNone
  end.

Definition nonempty (s : string) : bool := negb (String.eqb s "").

(** [int(row.get(key, d)) if row.get(key, '').strip() else d] *)
Definition int_or (row : gmap string pyval) (key : string) (d : Z) : M Z :=
  s ← strip_val (row_get row key (PyStr ""));
  if nonempty s then
    match row_get row key (PyStr "") with
    | PyStr raw =>
        match Py.int raw with
        | Some n => mret n
        | None => raise (ValueError ("invalid literal for int() with base 10: " +:+ Py.repr raw))
        end
    | PyNone => raise (AttributeError "'NoneType' object has no attribute 'strip'")
    end
  else mret d.

(** [int(s) if s else d], with [ValueError] caught: [d]. *)
Definition int_lenient (s : string) (d : Z) : Z :=
  if nonempty s then
    match Py.int s with
    | Some n => n
    | None => d
    end
  else d.

(** The text a [TextField] stores; [None] violates NOT NULL. *)
Definition not_null (column : string) (v : pyval) : M string :=
  match v with
  | PyStr s => mret s
  | PyNone => raise (IntegrityError ("NOT NULL constraint failed: " +:+ column))
  end.

(** The value a [PositiveIntegerField] stores; the column's CHECK refuses a
    negative one. *)
Definition positive_int (column : string) (n : Z) : M Z :=
  if n <? 0 then raise (IntegrityError ("CHECK constraint failed: " +:+ column))
  else mret n.

Definition multiple_returned (model : string) : exn :=
  MultipleObjectsReturned ("get() returned more than one " +:+ model).

(** *** The ORM calls of [process_row] *)

(** [Category.objects.get_or_create(name=name, defaults={'description': d})] *)
Definition get_or_create_category (name description : string) : M Category :=
  db ← get_db;
  match List.filter (fun c => String.eqb (cat_name c) name) (categories db) with
  | [] =>
      let c := {| cat_id := fresh_id (List.map cat_id (categories db)); cat_name := name;
                  cat_exam_category := "AAAA"; cat_description := description |} in
      _ ← put_db (set_categories (categories db ++ [c]) db);
      mret c
  | [c] => mret c
  | _ => raise (multiple_returned "Category")
  end.

(** [Exam.objects.get_or_create(category=category, name=name, defaults=...)];
    the defaults were evaluated by the caller. *)
Definition get_or_create_exam (category : Category) (name : string) (description : pyval)
    (duration_minutes total_questions passing_score : Z) : M Exam :=
  db ← get_db;
  match List.filter (fun e => (exam_category e =? cat_id category) && String.eqb (exam_name e) name)
          (exams db) with
  | [] =>
      d ← not_null "quiz_exam.description" description;
      dm ← positive_int "duration_minutes" duration_minutes;
      tq ← positive_int "total_questions" total_questions;
      ps ← positive_int "passing_score" passing_score;
      let e := {| exam_id := fresh_id (List.map exam_id (exams db));
                  exam_category := cat_id category; exam_exam_name := "UPSC";
                  exam_name := name; exam_description := d; exam_duration_minutes := dm;
                  exam_total_questions := tq; exam_passing_score := ps;
                  exam_is_active := true |} in
      _ ← put_db (set_exams (exams db ++ [e]) db);
      mret e
  | [e] => mret e
  | _ => raise (multiple_returned "Exam")
  end.

(** [Topic.objects.get_or_create(exam=exam, name=name, defaults=...)] *)
Definition get_or_create_topic (exam : Exam) (name : string) (description : pyval)
    (order : Z) : M Topic :=
  db ← get_db;
  match List.filter (fun t => (topic_exam t =? exam_id exam) && String.eqb (topic_name t) name)
          (topics db) with
  | [] =>
      d ← not_null "quiz_topic.description" description;
      o ← positive_int "order" order;
      let t := {| topic_id := fresh_id (List.map topic_id (topics db));
                  topic_exam := exam_id exam; topic_name := name;
                  topic_description := d; topic_order := o |} in
      _ ← put_db (set_topics (topics db ++ [t]) db);
      mret t
  | [t] => mret t
  | _ => raise (multiple_returned "Topic")
  end.

(** The [defaults] of the question upsert. *)
Record QuestionDefaults := {
  d_topic : option Z;
  d_question_type : string;
  d_difficulty : string;
  d_explanation : string;
  d_points : Z;
  d_order : Z;
  d_is_active : bool }.

Definition question_of (id exam : Z) (question_text : string) (d : QuestionDefaults) : Question :=
  {| q_id := id; q_exam := exam; q_topic := d_topic d; q_question_text := question_text;
     q_question_type := d_question_type d; q_difficulty := d_difficulty d;
     q_explanation := d_explanation d; q_points := d_points d; q_order := d_order d;
     q_is_active := d_is_active d |}.

(** [Question.objects.update_or_create(exam=exam, question_text=text,
    defaults=d)]: the question and whether it was created. *)
Definition update_or_create_question (exam : Exam) (question_text : string)
    (d : QuestionDefaults) : M (Question * bool) :=
  db ← get_db;
  match List.filter (fun q => (q_exam q =? exam_id exam) && String.eqb (q_question_text q) question_text)
          (questions db) with
  | [] =>
      _ ← positive_int "points" (d_points d);
      _ ← positive_int "order" (d_order d);
      let q := question_of (fresh_id (List.map q_id (questions db))) (exam_id exam) question_text d in
      _ ← put_db (set_questions (questions db ++ [q]) db);
      mret (q, true)
  | [q0] =>
      _ ← positive_int "points" (d_points d);
      _ ← positive_int "order" (d_order d);
      let q := question_of (q_id q0) (q_exam q0) (q_question_text q0) d in
      _ ← put_db (set_questions (save_row q_id q (questions db)) db);
      mret (q, false)
  | _ => raise (multiple_returned "Question")
  end.

(** [question.choices.all().delete()]: the question's choices go, and with
    them their links in [selected_choices] (the relation cascades). *)
Definition delete_choices (question : Question) : M unit :=
  db ← get_db;
  let gone : gset Z :=
    list_to_set (List.map ch_id (List.filter (fun c => ch_question c =? q_id question) (choices db))) in
  let unlink (a : UserAnswer) : UserAnswer :=
    {| ua_id := ua_id a; ua_quiz_session := ua_quiz_session a; ua_question := ua_question a;
       ua_selected_choices := ua_selected_choices a ∖ gone;
       ua_is_correct := ua_is_correct a; ua_answered_at := ua_answered_at a |} in
  put_db (set_user_answers (List.map unlink (user_answers db))
           (set_choices (List.filter (fun c => negb (ch_question c =? q_id question)) (choices db)) db)).

(** [Choice.objects.create(question=..., choice_text=..., is_correct=...,
    order=...)] *)
Definition create_choice (question : Question) (choice_text : string) (is_correct : bool)
    (order : Z) : M unit :=
  db ← get_db;
  let c := {| ch_id := fresh_id (List.map ch_id (choices db)); ch_question := q_id question;
              ch_choice_text := choice_text; ch_is_correct := is_correct; ch_order := order |} in
  put_db (set_choices (choices db ++ [c]) db).

(** *** Resolving the correct answer (lines 490-572 of [process_row]) *)

(** [s.strip().lower()] *)
Definition strip_lower (s : string) : string := Py.lower (Py.strip s).

(** First loop: the first choice equal to the answer, case and outer blanks
    apart. *)
Fixpoint exact_match (correct_lower : string) (l : list (Z * string)) : list Z :=
  match l with
  | [] => []
  | (idx, choice_text) :: l' =>
      if String.eqb (strip_lower choice_text) correct_lower then [idx]
      else exact_match correct_lower l'
  end.

(** Second loop: every choice that contains the answer or is contained in
    it; a [single] question stops at the first. *)
Fixpoint substring_match (single : bool) (correct_lower : string) (l : list (Z * string))
    : list Z :=
  match l with
  | [] => []
  | (idx, choice_text) :: l' =>
      let choice_lower := strip_lower choice_text in
      if Py.contains correct_lower choice_lower || Py.contains choice_lower correct_lower
      then idx :: (if single then [] else substring_match single correct_lower l')
      else substring_match single correct_lower l'
  end.

(** Third loop, run when the answer occurs in the question text: the first
    choice that contains the answer, or the decimal form of the answer read
    as a number. *)
Fixpoint question_text_match (correct_lower : string) (l : list (Z * string)) : list Z :=
  match l with
  | [] => []
  | (idx, choice_text) :: l' =>
      let choice_lower := strip_lower choice_text in
      if String.eqb correct_lower choice_lower || Py.contains correct_lower choice_lower
      then [idx]
      else
        match Py.int correct_lower with
        | Some answer_num =>
            if Py.contains (Py.str_of_int answer_num) choice_text
               || Py.contains correct_lower choice_text
            then [idx]
            else question_text_match correct_lower l'
        | None => question_text_match correct_lower l'
        end
  end.

(** [[int(x.strip()) for x in parts]]: [None] when one [int()] raises. *)
Definition parse_all (parts : list string) : option (list Z) :=
  mapM (fun x => Py.int (Py.strip x)) parts.

(** [[idx - 1 for idx in indices if 1 <= idx <= len(choices_list)]] *)
Definition valid_indices (len : Z) (indices : list Z) : list Z :=
  List.map (fun idx => idx - 1) (List.filter (fun idx => (1 <=? idx) && (idx <=? len)) indices).

(** [[c.strip().lower() for c in text.split('|') if c.strip()]] *)
Definition pipe_parts (text : string) : list string :=
  List.map strip_lower (List.filter (fun c => nonempty (Py.strip c)) (Py.split "|" text)).

(** [if i not in correct_indices: correct_indices.append(i)] *)
Definition add_index (i : Z) (acc : list Z) : list Z :=
  if List.existsb (Z.eqb i) acc then acc else acc ++ [i].

(** The nested loops over the choices and the pipe-separated answer texts.
    [with_eq] tells the two copies in the source apart: the one in the
    innermost [except] also tests equality. *)
Definition pipe_text_match (with_eq : bool) (parts : list string) (l : list (Z * string))
    (correct_indices : list Z) : list Z :=
  List.fold_left (fun acc (ic : Z * string) =>
    let choice_lower := strip_lower (snd ic) in
    List.fold_left (fun acc correct_choice =>
      if (with_eq && String.eqb correct_choice choice_lower)
         || Py.contains correct_choice choice_lower
         || Py.contains choice_lower correct_choice
      then add_index (fst ic) acc else acc) parts acc) l correct_indices.

(** The [try] ladder of lines 537-561: one number, comma-separated numbers,
    pipe-separated numbers, and in the last [except] the pipe-separated
    texts. *)
Definition numeric_ladder (l : list (Z * string)) (len : Z) (text : string) : list Z :=
  match Py.int (Py.strip text) with
  | Some choice_num => if (1 <=? choice_num) && (choice_num <=? len) then [choice_num - 1] else []
  | None =>
      match parse_all (Py.split "," text) with
      | Some indices => valid_indices len indices
      | None =>
          match parse_all (Py.split "|" text) with
          | Some indices => valid_indices len indices
          | None => pipe_text_match true (pipe_parts text) l []
          end
      end
  end.

(** The whole block: [correct_indices] as line 574 finds it. *)
Definition resolve_correct_indices (question_type question_text : string)
    (choices_list : list string) (correct_answer_text : string) : list Z :=
  if nonempty correct_answer_text then
    let l := Py.enumerate choices_list in
    let len := Z.of_nat (List.length choices_list) in
    let correct_lower := strip_lower correct_answer_text in
    let ci := exact_match correct_lower l in
    let ci :=
      if is_nil ci
      then substring_match (String.eqb question_type "single") correct_lower l
      else ci in
    let ci :=
      if is_nil ci then
        if Py.contains correct_lower (Py.lower question_text)
        then question_text_match correct_lower l else []
      else ci in
    let ci := if is_nil ci then numeric_ladder l len correct_answer_text else ci in
    if is_nil ci && Py.contains "|" correct_answer_text
    then pipe_text_match false (pipe_parts correct_answer_text) l ci
    else ci
  else [].

(** The message of line 576. *)
Definition could_not_determine (correct_answer_text : string) (choices_list : list string)
    : string :=
  "Could not determine correct answer. Provided: " +:+ String Py.dquote correct_answer_text
  +:+ String Py.dquote ". Choices: " +:+ Py.repr_list choices_list.

(** *** [Command.process_row] *)

Record RowResult := {
  created : bool;
  choices_count : Z }.

Definition choice_keys : list string :=
  ["choice_1"; "choice_2"; "choice_3"; "choice_4"; "choice_5"; "choice_6"].

(** [for x in l: body(x)] *)
Fixpoint for_each {A} (body : A -> M unit) (l : list A) : M unit :=
  match l with
  | [] => mret tt
  | x :: l' => _ ← body x; for_each body l'
  end.

(** The loop over [choice_1] .. [choice_6] (lines 470-475). *)
Fixpoint choice_columns (row : gmap string pyval) (keys : list string) (choices_list : list string)
    : M (list string) :=
  match keys with
  | [] => mret choices_list
  | choice_key :: keys' =>
      match row !! choice_key with
      | Some v =>
          s ← strip_val v;
          if nonempty s then
            let choice_text := remove_all_brackets s in
            choice_columns row keys'
              (if nonempty choice_text then choices_list ++ [choice_text] else choices_list)
          else choice_columns row keys' choices_list
      | None => choice_columns row keys' choices_list
      end
  end.

(** Lines 466-481: the choices of the row, from the separate columns or from
    the pipe-separated [choices] column. *)
Definition parse_choices (row : gmap string pyval) (has_choice_columns : bool) : M (list string) :=
  if has_choice_columns then choice_columns row choice_keys []
  else
    choices_text ← strip_val (row_get row "choices" (PyStr ""));
    if nonempty choices_text then
      let choices_text := remove_all_brackets choices_text in
      mret (List.map (fun c => remove_all_brackets (Py.strip c))
              (List.filter (fun c => nonempty (Py.strip c)) (Py.split "|" choices_text)))
    else mret [].

(** Lines 487-489: the text of the correct answer. *)
Definition parse_correct_answer_text (row : gmap string pyval) : M string :=
  a ← strip_val (row_get row "correct_answer" (PyStr ""));
  raw ← (if nonempty a then mret a else strip_val (row_get row "correct_choices" (PyStr "")));
  mret (remove_all_brackets raw).

(** Lines 574-582: no index is an error, and so is an index outside the
    choices. *)
Definition check_indices (correct_answer_text : string) (choices_list : list string)
    (correct_indices : list Z) : M unit :=
  if is_nil correct_indices
  then raise (ValueError (could_not_determine correct_answer_text choices_list))
  else
    match List.find (fun idx => (idx <? 0) || (idx >=? Z.of_nat (List.length choices_list)))
            correct_indices with
    | Some idx => raise (ValueError ("Invalid correct choice index: " +:+ Py.str_of_int (idx + 1)))
    | None => mret tt
    end.

(** Lines 584-596: the question's choices are deleted and created anew. *)
Definition replace_choices (question : Question) (choices_list : list string)
    (correct_indices : list Z) : M Z :=
  _ ← delete_choices question;
  _ ← for_each (fun ic : Z * string =>
         create_choice question (snd ic) (List.existsb (Z.eqb (fst ic)) correct_indices) (fst ic))
       (Py.enumerate choices_list);
  mret (Z.of_nat (List.length choices_list)).

(** The locals of [process_row] that outlive the question upsert. *)
Record Upserted := {
  u_question : Question;
  u_created : bool;
  u_question_type : string;
  u_question_text : string }.

(** Lines 377-417: the category and the exam of the row, and its topic if it
    names one. *)
Definition get_exam_and_topic (row : gmap string pyval) : M (Exam * option Z) :=
  category_name ← strip_val (row_get row "category" (PyStr "General"));
  let category_name := if nonempty category_name then category_name else "General" in
  let category_name := remove_all_brackets category_name in
  category ← get_or_create_category category_name
               ("Category for " +:+ category_name +:+ " exams");
  exam_name ← strip_val (row_get row "exam" (PyStr ""));
  if negb (nonempty exam_name) then raise (ValueError "exam name cannot be empty")
  else
    let exam_name := remove_all_brackets exam_name in
    duration_minutes ← int_or row "duration_minutes" 60;
    total_questions ← int_or row "total_questions" 10;
    passing_score ← int_or row "passing_score" 60;
    exam ← get_or_create_exam category exam_name
             (remove_all_brackets_val (row_get row "exam_description" (PyStr "")))
             duration_minutes total_questions passing_score;
    topic_text ← strip_val (row_get row "topic" (PyStr ""));
    if nonempty topic_text then
      topic_order ← int_or row "topic_order" 0;
      t ← get_or_create_topic exam (remove_all_brackets topic_text)
            (remove_all_brackets_val (row_get row "topic_description" (PyStr "")))
            topic_order;
      mret (exam, Some (topic_id t))
    else mret (exam, None).

(** Lines 419-448: the text of the question and the values its other
    columns give. *)
Definition parse_question (row : gmap string pyval) (topic : option Z)
    : M (string * QuestionDefaults) :=
  question_text ← strip_val (row_get row "question_text" (PyStr ""));
  let question_text := remove_all_brackets question_text in
  if negb (nonempty question_text) then raise (ValueError "question_text cannot be empty")
  else
    question_type ← strip_val (row_get row "question_type" (PyStr "single"));
    let question_type := Py.lower question_type in
    let question_type :=
      if List.existsb (String.eqb question_type) ["single"; "multiple"; "true_false"]
      then question_type else "single" in
    difficulty ← strip_val (row_get row "difficulty" (PyStr "medium"));
    let difficulty := Py.lower difficulty in
    let difficulty :=
      if List.existsb (String.eqb difficulty) ["easy"; "medium"; "hard"]
      then difficulty else "medium" in
    explanation ← strip_val (row_get row "explanation" (PyStr ""));
    let explanation := remove_all_brackets explanation in
    points_str ← strip_val (row_get row "points" (PyStr "1"));
    let points := int_lenient points_str 1 in
    order_str ← strip_val (row_get row "order" (PyStr "0"));
    let order := int_lenient order_str 0 in
    is_active ← strip_val (row_get row "is_active" (PyStr "true"));
    let is_active := List.existsb (String.eqb (Py.lower is_active)) ["true"; "1"; "yes"; "y"; ""] in
    mret (question_text,
          {| d_topic := topic; d_question_type := question_type; d_difficulty := difficulty;
             d_explanation := explanation; d_points := points; d_order := order;
             d_is_active := is_active |}).

(** Lines 377-463: category, exam, topic and the question upsert. *)
Definition upsert_question (row : gmap string pyval) : M Upserted :=
  et ← get_exam_and_topic row;
  qd ← parse_question row (snd et);
  qc ← update_or_create_question (fst et) (fst qd) (snd qd);
  mret {| u_question := fst qc; u_created := snd qc;
          u_question_type := d_question_type (snd qd); u_question_text := fst qd |}.

(** [Command.process_row(row, row_num, has_choice_columns)] *)
Definition process_row (row : gmap string pyval) (row_num : Z) (has_choice_columns : bool)
    : M RowResult :=
  u ← upsert_question row;
  choices_list ← parse_choices row has_choice_columns;
  if is_nil choices_list then raise (ValueError "At least one choice is required")
  else
    correct_answer_text ← parse_correct_answer_text row;
    let correct_indices :=
      resolve_correct_indices (u_question_type u) (u_question_text u)
        choices_list correct_answer_text in
    _ ← check_indices correct_answer_text choices_list correct_indices;
    n ← replace_choices (u_question u) choices_list correct_indices;
    mret {| created := u_created u; choices_count := n |}.

(** *** [Command.process_csv_file], from the parsed file on *)

(** A row as [csv.DictReader] yields it: the cells under the header's names
    ([None] where the line was short) and the surplus cells of a long line,
    which [DictReader] keeps as a list under the key [None]. *)
Record CsvRow := {
  cells : gmap string pyval;
  surplus : list string }.

(** What the reader gives for a file: the header as cleaned by lines
    174-186, and the rows.  Decoding, the comma-escaping pass and the [csv]
    module itself are outside the model. *)
Record ParsedCsv := {
  fieldnames : list string;
  rows : list CsvRow }.

(** The file system: the text of each path. *)
Definition FS : Type := gmap string string.

Definition newline : string := String (Py.chr 10) EmptyString.

(** [Command.normalize_column_name]: [None] for an empty name. *)
Definition normalize_column_name (col_name : string) : option string :=
  if nonempty col_name then Some (Py.replace " " "_" (Py.strip (Py.lower col_name)))
  else None.

(** [{self.normalize_column_name(col): col for col in fieldnames}], without
    the key [None], which nothing looks up. *)
Definition normalized_fieldnames (names : list string) : gmap string string :=
  List.fold_left (fun m col =>
    match normalize_column_name col with
    | Some k => <[k := col]> m
    | None => m
    end) names ∅.

Definition column_mappings : list (string * list string) :=
  [("category", ["category"; "cat"]);
   ("exam", ["exam"; "exam_name"]);
   ("question_text", ["question_text"; "question"; "questiontext"; "q"]);
   ("topic", ["topic"]);
   ("difficulty", ["difficulty"; "diff"]);
   ("explanation", ["explanation"; "expl"]);
   ("points", ["points"; "point"]);
   ("question_type", ["question_type"; "type"; "qtype"]);
   ("correct_answer", ["correct_answer"; "correct_choices"; "correct"; "answer"; "right_answer"])].

(** [choice_{i}], [choice{i}], [option_{i}], [option{i}] for [i] in 1..6. *)
Definition choice_mappings : list (string * list string) :=
  List.map (fun i : string =>
    ("choice_" +:+ i, ["choice_" +:+ i; "choice" +:+ i; "option_" +:+ i; "option" +:+ i]))
    ["1"; "2"; "3"; "4"; "5"; "6"].

(** The inner loop with its [break]: the first variation the header has. *)
Definition map_column (normalized : gmap string string) (column_map : gmap string string)
    (mapping : string * list string) : gmap string string :=
  match List.find (fun v => bool_decide (is_Some (normalized !! v))) (snd mapping) with
  | Some variation =>
      match normalized !! variation with
      | Some original => <[fst mapping := original]> column_map
      | None => column_map
      end
  | None => column_map
  end.

(** Lines 195-229 *)
Definition build_column_map (names : list string) : gmap string string :=
  let normalized := normalized_fieldnames names in
  let column_map := List.fold_left (map_column normalized) column_mappings ∅ in
  let column_map := List.fold_left (map_column normalized) choice_mappings column_map in
  match normalized !! "choices" with
  | Some original => <["choices" := original]> column_map
  | None => column_map
  end.

Definition has_key (m : gmap string string) (k : string) : bool := bool_decide (is_Some (m !! k)).

(** Lines 192-246: the column map and [has_choice_columns], or the
    [ValueError] that rejects the file before any row is read. *)
Definition read_header (names : list string) : exn + (gmap string string * bool) :=
  if is_nil names then inl (ValueError "CSV file has no headers")
  else
    let column_map := build_column_map names in
    if negb (has_key column_map "exam") || negb (has_key column_map "question_text") then
      inl (ValueError ("Missing required columns. Found: " +:+ Py.join ", " names
                       +:+ ". Need: exam (or Exam) and question_text (or Question Text)"))
    else
      let has_choice_columns := List.existsb (has_key column_map) choice_keys in
      let has_choices_column := has_key column_map "choices" in
      if negb (has_choice_columns || has_choices_column) then
        inl (ValueError ("No choice columns found. Need either separate Choice 1, Choice 2, etc. columns "
                         +:+ "or a " +:+ String Py.dquote "choices" +:+ String Py.dquote
                               " column with pipe-separated values"))
      else inr (column_map, has_choice_columns).

Definition placeholder : string := "___COMMA_PLACEHOLDER___".

(** Lines 263-272: the cleaning of one cell. *)
Definition clean_value (v : pyval) : pyval :=
  match v with
  | PyStr value =>
      let value := Py.strip value in
      let value :=
        if Py.startswith "[" value && Py.endswith "]" value
        then Py.strip (Py.slice_1_m1 value) else value in
      let value :=
        if Py.startswith (String Py.dquote "") value && Py.endswith (String Py.dquote "") value
        then Py.strip (Py.slice_1_m1 value) else value in
      PyStr (Py.replace placeholder "," value)
  | PyNone => PyNone
  end.

Definition bracket_free_fields : list string :=
  ["question_text"; "explanation"; "category"; "exam"; "topic"] ++ choice_keys ++ ["correct_answer"].

(** Lines 258-291: the row under the standard column names, cleaned. *)
Definition mapped_row (column_map : gmap string string) (row : CsvRow) : gmap string pyval :=
  let mapped := (fun original_name => clean_value (row_get (cells row) original_name (PyStr "")))
                <$> column_map in
  List.fold_left (fun m field =>
    match m !! field with
    | Some (PyStr text) => <[field := PyStr (remove_all_brackets text)]> m
    | _ => m
    end) bracket_free_fields mapped.

(** [any(row.values())] *)
Definition any_value (row : CsvRow) : bool :=
  List.existsb (fun kv : string * pyval =>
    match snd kv with
    | PyStr text => nonempty text
    | PyNone => false
    end) (map_to_list (cells row))
  || negb (is_nil (surplus row)).

Record Tally := {
  errors : list string;
  questions_created : Z;
  questions_updated : Z;
  choices_created : Z }.

Definition empty_tally : Tally :=
  {| errors := []; questions_created := 0; questions_updated := 0; choices_created := 0 |}.

(** The body of the loop of line 250, with its [try]/[except]. *)
Definition import_row (column_map : gmap string string) (has_choice_columns : bool)
    (row_num : Z) (row : CsvRow) (t : Tally) : M Tally :=
  if negb (any_value row) then mret t
  else
    r ← try_except (process_row (mapped_row column_map row) row_num has_choice_columns);
    match r with
    | inr result =>
        mret {| errors := errors t;
                questions_created := questions_created t + (if created result then 1 else 0);
                questions_updated := questions_updated t + (if created result then 0 else 1);
                choices_created := choices_created t + choices_count result |}
    | inl e =>
        mret {| errors := errors t ++ ["Row " +:+ Py.str_of_int row_num +:+ ": " +:+ str_of_exn e];
                questions_created := questions_created t;
                questions_updated := questions_updated t;
                choices_created := choices_created t |}
    end.

(** [for row_num, row in enumerate(reader, start=...)] *)
Fixpoint import_rows (column_map : gmap string string) (has_choice_columns : bool)
    (row_num : Z) (l : list CsvRow) (t : Tally) : M Tally :=
  match l with
  | [] => mret t
  | row :: l' =>
      t' ← import_row column_map has_choice_columns row_num row t;
      import_rows column_map has_choice_columns (row_num + 1) l' t'
  end.

(** The name up to its last dot, when something follows that dot. *)
Fixpoint before_suffix (name : string) : string :=
  match name with
  | EmptyString => EmptyString
  | String c rest =>
      if Ascii.eqb c "." && negb (Py.has_char "." rest) && nonempty rest then EmptyString
      else String c (before_suffix rest)
  end.

(** [Path.stem] of a file name: the name without its last suffix; a leading
    dot starts no suffix. *)
Definition stem (name : string) : string :=
  match name with
  | EmptyString => EmptyString
  | String c rest => String c (before_suffix rest)
  end.

(** [dest.unlink()] if it exists, then [src.rename(dest)]. *)
Definition move_file (src dest : string) (fs : FS) : FS :=
  match fs !! src with
  | Some text => <[dest := text]> (delete src fs)
  | None => fs
  end.

Definition path_join (folder name : string) : string := folder +:+ "/" +:+ name.

Definition error_log_path (failed_path name : string) : string :=
  path_join failed_path (stem name +:+ "_errors.txt").

(** Lines 315-333: the log of the row errors and the move to the failed
    folder. *)
Definition fail_with_row_errors (csv_file name failed_path : string) (errs : list string)
    (fs : FS) : FS :=
  let log := "Errors processing " +:+ name +:+ ":" +:+ newline +:+ newline
             +:+ Py.join "" (List.map (fun e => e +:+ newline) errs) in
  move_file csv_file (path_join failed_path name) (<[error_log_path failed_path name := log]> fs).

(** Lines 347-362: the handler of an exception that ends the file. *)
Definition fail_with_exception (csv_file name failed_path : string) (e : exn) (fs : FS) : FS :=
  let error_msg := "Error processing file: " +:+ str_of_exn e in
  let log := "Error processing " +:+ name +:+ ":" +:+ newline +:+ newline
             +:+ error_msg +:+ newline in
  move_file csv_file (path_join failed_path name) (<[error_log_path failed_path name := log]> fs).

(** [Command.process_csv_file]: [csv_file] is the path of the file, [name]
    its last component, [csv] what the reader yields for it.  Returns the
    flag of the source with the database and the file system it leaves. *)
Definition process_csv_file (csv : ParsedCsv) (csv_file name processed_path failed_path : string)
    (db : DB) (fs : FS) : bool * DB * FS :=
  match read_header (fieldnames csv) with
  | inl e => (false, db, fail_with_exception csv_file name failed_path e fs)
  | inr (column_map, has_choice_columns) =>
      match atomic (import_rows column_map has_choice_columns 2 (rows csv) empty_tally) db with
      | (inl e, db') => (false, db', fail_with_exception csv_file name failed_path e fs)
      | (inr t, db') =>
          if negb (is_nil (errors t))
          then (false, db', fail_with_row_errors csv_file name failed_path (errors t) fs)
          else (true, db', move_file csv_file (path_join processed_path name) fs)
      end
  end.

End Importer.

(** ** The quiz flow ([quiz/views.py]) and the REST actions ([quiz/api_views.py]) *)

Module Views.
Import Models.

(** What a view reads of the request: the method, the logged-in user (if
    any) and the posted fields, already converted to numbers. *)
Record Request := {
  method : string;
  user : option Z;
  question_id : option Z;
  choice_ids : list Z;
  exam_id_field : option Z }.

Inductive Body :=
| BError (msg : string)
| BAnswer (is_correct : bool)
| BPaused
| BResumed (remaining_time : Z)
| BSession (s : QuizSession)
| BResults (s : QuizSession) (total_questions correct_count : Z) (score : float).

Inductive Response :=
| JsonResponse (status : Z) (body : Body)
| Redirect (name : string)
| Render (template : string)
| Http404
| ServerError.

(** The readings of [timezone.now()] during one request, in order. *)
Definition Clock : Type := nat -> Z.

(** [get_object_or_404(QuizSession, id=session_id, user=request.user)] *)
Definition get_session (db : DB) (session_id u : Z) : option QuizSession :=
  List.find (fun s => (qs_id s =? session_id) && (qs_user s =? u)) (quiz_sessions db).

(** [QuizSession.objects.create(user=..., exam=...)], [started_at] stamped. *)
Definition create_session (now u exam : Z) (db : DB) : QuizSession * DB :=
  let s := {| qs_id := fresh_id (List.map qs_id (quiz_sessions db)); qs_user := u;
              qs_exam := exam; qs_started_at := now; qs_completed_at := None;
              qs_is_completed := false; qs_score := 0%float; qs_total_questions := 0;
              qs_correct_answers := 0; qs_time_taken_seconds := None;
              qs_tokens_granted := false; qs_is_paused := false; qs_paused_at := None;
              qs_total_paused_seconds := 0 |} in
  (s, set_quiz_sessions (quiz_sessions db ++ [s]) db).

(** [@login_required]: an anonymous request is sent to the login page. *)
Definition login_required (req : Request) (view : Z -> DB * Response) (db : DB) : DB * Response :=
  match user req with
  | Some u => view u
  | None => (db, Redirect "login")
  end.

(** [get_object_or_404(Exam, id=exam_id, is_active=True)] *)
Definition get_active_exam (db : DB) (exam_id : Z) : option Exam :=
  List.find (fun e => (Models.exam_id e =? exam_id) && exam_is_active e) (exams db).

(** [views.quiz_start] *)
Definition quiz_start (clock : Clock) (req : Request) (exam_id : Z) (db : DB) : DB * Response :=
  login_required req (fun u =>
    match get_active_exam db exam_id with
    | None => (db, Http404)
    | Some exam =>
        if is_nil (active_questions db (Models.exam_id exam)) then (db, Redirect "exam_list")
        else
          match List.find (fun s => (qs_user s =? u) && (qs_exam s =? Models.exam_id exam)
                                    && negb (qs_is_completed s)) (quiz_sessions db) with
          | Some _ => (db, Redirect "quiz_question")
          | None => (snd (create_session (clock 0%nat) u (Models.exam_id exam) db),
                     Redirect "quiz_question")
          end
    end) db.

Definition find_exam (db : DB) (exam_id : Z) : option Exam :=
  find_row Models.exam_id exam_id (exams db).

(** [views.quiz_question]: the rendering apart, it resumes a paused
    session.  A session whose exam row is missing cannot exist (the foreign
    key cascades); the model answers it with a server error. *)
Definition quiz_question (clock : Clock) (req : Request) (session_id : Z) (db : DB)
    : DB * Response :=
  login_required req (fun u =>
    match get_session db session_id u with
    | None => (db, Http404)
    | Some quiz_session =>
        if qs_is_completed quiz_session then (db, Redirect "quiz_result")
        else if is_nil (active_questions db (qs_exam quiz_session)) then (db, Redirect "exam_list")
        else
          match find_exam db (qs_exam quiz_session) with
          | None => (db, ServerError)
          | Some exam =>
              let remaining_time_seconds :=
                get_remaining_time exam (clock 0%nat) (clock 1%nat) quiz_session in
              if qs_is_paused quiz_session
              then (snd (fst (resume_quiz (clock 2%nat) db quiz_session)),
                    Render "quiz/quiz_question.html")
              else (db, Render "quiz/quiz_question.html")
          end
    end) db.

(** [UserAnswer.objects.get_or_create(quiz_session=..., question=...,
    defaults={})]; the pair is unique in the table. *)
Definition get_or_create_answer (now session question : Z) (db : DB) : UserAnswer * DB :=
  match List.find (fun a => (ua_quiz_session a =? session) && (ua_question a =? question))
          (user_answers db) with
  | Some a => (a, db)
  | None =>
      let a := {| ua_id := fresh_id (List.map ua_id (user_answers db));
                  ua_quiz_session := session; ua_question := question;
                  ua_selected_choices := ∅; ua_is_correct := false; ua_answered_at := now |} in
      (a, set_user_answers (user_answers db ++ [a]) db)
  end.

Definition save_answer (self : UserAnswer) (db : DB) : DB :=
  set_user_answers (save_row ua_id self (user_answers db)) db.

(** [Choice.objects.filter(id__in=choice_ids, question=question)] *)
Definition chosen (db : DB) (ids : list Z) (question : Question) : list Choice :=
  List.filter (fun c => List.existsb (Z.eqb (ch_id c)) ids && (ch_question c =? q_id question))
    (choices db).

(** The part the two submit views share from [get_or_create] on: the answer
    row is found or made, its choices are replaced, it is checked and saved. *)
Definition store_answer (now : Z) (quiz_session : QuizSession) (question : Question)
    (selected : list Choice) (db : DB) : UserAnswer * DB :=
  let '(user_answer, db1) := get_or_create_answer now (qs_id quiz_session) (q_id question) db in
  let linked :=
    {| ua_id := ua_id user_answer; ua_quiz_session := ua_quiz_session user_answer;
       ua_question := ua_question user_answer;
       ua_selected_choices := list_to_set (List.map ch_id selected);
       ua_is_correct := ua_is_correct user_answer;
       ua_answered_at := ua_answered_at user_answer |} in
  let db2 := save_answer linked db1 in
  let checked := fst (check_answer db2 question linked) in
  (checked, save_answer checked db2).

(** The body both submit views run once the session is found. *)
Definition submit_to (clock : Clock) (req : Request) (quiz_session : QuizSession) (db : DB)
    : DB * Response + UserAnswer * DB :=
  if qs_is_completed quiz_session
  then inl (db, JsonResponse 400 (BError "Quiz already completed"))
  else
    match question_id req, is_nil (choice_ids req) with
    | Some qid, false =>
        match List.find (fun q => (q_id q =? qid) && (q_exam q =? qs_exam quiz_session))
                (questions db) with
        | None => inl (db, Http404)
        | Some question =>
            let selected := chosen db (choice_ids req) question in
            if is_nil selected then inl (db, JsonResponse 400 (BError "Invalid choices"))
            else inr (store_answer (clock 0%nat) quiz_session question selected db)
        end
    | _, _ => inl (db, JsonResponse 400 (BError "Missing question_id or choice_ids"))
    end.

(** [views.quiz_submit_answer] *)
Definition quiz_submit_answer (clock : Clock) (req : Request) (session_id : Z) (db : DB)
    : DB * Response :=
  login_required req (fun u =>
    if negb (String.eqb (method req) "POST")
    then (db, JsonResponse 405 (BError "Invalid request method"))
    else
      match get_session db session_id u with
      | None => (db, Http404)
      | Some quiz_session =>
          match submit_to clock req quiz_session db with
          | inl r => r
          | inr (user_answer, db') => (db', JsonResponse 200 (BAnswer (ua_is_correct user_answer)))
          end
      end) db.

(** [views.pause_quiz] *)
Definition pause_quiz_view (clock : Clock) (req : Request) (session_id : Z) (db : DB)
    : DB * Response :=
  login_required req (fun u =>
    if negb (String.eqb (method req) "POST")
    then (db, JsonResponse 405 (BError "Invalid request method"))
    else
      match get_session db session_id u with
      | None => (db, Http404)
      | Some quiz_session =>
          if qs_is_completed quiz_session
          then (db, JsonResponse 400 (BError "Quiz already completed"))
          else
            let '(_, db', success) := pause_quiz (clock 0%nat) db quiz_session in
            if success then (db', JsonResponse 200 BPaused)
            else (db', JsonResponse 400 (BError "Quiz is already paused"))
      end) db.

(** [views.resume_quiz] *)
Definition resume_quiz_view (clock : Clock) (req : Request) (session_id : Z) (db : DB)
    : DB * Response :=
  login_required req (fun u =>
    if negb (String.eqb (method req) "POST")
    then (db, JsonResponse 405 (BError "Invalid request method"))
    else
      match get_session db session_id u with
      | None => (db, Http404)
      | Some quiz_session =>
          if qs_is_completed quiz_session
          then (db, JsonResponse 400 (BError "Quiz already completed"))
          else
            let '(resumed, db', success) := resume_quiz (clock 0%nat) db quiz_session in
            if success then
              match find_exam db' (qs_exam resumed) with
              | Some exam =>
                  (db', JsonResponse 200
                          (BResumed (get_remaining_time exam (clock 1%nat) (clock 2%nat) resumed)))
              | None => (db', ServerError)
              end
            else (db', JsonResponse 400 (BError "Quiz is not paused"))
      end) db.

(** [UserProfile.objects.get_or_create(user=...)], with the field defaults. *)
Definition get_or_create_profile (u : Z) (db : DB) : UserProfile * DB :=
  match List.find (fun p => up_user p =? u) (user_profiles db) with
  | Some p => (p, db)
  | None =>
      let p := {| up_id := fresh_id (List.map up_id (user_profiles db)); up_user := u;
                  up_subscription_plan := "basic"; up_tokens := 100;
                  up_last_token_grant_date := None |} in
      (p, set_user_profiles (user_profiles db ++ [p]) db)
  end.

Definition set_tokens_granted (self : QuizSession) : QuizSession :=
  {| qs_id := qs_id self; qs_user := qs_user self; qs_exam := qs_exam self;
     qs_started_at := qs_started_at self; qs_completed_at := qs_completed_at self;
     qs_is_completed := qs_is_completed self; qs_score := qs_score self;
     qs_total_questions := qs_total_questions self;
     qs_correct_answers := qs_correct_answers self;
     qs_time_taken_seconds := qs_time_taken_seconds self;
     qs_tokens_granted := true; qs_is_paused := qs_is_paused self;
     qs_paused_at := qs_paused_at self;
     qs_total_paused_seconds := qs_total_paused_seconds self |}.

(** [views.quiz_result] up to the rendering: the session is completed if it
    was not, its score is recomputed and saved, and a first passing
    completion earns 50 tokens. *)
Definition quiz_result (clock : Clock) (req : Request) (session_id : Z) (db : DB)
    : DB * Response :=
  login_required req (fun u =>
    match get_session db session_id u with
    | None => (db, Http404)
    | Some quiz_session =>
        let was_completed_before := qs_is_completed quiz_session in
        let '(s1, db1) :=
          if negb (qs_is_completed quiz_session)
          then complete_quiz (clock 0%nat) db quiz_session
          else (quiz_session, db) in
        let s2 := fst (calculate_score db1 s1) in
        let db2 := save_session s2 db1 in
        if negb was_completed_before && negb (qs_tokens_granted s2) then
          match find_exam db2 (qs_exam s2) with
          | None => (db2, ServerError)
          | Some exam =>
              if PrimFloat.leb (float_of_int (exam_passing_score exam)) (qs_score s2) then
                let '(profile, db3) := get_or_create_profile u db2 in
                let db4 := snd (add_tokens 50 db3 profile) in
                (save_session (set_tokens_granted s2) db4, Render "quiz/quiz_result.html")
              else (db2, Render "quiz/quiz_result.html")
          end
        else (db2, Render "quiz/quiz_result.html")
    end) db.

End Views.

Module Api.
Import Models Views.

(** The actions [QuizSessionViewSet] defines.  The list, retrieve, update
    and destroy actions the class inherits from the framework's
    [ModelViewSet] are not in the repository's code and are not modelled. *)

(** [permission_classes = [IsAuthenticated]] *)
Definition authenticated (req : Request) (action : Z -> DB * Response) (db : DB) : DB * Response :=
  match user req with
  | Some u => action u
  | None => (db, JsonResponse 403 (BError "Authentication credentials were not provided."))
  end.

(** [@action(methods=[m])]: another method is not routed to the action. *)
Definition routed (m : string) (req : Request) (action : DB * Response) (db : DB) : DB * Response :=
  if String.eqb (method req) m then action
  else (db, JsonResponse 405 (BError "Method not allowed.")).

(** [QuizSessionViewSet.create] *)
Definition create (clock : Clock) (req : Request) (db : DB) : DB * Response :=
  authenticated req (fun u =>
    routed "POST" req
      match exam_id_field req with
      | None => (db, Http404)
      | Some exam_id =>
          match get_active_exam db exam_id with
          | None => (db, Http404)
          | Some exam =>
              if is_nil (active_questions db (Models.exam_id exam))
              then (db, JsonResponse 400 (BError "This exam has no questions available."))
              else
                let '(s, db') := create_session (clock 0%nat) u (Models.exam_id exam) db in
                (db', JsonResponse 201 (BSession s))
          end
      end db) db.

(** [QuizSessionViewSet.submit_answer] *)
Definition submit_answer (clock : Clock) (req : Request) (pk : Z) (db : DB) : DB * Response :=
  authenticated req (fun u =>
    routed "POST" req
      match get_session db pk u with
      | None => (db, Http404)
      | Some quiz_session =>
          match submit_to clock req quiz_session db with
          | inl r => r
          | inr (user_answer, db') => (db', JsonResponse 200 (BAnswer (ua_is_correct user_answer)))
          end
      end db) db.

(** [QuizSessionViewSet.complete] *)
Definition complete (clock : Clock) (req : Request) (pk : Z) (db : DB) : DB * Response :=
  authenticated req (fun u =>
    routed "POST" req
      match get_session db pk u with
      | None => (db, Http404)
      | Some quiz_session =>
          if qs_is_completed quiz_session
          then (db, JsonResponse 400 (BError "Quiz already completed"))
          else
            let '(s, db') := complete_quiz (clock 0%nat) db quiz_session in
            (db', JsonResponse 200 (BSession s))
      end db) db.

(** [QuizSessionViewSet.results]: a session that is not completed is
    completed first; the score reported is the one the session holds. *)
Definition results (clock : Clock) (req : Request) (pk : Z) (db : DB) : DB * Response :=
  authenticated req (fun u =>
    routed "GET" req
      match get_session db pk u with
      | None => (db, Http404)
      | Some quiz_session =>
          let '(s, db') :=
            if negb (qs_is_completed quiz_session)
            then complete_quiz (clock 0%nat) db quiz_session
            else (quiz_session, db) in
          (db', JsonResponse 200
                  (BResults s
                     (count (fun a => ua_quiz_session a =? qs_id s) (user_answers db'))
                     (count (fun a => (ua_quiz_session a =? qs_id s) && ua_is_correct a)
                        (user_answers db'))
                     (qs_score s)))
      end db) db.

End Api.

(** ** The operations on quiz sessions, as one type *)

Module Flow.
Import Models Views.

(** A request to one of the views or actions that read or write a quiz
    session. *)
Inductive Op :=
| QuizStart (exam_id : Z)
| QuizQuestion (session_id : Z)
| QuizSubmitAnswer (session_id : Z)
| PauseQuiz (session_id : Z)
| ResumeQuiz (session_id : Z)
| QuizResult (session_id : Z)
| ApiCreate
| ApiSubmitAnswer (pk : Z)
| ApiComplete (pk : Z)
| ApiResults (pk : Z).

Definition run (op : Op) (clock : Clock) (req : Request) (db : DB) : DB * Response :=
  match op with
  | QuizStart exam_id => quiz_start clock req exam_id db
  | QuizQuestion session_id => quiz_question clock req session_id db
  | QuizSubmitAnswer session_id => quiz_submit_answer clock req session_id db
  | PauseQuiz session_id => pause_quiz_view clock req session_id db
  | ResumeQuiz session_id => resume_quiz_view clock req session_id db
  | QuizResult session_id => quiz_result clock req session_id db
  | ApiCreate => Api.create clock req db
  | ApiSubmitAnswer pk => Api.submit_answer clock req pk db
  | ApiComplete pk => Api.complete clock req pk db
  | ApiResults pk => Api.results clock req pk db
  end.



(** The answers given in a session. *)
Definition answers_of (db : DB) (session_id : Z) : list UserAnswer :=
  List.filter (fun a => ua_quiz_session a =? session_id) (user_answers db).


End Flow.

(** ** The specification's wording, as definitions to compare the code with *)

Module Spec.
Import Models Importer.

(** "Tried in order until one yields at least one index." *)
Fixpoint first_nonempty (stages : list (list Z)) : list Z :=
  match stages with
  | [] => []
  | stage :: rest => if is_nil stage then first_nonempty rest else stage
  end.







(** "Exam duration minus (elapsed wall-clock time since start, minus
    accumulated paused time, minus any in-progress pause duration); floored
    at zero", in seconds; zero for a completed session.  [now] is the
    instant of the call, [now'] the instant the pause in progress is
    measured at. *)
Definition in_progress_pause (now' : Z) (s : QuizSession) : Q :=
  match qs_is_paused s, qs_paused_at s with
  | true, Some paused_at => total_seconds (now' - paused_at)
  | _, _ => 0%Q
  end.

Definition remaining_time (exam : Exam) (now now' : Z) (s : QuizSession) : Q :=
  if qs_is_completed s then 0%Q
  else
    Qmax 0 (inject_Z (exam_duration_minutes exam * 60)
            - (total_seconds (now - qs_started_at s)
               - inject_Z (qs_total_paused_seconds s)
               - in_progress_pause now' s))%Q.

(** Calls of [grant_daily_tokens] one after the other, each on the profile
    and database the one before left: the final state and the flags. *)
Fixpoint grant_each (nows : list Z) (db : DB) (self : UserProfile)
    : UserProfile * DB * list bool :=
  match nows with
  | [] => (self, db, [])
  | now :: nows' =>
      let '(self1, db1, granted) := grant_daily_tokens now db self in
      let '(self2, db2, flags) := grant_each nows' db1 self1 in
      (self2, db2, granted :: flags)
  end.

(** The three methods that change a token balance. *)
Inductive TokenOp :=
| AddTokens (amount : Z)
| DeductTokens (amount : Z)
| GrantDailyTokens (now : Z).

Definition token_step (op : TokenOp) (st : UserProfile * DB) : UserProfile * DB :=
  match op with
  | AddTokens amount => add_tokens amount (snd st) (fst st)
  | DeductTokens amount => fst (deduct_tokens amount (snd st) (fst st))
  | GrantDailyTokens now => fst (grant_daily_tokens now (snd st) (fst st))
  end.

(** [add_tokens] is called to add: with an amount that is not negative. *)
Definition adds (op : TokenOp) : Prop :=
  match op with
  | AddTokens amount => 0 <= amount
  | _ => True
  end.

(** What an import gives a choice: its text, its flag and its order. *)
Definition choice_view (c : Choice) : string * bool * Z :=
  (ch_choice_text c, ch_is_correct c, ch_order c).

End Spec.

(** ** Sample data *)

Module Samples.
Import Models Importer Views.

Definition exam1 : Exam :=
  {| exam_id := 1; exam_category := 1; exam_exam_name := "UPSC"; exam_name := "Basic Test";
     exam_description := ""; exam_duration_minutes := 60; exam_total_questions := 10;
     exam_passing_score := 60; exam_is_active := true |}.

Definition question (id : Z) (type text : string) (active : bool) : Question :=
  {| q_id := id; q_exam := 1; q_topic := None; q_question_text := text;
     q_question_type := type; q_difficulty := "medium"; q_explanation := ""; q_points := 1;
     q_order := 0; q_is_active := active |}.

Definition choice (id question : Z) (text : string) (correct : bool) : Choice :=
  {| ch_id := id; ch_question := question; ch_choice_text := text; ch_is_correct := correct;
     ch_order := id |}.

(** A session of user 7 on exam 1, started at instant 0. *)
Definition session (id : Z) (completed : bool) (score : float) : QuizSession :=
  {| qs_id := id; qs_user := 7; qs_exam := 1; qs_started_at := 0;
     qs_completed_at := if completed then Some 60000000 else None;
     qs_is_completed := completed; qs_score := score; qs_total_questions := 1;
     qs_correct_answers := 1; qs_time_taken_seconds := if completed then Some 60 else None;
     qs_tokens_granted := false; qs_is_paused := false; qs_paused_at := None;
     qs_total_paused_seconds := 0 |}.

Definition answer (id session question : Z) (selected : list Z) (correct : bool) : UserAnswer :=
  {| ua_id := id; ua_quiz_session := session; ua_question := question;
     ua_selected_choices := list_to_set selected; ua_is_correct := correct;
     ua_answered_at := 1000000 |}.

Definition profile (tokens : Z) (granted : option Z) : UserProfile :=
  {| up_id := 1; up_user := 7; up_subscription_plan := "basic"; up_tokens := tokens;
     up_last_token_grant_date := granted |}.

(** One exam; a question with two correct choices out of three, answered
    by session 1 with exactly those two. *)
Definition db_multiple : DB :=
  {| categories := []; exams := [exam1]; topics := [];
     questions := [question 1 "multiple" "Which are even?" true];
     choices := [choice 1 1 "2" true; choice 2 1 "4" true; choice 3 1 "5" false];
     quiz_sessions := [session 1 false 0%float];
     user_answers := [answer 1 1 1 [1; 2] false];
     user_profiles := [profile 100 None] |}.

(** Session 1 was completed when the exam had one question, answered
    correctly (score 100); a second active question was added since. *)
Definition db_grown : DB :=
  {| categories := []; exams := [exam1]; topics := [];
     questions := [question 1 "single" "2+2?" true; question 2 "single" "3+3?" true];
     choices := [choice 1 1 "3" false; choice 2 1 "4" true;
                 choice 3 2 "5" false; choice 4 2 "6" true];
     quiz_sessions := [session 1 true 100%float];
     user_answers := [answer 1 1 1 [2] true];
     user_profiles := [profile 100 None] |}.

(** An exam none of whose questions is active. *)
Definition db_inactive : DB :=
  {| categories := []; exams := [exam1]; topics := [];
     questions := [question 1 "single" "2+2?" false];
     choices := []; quiz_sessions := [session 1 false 0%float];
     user_answers := []; user_profiles := [] |}.

Definition request (m : string) (u : option Z) : Request :=
  {| method := m; user := u; question_id := Some 1; choice_ids := [2];
     exam_id_field := Some 1 |}.

(** Every reading of the clock is the same instant. *)
Definition at_ (now : Z) : Clock := fun _ => now.

(** A file of two rows, the second with an answer no heuristic resolves. *)
Definition header : list string :=
  ["exam"; "question_text"; "choice_1"; "choice_2"; "correct_answer"].

(** A row under the standard column names, as [process_row] takes it. *)
Definition row_of (values : list string) : gmap string pyval :=
  list_to_map (List.combine header (List.map PyStr values)).

Definition row_good : gmap string pyval := row_of ["Basic Test"; "2+2?"; "3"; "4"; "4"].


(** The question of [row_good] again, with other choices. *)
Definition row_again : gmap string pyval :=
  row_of ["Basic Test"; "2+2?"; "four"; "five"; "six|four"].

(** The database after [row_good] was imported into an empty one. *)
Definition db_imported : DB := snd (process_row row_good 2 true empty_db).

Definition csv_row (values : list string) : CsvRow :=
  {| cells := row_of values; surplus := [] |}.

Definition csv_with_bad_row : ParsedCsv :=
  {| fieldnames := header;
     rows := [csv_row ["Basic Test"; "2+2?"; "3"; "4"; "4"];
              csv_row ["Basic Test"; "3+3?"; "5"; "6"; "banana"]] |}.


Definition inbox_fs : FS := {[ "inbox/q.csv" := "exam,question_text,choice_1,choice_2,correct_answer" ]}.

End Samples.

(** ** The account pages, the bookmarks and the assistant ([quiz/views.py]) *)

Module Pages.
Import Models Views.

(** *** Daily tokens on a visit *)

(** [views.dashboard], as far as it writes: the profile is found or made and
    the daily tokens are granted.  The statistics it renders are read only. *)
Definition dashboard (clock : Clock) (req : Request) (db : DB) : DB * Response :=
  login_required req (fun u =>
    let '(profile, db1) := get_or_create_profile u db in
    let '(_, db2, tokens_granted) := grant_daily_tokens (clock 0%nat) db1 profile in
    (db2, Render "quiz/dashboard.html")) db.

(** [views.profile]: the same writes, another template. *)
Definition profile (clock : Clock) (req : Request) (db : DB) : DB * Response :=
  login_required req (fun u =>
    let '(profile, db1) := get_or_create_profile u db in
    let '(_, db2, tokens_granted) := grant_daily_tokens (clock 0%nat) db1 profile in
    (db2, Render "quiz/profile.html")) db.

(** *** Where an incomplete quiz goes on *)

(** [order_by('order', 'id')] on questions: the order field first, the key
    among equals. *)
Definition question_leb (a b : Question) : bool :=
  (q_order a <? q_order b) || ((q_order a =? q_order b) && (q_id a <=? q_id b)).

Fixpoint insert_by {A} (leb : A -> A -> bool) (x : A) (l : list A) : list A :=
  match l with
  | [] => [x]
  | y :: l' => if leb x y then x :: l else y :: insert_by leb x l'
  end.

Definition order_by {A} (leb : A -> A -> bool) (l : list A) : list A :=
  List.fold_right (insert_by leb) [] l.

(** [list(session.exam.questions.filter(is_active=True).order_by('order', 'id'))] *)
Definition questions_list (db : DB) (exam : Z) : list Question :=
  order_by question_leb (active_questions db exam).

(** [enumerate(l, start)] *)
Definition enumerate_from {A} (start : Z) (l : list A) : list (Z * A) :=
  List.combine (List.map (fun i => start + Z.of_nat i) (seq 0 (List.length l))) l.

(** [session.user_answers] *)
Definition session_answers (db : DB) (session : QuizSession) : list UserAnswer :=
  List.filter (fun a => ua_quiz_session a =? qs_id session) (user_answers db).

(** [set(session.user_answers.values_list('question_id', flat=True))] *)
Definition answered_question_ids (db : DB) (session : QuizSession) : gset Z :=
  list_to_set (List.map ua_question (session_answers db session)).

(** The loop with its [break]: the number of the first question without an
    answer, [next_question_num] as it was set before the loop if there is
    none. *)
Fixpoint first_unanswered (answered : gset Z) (l : list (Z * Question)) (next_question_num : Z)
    : Z :=
  match l with
  | [] => next_question_num
  | (idx, question) :: l' =>
      if bool_decide (q_id question ∈ answered)
      then first_unanswered answered l' next_question_num
      else idx
  end.

(** What the loop of [dashboard] and [incomplete_quizzes] attaches to a
    session. *)
Record Progress := {
  progress_percentage : pynum;
  attempted_count : Z;
  total_count : Z;
  next_question_num : Z }.

Definition session_progress (db : DB) (session : QuizSession) : Progress :=
  let total_questions := Z.of_nat (List.length (active_questions db (qs_exam session))) in
  let attempted := Z.of_nat (List.length (session_answers db session)) in
  {| progress_percentage :=
       if total_questions >? 0 then PyFloat (percentage attempted total_questions) else PyInt 0;
     attempted_count := attempted;
     total_count := total_questions;
     next_question_num :=
       first_unanswered (answered_question_ids db session)
         (enumerate_from 1 (questions_list db (qs_exam session))) 1 |}.

(** [views.incomplete_quizzes]: the user's sessions that are not completed,
    each with its progress (the order of the page apart). *)
Definition incomplete_quizzes (req : Request) (db : DB) : option (list (QuizSession * Progress)) :=
  match user req with
  | Some u =>
      Some (List.map (fun session => (session, session_progress db session))
              (List.filter (fun s => (qs_user s =? u) && negb (qs_is_completed s))
                 (quiz_sessions db)))
  | None => None
  end.

(** *** Subscription *)

Definition set_subscription_plan (plan : string) (self : UserProfile) : UserProfile :=
  {| up_id := up_id self; up_user := up_user self; up_subscription_plan := plan;
     up_tokens := up_tokens self; up_last_token_grant_date := up_last_token_grant_date self |}.

(** [views.upgrade_subscription] *)
Definition upgrade_subscription (req : Request) (db : DB) : DB * Response :=
  login_required req (fun u =>
    let '(profile, db1) := get_or_create_profile u db in
    if String.eqb (up_subscription_plan profile) "premium" then (db1, Redirect "profile")
    else
      let profile := set_subscription_plan "premium" profile in
      (snd (add_tokens 1000 db1 profile), Redirect "profile")) db.

(** [views.downgrade_subscription] *)
Definition downgrade_subscription (req : Request) (db : DB) : DB * Response :=
  login_required req (fun u =>
    let '(profile, db1) := get_or_create_profile u db in
    if String.eqb (up_subscription_plan profile) "basic" then (db1, Redirect "profile")
    else
      let profile := set_subscription_plan "basic" profile in
      (save_profile profile db1, Redirect "profile")) db.

(** *** Bookmarks *)

(** The bookmark table is kept beside the other tables. *)
Record BookmarkedQuestion := {
  bm_id : Z;
  bm_user : Z;
  bm_question : Z;
  bm_created_at : Z }.

Inductive Toggled :=
| ToLogin
| InvalidMethod
| NoQuestion
| Bookmarked (bookmarked : bool)
| MultipleReturned.

(** [views.toggle_bookmark]: the bookmark of the user on the question is
    made if there is none and deleted if there is one. *)
Definition toggle_bookmark (clock : Clock) (req : Request) (question_id : Z) (db : DB)
    (bookmarks : list BookmarkedQuestion) : list BookmarkedQuestion * Toggled :=
  match user req with
  | None => (bookmarks, ToLogin)
  | Some u =>
      if negb (String.eqb (method req) "POST") then (bookmarks, InvalidMethod)
      else
        match find_row q_id question_id (questions db) with
        | None => (bookmarks, NoQuestion)
        | Some question =>
            match List.filter (fun b => (bm_user b =? u) && (bm_question b =? q_id question))
                    bookmarks with
            | [] =>
                let bookmark :=
                  {| bm_id := fresh_id (List.map bm_id bookmarks); bm_user := u;
                     bm_question := q_id question; bm_created_at := clock 0%nat |} in
                ((bookmarks ++ [bookmark])%list, Bookmarked true)
            | [bookmark] =>
                (List.filter (fun b => negb (bm_id b =? bm_id bookmark)) bookmarks,
                 Bookmarked false)
            | _ => (bookmarks, MultipleReturned)
            end
        end
  end.

(** The pairs (user, question) that are bookmarked. *)
Definition bookmarked (bookmarks : list BookmarkedQuestion) : gset (Z * Z) :=
  list_to_set (List.map (fun b => (bm_user b, bm_question b)) bookmarks).

(** *** The assistant *)

(** What [json.loads(request.body)] and [data.get('message', '')] make of
    the body of the request. *)
Inductive Message :=
| NoMessage
| MessageStr (s : string)
| MessageOther.

Inductive RequestBody :=
| Undecodable
| InvalidJson
| NotAnObject
| JsonObject (message : Message).

(** The OpenAI side: whether the library can be imported, the key of the
    settings (empty for a key that is empty or [None]), and the text of the
    completion ([None] when the client, the call or the reading of its
    answer raises). *)
Record OpenAI := {
  importable : bool;
  api_key : string;
  completion : option string }.

(** The reply: its status and, on success, the [tokens_remaining] it
    reports.  The texts are left out. *)
Record Reply := {
  status : Z;
  tokens_remaining : option Z }.

Definition reply (status : Z) : Reply := {| status := status; tokens_remaining := None |}.

Definition TOKENS_PER_AI_REQUEST : Z := 1.

(** The rows the context of the prompt is written from: the session of the
    user, its exam and the category of the exam and, when a question is
    named, the question in that exam.  [false] when one of them is missing
    ([Http404] or [DoesNotExist]). *)
Definition prompt_context (db : DB) (u session_id question_id : Z) : bool :=
  if session_id =? 0 then true
  else
    match get_session db session_id u with
    | None => false
    | Some quiz_session =>
        (if question_id =? 0 then true
         else bool_decide (is_Some (List.find
                (fun q => (q_id q =? question_id) && (q_exam q =? qs_exam quiz_session))
                (questions db))))
        && match find_exam db (qs_exam quiz_session) with
           | Some exam => bool_decide (is_Some (find_row cat_id (exam_category exam) (categories db)))
           | None => false
           end
    end.

(** [views.ai_assistant].  Every exception raised inside the outer [try] is
    answered by its handlers, the [Http404] of [get_object_or_404] too.  An
    anonymous request is sent to the login page ([None]). *)
Definition ai_assistant (openai : OpenAI) (req : Request) (body : RequestBody)
    (session_id question_id : Z) (db : DB) : DB * option Reply :=
  match user req with
  | None => (db, None)
  | Some u =>
      if negb (String.eqb (method req) "POST") then (db, Some (reply 405))
      else
        match body with
        | Undecodable => (db, Some (reply 500))
        | InvalidJson => (db, Some (reply 400))
        | NotAnObject => (db, Some (reply 500))
        | JsonObject MessageOther => (db, Some (reply 500))
        | JsonObject message =>
            let user_message :=
              match message with
              | MessageStr s => Py.strip s
              | _ => ""
              end in
            if String.eqb user_message "" then (db, Some (reply 400))
            else
              let '(profile, db1) := get_or_create_profile u db in
              if negb (has_tokens TOKENS_PER_AI_REQUEST profile) then (db1, Some (reply 403))
              else if negb (prompt_context db1 u session_id question_id)
              then (db1, Some (reply 500))
              else if negb (importable openai) then (db1, Some (reply 503))
              else if String.eqb (api_key openai) "" then (db1, Some (reply 503))
              else
                match completion openai with
                | None => (db1, Some (reply 500))
                | Some ai_response =>
                    match find_row up_id (up_id profile) (user_profiles db1) with
                    | None => (db1, Some (reply 500))
                    | Some profile =>
                        let '(profile, db2, ok) :=
                          deduct_tokens TOKENS_PER_AI_REQUEST db1 profile in
                        if ok
                        then (db2, Some {| status := 200;
                                           tokens_remaining := Some (up_tokens profile) |})
                        else (db2, Some (reply 500))
                    end
                end
        end
  end.

End Pages.

(** ** The profile of a new user ([quiz/signals.py]) *)

Module Signals.
Import Models.

(** [create_user_profile], the receiver of [post_save] on [User]:
    [instance] is the key of the user saved, [now] what [timezone.now()]
    returns. *)
Definition create_user_profile (now : Z) (instance : Z) (created : bool) (db : DB) : DB :=
  if created then
    let today := date_of now in
    match List.find (fun p => up_user p =? instance) (user_profiles db) with
    | Some profile => db
    | None =>
        let profile :=
          {| up_id := fresh_id (List.map up_id (user_profiles db)); up_user := instance;
             up_subscription_plan := "basic"; up_tokens := 100;
             up_last_token_grant_date := Some today |} in
        let db1 := set_user_profiles (user_profiles db ++ [profile]) db in
        if up_tokens profile =? 0
        then save_profile (set_tokens 100 (up_last_token_grant_date profile) profile) db1
        else db1
    end
  else db.

(** [save_user_profile], the second receiver: the profile of the user, if
    it has one, is saved as it is. *)
Definition save_user_profile (instance : Z) (db : DB) : DB :=
  match List.find (fun p => up_user p =? instance) (user_profiles db) with
  | Some profile => save_profile profile db
  | None => db
  end.

(** The two receivers, in the order they are connected. *)
Definition post_save (now : Z) (instance : Z) (created : bool) (db : DB) : DB :=
  save_user_profile instance (create_user_profile now instance created db).

End Signals.

(** ** The template filters ([quiz/templatetags/quiz_filters.py]) *)

Module Filters.

(** [format_time]: [seconds] is [None] or an [int]. *)
Definition format_time (seconds : option Z) : string :=
  match seconds with
  | None => "-"
  | Some seconds =>
      if seconds =? 0 then "-"
      else
        let minutes := seconds / 60 in
        let secs := seconds mod 60 in
        if minutes >? 0
        then Py.str_of_int minutes +:+ "m " +:+ Py.str_of_int secs +:+ "s"
        else Py.str_of_int secs +:+ "s"
  end.

(** [minutes_only]: the text ["-"] or a number. *)
Definition minutes_only (seconds : option Z) : string + Z :=
  match seconds with
  | None => inl "-"
  | Some seconds => if seconds =? 0 then inl "-" else inr (seconds / 60)
  end.

End Filters.

(** ** The daily grant for all users ([management/commands/grant_daily_tokens.py]) *)

Module GrantDailyTokens.
Import Models Views.

(** The loop of [handle] over [User.objects.all()]: [users] are the keys of
    the users in the order the query yields them, [tick] counts the readings
    of the clock. *)
Fixpoint grant_all (clock : Clock) (tick : nat) (users : list Z) (granted_count : Z) (db : DB)
    : DB * Z :=
  match users with
  | [] => (db, granted_count)
  | u :: users' =>
      let '(profile, db1) := get_or_create_profile u db in
      let '(_, db2, granted) := grant_daily_tokens (clock tick) db1 profile in
      grant_all clock (S tick) users' (if granted then granted_count + 1 else granted_count) db2
  end.

(** [Command.handle]: the database it leaves and the number of users it
    reports.  The first reading of the clock is the [today] of its first
    line. *)
Definition handle (clock : Clock) (users : list Z) (db : DB) : DB * Z :=
  grant_all clock 1 users 0 db.

End GrantDailyTokens.

(** ** Removing brackets from stored texts
       ([management/commands/remove_brackets_from_questions.py]) *)

Module RemoveBrackets.
Import Models Importer.

(** [Command.remove_brackets] on a [str], which every field it is given is. *)
Definition remove_brackets (text : string) : string :=
  Py.replace "]" "" (Py.replace "[" "" text).

(** [a != b] on texts *)
Definition differ (a b : string) : bool := negb (String.eqb a b).

(** The order in which each [objects.all()] yields its rows (the
    [Meta.ordering] of the model, by the collation of the database). *)
Record Orderings := {
  question_rows : list Question -> list Question;
  choice_rows : list Choice -> list Choice;
  exam_rows : list Exam -> list Exam;
  category_rows : list Category -> list Category;
  topic_rows : list Topic -> list Topic }.

(** Each ordering lists the rows of the table, each once. *)
Definition orders (o : Orderings) : Prop :=
  (forall l, Permutation (question_rows o l) l)
  /\ (forall l, Permutation (choice_rows o l) l)
  /\ (forall l, Permutation (exam_rows o l) l)
  /\ (forall l, Permutation (category_rows o l) l)
  /\ (forall l, Permutation (topic_rows o l) l).

(** [question.save()], [choice.save()]: no constraint of these tables
    involves a text. *)
Definition save_question (q : Question) : M unit :=
  db ← get_db; put_db (set_questions (save_row q_id q (questions db)) db).

Definition save_choice (c : Choice) : M unit :=
  db ← get_db; put_db (set_choices (save_row ch_id c (choices db)) db).

(** [exam.save()]: [unique_together = ['category', 'name']]. *)
Definition save_exam (e : Exam) : M unit :=
  db ← get_db;
  if List.existsb (fun e' => negb (exam_id e' =? exam_id e) && (exam_category e' =? exam_category e)
                             && String.eqb (exam_name e') (exam_name e)) (exams db)
  then raise (IntegrityError "UNIQUE constraint failed: quiz_exam.category_id, quiz_exam.name")
  else put_db (set_exams (save_row exam_id e (exams db)) db).

(** [category.save()]: [name] is unique. *)
Definition save_category (c : Category) : M unit :=
  db ← get_db;
  if List.existsb (fun c' => negb (cat_id c' =? cat_id c) && String.eqb (cat_name c') (cat_name c))
       (categories db)
  then raise (IntegrityError "UNIQUE constraint failed: quiz_category.name")
  else put_db (set_categories (save_row cat_id c (categories db)) db).

(** [topic.save()]: [unique_together = ['exam', 'name']]. *)
Definition save_topic (t : Topic) : M unit :=
  db ← get_db;
  if List.existsb (fun t' => negb (topic_id t' =? topic_id t) && (topic_exam t' =? topic_exam t)
                             && String.eqb (topic_name t') (topic_name t)) (topics db)
  then raise (IntegrityError "UNIQUE constraint failed: quiz_topic.exam_id, quiz_topic.name")
  else put_db (set_topics (save_row topic_id t (topics db)) db).

(** The row with its texts cleaned, as the loops assign them. *)
Definition cleaned_question (q : Question) : Question :=
  {| q_id := q_id q; q_exam := q_exam q; q_topic := q_topic q;
     q_question_text := remove_brackets (q_question_text q);
     q_question_type := q_question_type q; q_difficulty := q_difficulty q;
     q_explanation := remove_brackets (q_explanation q); q_points := q_points q;
     q_order := q_order q; q_is_active := q_is_active q |}.

Definition cleaned_choice (c : Choice) : Choice :=
  {| ch_id := ch_id c; ch_question := ch_question c;
     ch_choice_text := remove_brackets (ch_choice_text c);
     ch_is_correct := ch_is_correct c; ch_order := ch_order c |}.

Definition cleaned_exam (e : Exam) : Exam :=
  {| exam_id := exam_id e; exam_category := exam_category e; exam_exam_name := exam_exam_name e;
     exam_name := remove_brackets (exam_name e);
     exam_description := remove_brackets (exam_description e);
     exam_duration_minutes := exam_duration_minutes e;
     exam_total_questions := exam_total_questions e;
     exam_passing_score := exam_passing_score e; exam_is_active := exam_is_active e |}.

Definition cleaned_category (c : Category) : Category :=
  {| cat_id := cat_id c; cat_name := remove_brackets (cat_name c);
     cat_exam_category := cat_exam_category c;
     cat_description := remove_brackets (cat_description c) |}.

Definition cleaned_topic (t : Topic) : Topic :=
  {| topic_id := topic_id t; topic_exam := topic_exam t;
     topic_name := remove_brackets (topic_name t);
     topic_description := remove_brackets (topic_description t);
     topic_order := topic_order t |}.

(** One loop of [handle]: a row one of whose texts changes is counted and,
    unless [dry_run], saved with the cleaned texts. *)
Fixpoint update_rows {A} (dry_run : bool) (changed : A -> bool) (cleaned : A -> A)
    (save : A -> M unit) (rows : list A) (updated : Z) : M Z :=
  match rows with
  | [] => mret updated
  | row :: rows' =>
      if changed row then
        _ ← (if dry_run then mret tt else save (cleaned row));
        update_rows dry_run changed cleaned save rows' (updated + 1)
      else update_rows dry_run changed cleaned save rows' updated
  end.

Definition question_changed (q : Question) : bool :=
  differ (q_question_text q) (remove_brackets (q_question_text q))
  || differ (q_explanation q) (remove_brackets (q_explanation q)).

Definition choice_changed (c : Choice) : bool :=
  differ (ch_choice_text c) (remove_brackets (ch_choice_text c)).

Definition exam_changed (e : Exam) : bool :=
  differ (exam_name e) (remove_brackets (exam_name e))
  || differ (exam_description e) (remove_brackets (exam_description e)).

Definition category_changed (c : Category) : bool :=
  differ (cat_name c) (remove_brackets (cat_name c))
  || differ (cat_description c) (remove_brackets (cat_description c)).

Definition topic_changed (t : Topic) : bool :=
  differ (topic_name t) (remove_brackets (topic_name t))
  || differ (topic_description t) (remove_brackets (topic_description t)).

(** The numbers the command reports. *)
Record Updated := {
  updated_count : Z;
  choices_updated : Z;
  exams_updated : Z;
  categories_updated : Z;
  topics_updated : Z }.

(** [Command.handle] *)
Definition handle (o : Orderings) (dry_run : bool) : M Updated :=
  db ← get_db;
  updated_count ← update_rows dry_run question_changed cleaned_question save_question
                    (question_rows o (questions db)) 0;
  db ← get_db;
  choices_updated ← update_rows dry_run choice_changed cleaned_choice save_choice
                      (choice_rows o (choices db)) 0;
  db ← get_db;
  exams_updated ← update_rows dry_run exam_changed cleaned_exam save_exam
                    (exam_rows o (exams db)) 0;
  db ← get_db;
  categories_updated ← update_rows dry_run category_changed cleaned_category save_category
                         (category_rows o (categories db)) 0;
  db ← get_db;
  topics_updated ← update_rows dry_run topic_changed cleaned_topic save_topic
                     (topic_rows o (topics db)) 0;
  mret {| updated_count := updated_count; choices_updated := choices_updated;
          exams_updated := exams_updated; categories_updated := categories_updated;
          topics_updated := topics_updated |}.

End RemoveBrackets.

(** ** What the properties below speak about *)

Module Invariants.
Import Models Views.

(** A text without square brackets. *)
Definition no_brackets (s : string) : Prop :=
  Py.has_char "[" s = false /\ Py.has_char "]" s = false.

(** No two rows of the profile table share a key, and none of the answer
    table. *)
Definition profile_keys_unique (db : DB) : Prop :=
  NoDup (List.map up_id (user_profiles db)).

Definition answer_keys_unique (db : DB) : Prop :=
  NoDup (List.map ua_id (user_answers db)).

(** The profile of a user: the row [get_or_create(user=...)] finds. *)
Definition profile_of (db : DB) (u : Z) : option UserProfile :=
  List.find (fun p => up_user p =? u) (user_profiles db).

(** The tokens a user has: those of the profile, or the 100 of the profile
    that the next [get_or_create] makes. *)
Definition balance (db : DB) (u : Z) : Z :=
  match profile_of db u with
  | Some p => up_tokens p
  | None => 100
  end.

(** The profile of the user carries the grant stamp of day [d]. *)
Definition stamped (d : Z) (db : DB) (u : Z) : Prop :=
  exists p, profile_of db u = Some p /\ up_last_token_grant_date p = Some d.

(** The answers given to a question in a session. *)
Definition answers_to (db : DB) (session question : Z) : list UserAnswer :=
  List.filter (fun a => (ua_quiz_session a =? session) && (ua_question a =? question))
    (user_answers db).

(** The choices of a question. *)
Definition choices_of (db : DB) (question : Z) : list Choice :=
  List.filter (fun c => ch_question c =? question) (choices db).

(** The sessions of the users other than [u]. *)
Definition foreign_sessions (u : Z) (db : DB) : list QuizSession :=
  List.filter (fun s => negb (qs_user s =? u)) (quiz_sessions db).

(** The incomplete sessions of a user on an exam. *)
Definition incomplete_sessions (db : DB) (u exam : Z) : list QuizSession :=
  List.filter (fun s => (qs_user s =? u) && (qs_exam s =? exam) && negb (qs_is_completed s))
    (quiz_sessions db).

End Invariants.

(** ** More sample data *)

Module MoreSamples.
Import Models Importer Views Pages Samples.

(** A row whose texts are written in square brackets. *)
Definition row_brackets : gmap string pyval :=
  row_of ["Basic Test"; "[2+2]?"; "[3]"; "[4]"; "4"].

Definition bookmark (id user question : Z) : BookmarkedQuestion :=
  {| bm_id := id; bm_user := user; bm_question := question; bm_created_at := 0 |}.

(** A configured assistant that answers. *)
Definition openai_ok : OpenAI :=
  {| importable := true; api_key := "sk-test"; completion := Some "Count two and two." |}.

(** A message typed into the assistant. *)
Definition body_hint : RequestBody := JsonObject (MessageStr "a hint, please").

End MoreSamples.

(** ** What the bracket command leaves behind *)

Module Cleaned.
Import Models RemoveBrackets Samples.

(** The table [l] with the cleaned row in the place of every row whose key
    is the key of one of [rows]. *)
Definition cleaned_where {A} (key : A -> Z) (cleaned : A -> A) (rows l : list A) : list A :=
  List.map (fun y => if List.existsb (fun x => key x =? key y) rows then cleaned y else y) l.

(** No two rows of different keys agree on the columns of a unique
    constraint, [same] comparing these columns. *)
Definition slots_unique {A} (key : A -> Z) (same : A -> A -> bool) (l : list A) : Prop :=
  forall a b, In a l -> In b l -> key a <> key b -> same a b = false.

(** The columns of [unique_together = ['category', 'name']], of the unique
    [name] of a category and of [unique_together = ['exam', 'name']]. *)
Definition same_exam (a b : Exam) : bool :=
  (exam_category a =? exam_category b) && String.eqb (exam_name a) (exam_name b).

Definition same_category (a b : Category) : bool := String.eqb (cat_name a) (cat_name b).

Definition same_topic (a b : Topic) : bool :=
  (topic_exam a =? topic_exam b) && String.eqb (topic_name a) (topic_name b).

(** The primary keys of the five tables the command reads. *)
Definition keys_unique (db : DB) : Prop :=
  NoDup (List.map q_id (questions db)) /\ NoDup (List.map ch_id (choices db))
  /\ NoDup (List.map exam_id (exams db)) /\ NoDup (List.map cat_id (categories db))
  /\ NoDup (List.map topic_id (topics db)).

(** The unique constraints on names hold. *)
Definition names_unique (db : DB) : Prop :=
  slots_unique exam_id same_exam (exams db)
  /\ slots_unique cat_id same_category (categories db)
  /\ slots_unique topic_id same_topic (topics db).

(** The database with the brackets removed from every text the command
    cleans. *)
Definition cleaned_db (db : DB) : DB :=
  {| categories := List.map cleaned_category (categories db);
     exams := List.map cleaned_exam (exams db);
     topics := List.map cleaned_topic (topics db);
     questions := List.map cleaned_question (questions db);
     choices := List.map cleaned_choice (choices db);
     quiz_sessions := quiz_sessions db; user_answers := user_answers db;
     user_profiles := user_profiles db |}.

(** The rows of each table one of whose cleaned texts holds a bracket. *)
Definition counted (db : DB) : Updated :=
  {| updated_count := Z.of_nat (List.length (List.filter question_changed (questions db)));
     choices_updated := Z.of_nat (List.length (List.filter choice_changed (choices db)));
     exams_updated := Z.of_nat (List.length (List.filter exam_changed (exams db)));
     categories_updated := Z.of_nat (List.length (List.filter category_changed (categories db)));
     topics_updated := Z.of_nat (List.length (List.filter topic_changed (topics db))) |}.

(** Every table in the order of its rows. *)
Definition in_table_order : Orderings :=
  {| question_rows := fun l => l; choice_rows := fun l => l; exam_rows := fun l => l;
     category_rows := fun l => l; topic_rows := fun l => l |}.

(** Texts in brackets: a category, a question and one of its choices. *)
Definition category (id : Z) (name : string) : Category :=
  {| cat_id := id; cat_name := name; cat_exam_category := "AAAA"; cat_description := "" |}.

Definition db_brackets : DB :=
  {| categories := [category 1 "[Math]"; category 2 "Science"]; exams := [exam1]; topics := [];
     questions := [question 1 "single" "[2+2]?" true];
     choices := [choice 1 1 "[3]" false; choice 2 1 "4" true];
     quiz_sessions := []; user_answers := []; user_profiles := [] |}.

(** The same with a second category named as the first is once cleaned. *)
Definition db_clash : DB :=
  {| categories := [category 1 "[Math]"; category 2 "Math"]; exams := [exam1]; topics := [];
     questions := [question 1 "single" "[2+2]?" true];
     choices := [choice 1 1 "[3]" false; choice 2 1 "4" true];
     quiz_sessions := []; user_answers := []; user_profiles := [] |}.

End Cleaned.

(** ** Texts of digits *)

Module Digits.

(** A decimal digit; a text of decimal digits only. *)
Definition is_digit (c : ascii) : bool :=
  match c with
  | "0" | "1" | "2" | "3" | "4" | "5" | "6" | "7" | "8" | "9" => true
  | _ => false
  end%char.

Fixpoint all_digits (s : string) : bool :=
  match s with
  | EmptyString => true
  | String c s' => is_digit c && all_digits s'
  end.

End Digits.

(** ** Tables: rows found and saved by key *)

Module TableFacts.
Import Models.

Section Tables.
Context {A : Type} (key : A -> Z).

Lemma find_row_key (k : Z) (l : list A) (x : A) :
  find_row key k l = Some x -> key x = k /\ In x l.
Proof.
  unfold find_row. intros H. apply List.find_some in H. destruct H as [Hin Hk].
  split; [lia | exact Hin].
Qed.

Lemma find_row_unique (l : list A) (x : A) :
  NoDup (List.map key l) -> In x l -> find_row key (key x) l = Some x.
Proof.
  unfold find_row. induction l as [| y l IH]; simpl; intros Hnd Hin; [contradiction |].
  apply NoDup_cons in Hnd. destruct Hnd as [Hy Hnd].
  destruct Hin as [-> | Hin].
  - rewrite Z.eqb_refl. reflexivity.
  - destruct (Z.eqb_spec (key y) (key x)) as [E | _]; [| auto].
    exfalso. apply Hy. rewrite E. apply list_elem_of_In, in_map, Hin.
Qed.

Lemma save_row_keys (x y : A) (l : list A) :
  find_row key (key x) l = Some y -> List.map key (save_row key x l) = List.map key l.
Proof.
  unfold find_row. induction l as [| z l IH]; simpl; [discriminate |].
  destruct (Z.eqb_spec (key z) (key x)) as [E | _]; simpl; intros H.
  - congruence.
  - rewrite IH by exact H. reflexivity.
Qed.

Lemma find_row_save_same (x : A) (l : list A) :
  find_row key (key x) (save_row key x l) = Some x.
Proof.
  unfold find_row. induction l as [| z l IH]; simpl.
  - rewrite Z.eqb_refl. reflexivity.
  - destruct (Z.eqb_spec (key z) (key x)) as [E | N]; simpl.
    + rewrite Z.eqb_refl. reflexivity.
    + destruct (Z.eqb_spec (key z) (key x)); [contradiction | exact IH].
Qed.


Lemma fresh_id_above (ids : list Z) (k : Z) : In k ids -> k < fresh_id ids.
Proof.
  unfold fresh_id. induction ids as [| i ids IH]; simpl; [contradiction |].
  intros [-> | H]; [lia |]. specialize (IH H). lia.
Qed.

Lemma fresh_id_new (l : list A) : NoDup (List.map key l) ->
  forall x, key x = fresh_id (List.map key l) -> NoDup (List.map key (l ++ [x])).
Proof.
  intros Hnd x Hx. rewrite List.map_app. simpl.
  apply NoDup_app. split; [exact Hnd | split].
  - intros k Hk Hk'. apply list_elem_of_In in Hk. apply fresh_id_above in Hk.
    apply list_elem_of_In in Hk'. destruct Hk' as [E | []]. lia.
  - apply NoDup_singleton.
Qed.


End Tables.

End TableFacts.

(** ** Properties of the models *)

Module ModelsFacts.
Import Models Spec Samples.

(** *** UserAnswer.check_answer *)

(** The value returned is the flag just set. *)
Lemma check_answer_returns (db : DB) (question : Question) (self : UserAnswer) :
  snd (check_answer db question self) = ua_is_correct (fst (check_answer db question self)).
Proof. reflexivity. Qed.


(** *** UserProfile: tokens *)

(** A profile stamped with today's date is left alone. *)
Lemma grant_same_day (db : DB) (self : UserProfile) (now : Z) :
  up_last_token_grant_date self = Some (date_of now) ->
  grant_daily_tokens now db self = (self, db, false).
Proof.
  intros H. unfold grant_daily_tokens. rewrite bool_decide_eq_true_2; [reflexivity | exact H].
Qed.

(** Any other stamp, or none: ten tokens and today's stamp. *)
Lemma grant_other_day (db : DB) (self : UserProfile) (now : Z) :
  up_last_token_grant_date self <> Some (date_of now) ->
  grant_daily_tokens now db self =
    (set_tokens (up_tokens self + 10) (Some (date_of now)) self,
     save_profile (set_tokens (up_tokens self + 10) (Some (date_of now)) self) db, true).
Proof.
  intros H. unfold grant_daily_tokens. rewrite bool_decide_eq_false_2; [reflexivity | exact H].
Qed.

(** After a call the profile carries the date of the call. *)
Lemma grant_stamps (db : DB) (self : UserProfile) (now : Z) :
  up_last_token_grant_date (fst (fst (grant_daily_tokens now db self))) = Some (date_of now).
Proof.
  unfold grant_daily_tokens. case_bool_decide as H; simpl; [exact H | reflexivity].
Qed.

(** Calls on the stamped date change nothing, however many. *)
Lemma grant_each_same_day (later : list Z) (d : Z) (db : DB) (self : UserProfile) :
  up_last_token_grant_date self = Some d ->
  Forall (fun t => date_of t = d) later ->
  grant_each later db self = (self, db, List.repeat false (List.length later)).
Proof.
  intros Hd Hall. induction Hall as [| t later Ht _ IH]; simpl.
  - reflexivity.
  - rewrite grant_same_day by (rewrite Ht; exact Hd). rewrite IH. reflexivity.
Qed.

(** C6.  Of the calls of [grant_daily_tokens] on one calendar date only the
    first can return true, and then it adds exactly 10 tokens and stamps the
    date; every later call on that date returns false and leaves the
    profile (balance and stamp) and the database as they were; the first
    call on a later date returns true again, once. *)
Theorem grant_daily_tokens_once_a_day (db : DB) (self : UserProfile) (now : Z) (later : list Z) :
  Forall (fun t => date_of t = date_of now) later ->
  let '(p1, db1, granted) := grant_daily_tokens now db self in
  (granted = true ->
     up_tokens p1 = up_tokens self + 10 /\ up_last_token_grant_date p1 = Some (date_of now))
  /\ (granted = false -> p1 = self /\ db1 = db)
  /\ grant_each later db1 p1 = (p1, db1, List.repeat false (List.length later))
  /\ forall next, date_of now < date_of next ->
       let '(p2, db2, again) := grant_daily_tokens next db1 p1 in
       again = true /\ up_tokens p2 = up_tokens p1 + 10
       /\ up_last_token_grant_date p2 = Some (date_of next)
       /\ forall t, date_of t = date_of next -> grant_daily_tokens t db2 p2 = (p2, db2, false).
Proof.
  intros Hlater.
  pose proof (grant_stamps db self now) as Hstamp.
  destruct (grant_daily_tokens now db self) as [[p1 db1] granted] eqn:E. simpl in Hstamp.
  split; [| split; [| split]].
  - intros ->. unfold grant_daily_tokens in E. case_bool_decide; inversion E. subst. auto.
  - intros ->. unfold grant_daily_tokens in E. case_bool_decide; inversion E. auto.
  - apply (grant_each_same_day later (date_of now)); assumption.
  - intros next Hnext.
    rewrite grant_other_day by (rewrite Hstamp; intros [= Heq]; lia).
    repeat split; simpl; try reflexivity.
    intros t Ht. apply grant_same_day. simpl. rewrite Ht. reflexivity.
Qed.

(** One operation keeps a balance that is not negative so. *)
Lemma token_step_nonneg (op : TokenOp) (st : UserProfile * DB) :
  adds op -> 0 <= up_tokens (fst st) -> 0 <= up_tokens (fst (token_step op st)).
Proof.
  destruct st as [self db]. destruct op as [amount | amount | now]; simpl; intros Hop Hst.
  - lia.
  - unfold deduct_tokens. destruct (Z.geb_spec (up_tokens self) amount); simpl; lia.
  - unfold grant_daily_tokens. case_bool_decide; simpl; lia.
Qed.

(** And so does any sequence of them. *)
Lemma token_steps_nonneg (ops : list TokenOp) (st : UserProfile * DB) :
  Forall adds ops -> 0 <= up_tokens (fst st) ->
  0 <= up_tokens (fst (List.fold_left (fun st op => token_step op st) ops st)).
Proof.
  intros Hops. revert st. induction Hops as [| op ops Hop _ IH]; intros st Hst; simpl.
  - exact Hst.
  - apply IH. apply token_step_nonneg; assumption.
Qed.

(** C9.  [deduct_tokens] returns true and lowers the balance by exactly the
    amount when the balance is at least the amount; it returns false and
    leaves profile and database unchanged when the balance is smaller.  So
    no sequence of [add_tokens] (of amounts that are not negative),
    [deduct_tokens] and [grant_daily_tokens] makes the balance negative. *)
Theorem deduct_tokens_guarded (db : DB) (self : UserProfile) (amount : Z) :
  (amount <= up_tokens self ->
     exists self', deduct_tokens amount db self = (self', save_profile self' db, true)
                   /\ up_tokens self' = up_tokens self - amount
                   /\ up_last_token_grant_date self' = up_last_token_grant_date self)
  /\ (up_tokens self < amount -> deduct_tokens amount db self = (self, db, false))
  /\ (forall ops, 0 <= up_tokens self -> Forall adds ops ->
        0 <= up_tokens (fst (List.fold_left (fun st op => token_step op st) ops (self, db)))).
Proof.
  split; [| split].
  - intros H. unfold deduct_tokens. destruct (Z.geb_spec (up_tokens self) amount); [| lia].
    eexists. split; [reflexivity |]. simpl. auto.
  - intros H. unfold deduct_tokens. destruct (Z.geb_spec (up_tokens self) amount); [lia |].
    reflexivity.
  - intros ops H0 Hops. apply token_steps_nonneg; assumption.
Qed.

(** *** QuizSession: score and clock *)

(** C10.  On a session whose exam has no active question,
    [calculate_score] returns the integer 0 and leaves the session, with its
    [score], [correct_answers] and [total_questions], as it was: the
    division is not reached. *)
Theorem calculate_score_no_active_questions (db : DB) (self : QuizSession) :
  active_questions db (qs_exam self) = [] ->
  calculate_score db self = (self, PyInt 0).
Proof.
  intros H. unfold calculate_score. rewrite H. reflexivity.
Qed.


(** Truncation of a number that is not negative: its whole part. *)
Lemma int_of_Q_floor (q : Q) :
  (0 <= q)%Q ->
  0 <= int_of_Q q /\ (inject_Z (int_of_Q q) <= q)%Q /\ (q < inject_Z (int_of_Q q + 1))%Q.
Proof.
  destruct q as [n d]. unfold int_of_Q, Qle, Qlt. simpl. intros H.
  assert (Hn : 0 <= n) by lia.
  rewrite Z.quot_div_nonneg by lia.
  pose proof (Z.mul_div_le n (Z.pos d) ltac:(lia)).
  pose proof (Z.mul_succ_div_gt n (Z.pos d) ltac:(lia)).
  pose proof (Z.div_pos n (Z.pos d) Hn ltac:(lia)).
  repeat split; lia.
Qed.






Lemma grant_daily_tokens_once_a_day_witness :
  Forall (fun t => date_of t = date_of 0) [1; 2]
  /\ grant_each [1; 2] (snd (fst (grant_daily_tokens 0 db_multiple (profile 100 None))))
       (fst (fst (grant_daily_tokens 0 db_multiple (profile 100 None))))
     = (fst (fst (grant_daily_tokens 0 db_multiple (profile 100 None))),
        snd (fst (grant_daily_tokens 0 db_multiple (profile 100 None))),
        [false; false]).
Proof.
  assert (H : Forall (fun t => date_of t = date_of 0) [1; 2]) by (repeat constructor).
  split; [exact H |].
  exact (proj1 (proj2 (proj2
    (grant_daily_tokens_once_a_day db_multiple (profile 100 None) 0 [1; 2] H)))).
Defined.

Lemma deduct_tokens_guarded_witness :
  5 < 8 /\ deduct_tokens 8 db_multiple (profile 5 None) = (profile 5 None, db_multiple, false).
Proof.
  split; [lia |].
  apply (proj1 (proj2 (deduct_tokens_guarded db_multiple (profile 5 None) 8))).
  simpl. lia.
Defined.

Lemma calculate_score_no_active_questions_witness :
  active_questions db_inactive (qs_exam (session 1 false 0%float)) = []
  /\ calculate_score db_inactive (session 1 false 0%float) = (session 1 false 0%float, PyInt 0).
Proof.
  split; [reflexivity |].
  apply calculate_score_no_active_questions. reflexivity.
Defined.

End ModelsFacts.

(** ** Properties of the quiz flow *)

Module FlowFacts.
Import Models Views Flow Samples TableFacts.

(** *** No operation reopens a completed session *)






Lemma get_session_find (db : DB) (sid u : Z) (s : QuizSession) :
  session_keys_unique db -> get_session db sid u = Some s ->
  find_row qs_id (qs_id s) (quiz_sessions db) = Some s /\ qs_id s = sid /\ qs_user s = u.
Proof.
  intros Huniq H. unfold get_session in H. apply List.find_some in H. destruct H as [Hin Hk].
  apply andb_true_iff in Hk. destruct Hk as [Hid Hu].
  split; [| lia]. apply find_row_unique; assumption.
Qed.









Lemma profile_steps_sessions (u : Z) (db : DB) :
  quiz_sessions (snd (add_tokens 50 (snd (get_or_create_profile u db))
                        (fst (get_or_create_profile u db)))) = quiz_sessions db.
Proof.
  unfold get_or_create_profile. destruct (List.find _ (user_profiles db)); reflexivity.
Qed.





(** *** The score *)

Lemma calculate_score_active (db : DB) (self : QuizSession) :
  active_questions db (qs_exam self) <> [] ->
  let total := Z.of_nat (List.length (active_questions db (qs_exam self))) in
  let correct := Z.of_nat (List.length (correct_user_answers db (qs_id self))) in
  calculate_score db self
    = (set_score correct total (percentage correct total) self,
       PyFloat (percentage correct total)).
Proof.
  intros H. unfold calculate_score.
  destruct (active_questions db (qs_exam self)) as [| q l]; [contradiction |].
  reflexivity.
Qed.


(** Every completion recomputes the score and saves it. *)
Lemma complete_quiz_recomputes (now : Z) (db : DB) (self : QuizSession) :
  active_questions db (qs_exam self) <> [] ->
  let total := Z.of_nat (List.length (active_questions db (qs_exam self))) in
  let correct := Z.of_nat (List.length (correct_user_answers db (qs_id self))) in
  complete_quiz now db self
    = (set_score correct total (percentage correct total) (set_completed now self),
       save_session (set_score correct total (percentage correct total) (set_completed now self)) db).
Proof.
  intros H. unfold complete_quiz.
  rewrite (calculate_score_active db (set_completed now self)) by exact H. reflexivity.
Qed.

(** Every view of the result page leaves the session completed, with the
    score recomputed from the current tables. *)
Lemma quiz_result_recomputes (clock : Clock) (req : Request) (sid u : Z) (db : DB)
    (s : QuizSession) :
  session_keys_unique db -> user req = Some u -> get_session db sid u = Some s ->
  active_questions db (qs_exam s) <> [] ->
  exists s',
    find_row qs_id sid (quiz_sessions (fst (quiz_result clock req sid db))) = Some s'
    /\ qs_is_completed s' = true
    /\ qs_score s' = percentage (Z.of_nat (List.length (correct_user_answers db sid)))
                       (Z.of_nat (List.length (active_questions db (qs_exam s)))).
Proof.
  intros Huniq Hu Hget Hact.
  destruct (get_session_find db sid u s Huniq Hget) as (Hfind & Hid & _).
  unfold quiz_result, login_required. rewrite Hu, Hget.
  set (total := Z.of_nat (List.length (active_questions db (qs_exam s)))).
  set (correct := Z.of_nat (List.length (correct_user_answers db sid))).
  assert (Hstep : exists s1 db1,
            (if negb (qs_is_completed s) then complete_quiz (clock 0%nat) db s else (s, db)) = (s1, db1)
            /\ qs_id s1 = sid /\ qs_exam s1 = qs_exam s /\ qs_is_completed s1 = true
            /\ questions db1 = questions db /\ user_answers db1 = user_answers db).
  { destruct (qs_is_completed s) eqn:Hc; simpl.
    - exists s, db. repeat split; auto.
    - rewrite complete_quiz_recomputes by exact Hact. eexists _, _. split; [reflexivity |].
      simpl. repeat split; auto. }
  destruct Hstep as (s1 & db1 & -> & Hid1 & Hex1 & Hc1 & Hq1 & Ha1).
  assert (Hcalc : calculate_score db1 s1
                  = (set_score correct total (percentage correct total) s1,
                     PyFloat (percentage correct total))).
  { assert (Hact1 : active_questions db1 (qs_exam s1) = active_questions db (qs_exam s))
      by (unfold active_questions; rewrite Hq1, Hex1; reflexivity).
    rewrite calculate_score_active by (rewrite Hact1; exact Hact).
    unfold correct_user_answers. rewrite Hact1, Ha1, Hid1. reflexivity. }
  rewrite Hcalc. cbn [fst].
  set (s2 := set_score correct total (percentage correct total) s1).
  assert (Hfind2 : find_row qs_id sid (quiz_sessions (save_session s2 db1)) = Some s2).
  { rewrite <- Hid1. apply (find_row_save_same qs_id s2). }
  destruct (negb (qs_is_completed s) && negb (qs_tokens_granted s2));
    [| exists s2; auto].
  destruct (find_exam _ _) as [exam |]; [| exists s2; auto].
  destruct (PrimFloat.leb _ _); [| exists s2; auto].
  pose proof (profile_steps_sessions u (save_session s2 db1)) as Hsame.
  destruct (get_or_create_profile u (save_session s2 db1)) as [profile db3].
  cbn [fst snd] in Hsame |- *. exists (set_tokens_granted s2). split; [| auto].
  rewrite <- Hid1. apply (find_row_save_same qs_id (set_tokens_granted s2)).
Qed.

(** C3 at the REST [results] action.  Session 1 was completed with score 100
    when its exam had one question; the exam has two active questions now.
    The action reports and keeps 100, where one correct answer out of two
    active questions is 50; the result page on the same database stores 50. *)
Lemma api_results_keeps_stale_score :
  Api.results (at_ 0) (request "GET" (Some 7)) 1 db_grown
    = (db_grown, JsonResponse 200 (BResults (session 1 true 100%float) 1 1 100%float))
  /\ percentage (Z.of_nat (List.length (correct_user_answers db_grown 1)))
       (Z.of_nat (List.length (active_questions db_grown 1))) = 50%float
  /\ find_row qs_id 1 (quiz_sessions (fst (quiz_result (at_ 0) (request "GET" (Some 7)) 1 db_grown)))
     = Some (set_score 1 2 50%float (session 1 true 100%float)).
Proof. repeat split; vm_compute; reflexivity. Qed.



Lemma quiz_result_recomputes_witness :
  session_keys_unique db_grown
  /\ exists s',
       find_row qs_id 1 (quiz_sessions (fst (quiz_result (at_ 0) (request "GET" (Some 7)) 1 db_grown)))
         = Some s'
       /\ qs_is_completed s' = true
       /\ qs_score s' = percentage (Z.of_nat (List.length (correct_user_answers db_grown 1)))
                          (Z.of_nat (List.length (active_questions db_grown (qs_exam (session 1 true 100%float))))).
Proof.
  assert (H : session_keys_unique db_grown) by (repeat constructor; set_solver).
  split; [exact H |].
  apply (quiz_result_recomputes (at_ 0) (request "GET" (Some 7)) 1 7 db_grown
           (session 1 true 100%float) H eq_refl eq_refl).
  discriminate.
Defined.

End FlowFacts.

(** ** Properties of the string operations *)

Module PyFacts.

(** *** Containment *)








(** *** Characters that stripping and parsing cannot lose or accept *)






(** *** Splitting *)



End PyFacts.

(** ** Properties of the importer *)

Module ImporterFacts.
Import Models Importer Spec Samples PyFacts.

(** *** The cascade of the correct-answer heuristics *)

Lemma is_nil_true {A} (l : list A) : is_nil l = true -> l = [].
Proof. destruct l; [reflexivity | discriminate]. Qed.











Lemma first_nonempty_take (stage : list Z) (rest : list (list Z)) :
  is_nil stage = false -> first_nonempty (stage :: rest) = stage.
Proof. intros H. simpl. rewrite H. reflexivity. Qed.






(** *** What the steps of [process_row] leave untouched *)

Lemma reads_ret {A} (x : A) : reads_only (mret x).
Proof. intros db. reflexivity. Qed.

Lemma reads_raise {A} (e : exn) : reads_only (@raise A e).
Proof. intros db. reflexivity. Qed.

Lemma reads_bind {A B} (m : M A) (k : A -> M B) :
  reads_only m -> (forall x, reads_only (k x)) -> reads_only (x ← m; k x).
Proof.
  intros Hm Hk db. unfold mbind, M_bind. specialize (Hm db).
  destruct (m db) as [[e | x] db1]; simpl in *; [exact Hm |].
  rewrite Hk. exact Hm.
Qed.

Lemma keeps_bind {A B} (m : M A) (k : A -> M B) :
  keeps_questions m -> (forall x, keeps_questions (k x)) -> keeps_questions (x ← m; k x).
Proof.
  intros Hm Hk db. unfold mbind, M_bind. specialize (Hm db).
  destruct (m db) as [[e | x] db1]; simpl in *; [exact Hm |].
  rewrite Hk. exact Hm.
Qed.

Lemma reads_keeps {A} (m : M A) : reads_only m -> keeps_questions m.
Proof. intros H db. rewrite H. reflexivity. Qed.

Lemma reads_get_db : reads_only get_db.
Proof. intros db. reflexivity. Qed.

Lemma reads_strip_val (v : pyval) : reads_only (strip_val v).
Proof. destruct v; [apply reads_raise | apply reads_ret]. Qed.

Ltac reads :=
  repeat first
    [ apply reads_ret | apply reads_raise | apply reads_strip_val | apply reads_get_db
    | apply reads_bind; [| intros ?]
    | match goal with
      | |- reads_only (if ?c then _ else _) => destruct c
      | |- reads_only (match ?x with _ => _ end) => destruct x
      end ].

Lemma reads_int_or (row : gmap string pyval) (key : string) (d : Z) : reads_only (int_or row key d).
Proof. unfold int_or. reads. Qed.

Lemma reads_not_null (column : string) (v : pyval) : reads_only (not_null column v).
Proof. unfold not_null. reads. Qed.

Lemma reads_positive_int (column : string) (n : Z) : reads_only (positive_int column n).
Proof. unfold positive_int. reads. Qed.

Lemma reads_parse_question (row : gmap string pyval) (topic : option Z) :
  reads_only (parse_question row topic).
Proof. unfold parse_question. reads. Qed.

Lemma reads_choice_columns (row : gmap string pyval) (keys : list string) (acc : list string) :
  reads_only (choice_columns row keys acc).
Proof.
  revert acc. induction keys as [| k keys IH]; intros acc; simpl; [apply reads_ret |].
  destruct (row !! k); [| apply IH].
  apply reads_bind; [apply reads_strip_val | intros s].
  destruct (nonempty s); apply IH.
Qed.

Lemma reads_parse_choices (row : gmap string pyval) (hcc : bool) :
  reads_only (parse_choices row hcc).
Proof. unfold parse_choices. destruct hcc; [apply reads_choice_columns | reads]. Qed.

Lemma reads_parse_correct_answer_text (row : gmap string pyval) :
  reads_only (parse_correct_answer_text row).
Proof. unfold parse_correct_answer_text. reads. Qed.

Lemma reads_check_indices (answer : string) (choices_list : list string) (ci : list Z) :
  reads_only (check_indices answer choices_list ci).
Proof. unfold check_indices. reads. Qed.

Ltac run_orm :=
  intros db;
  unfold get_or_create_category, get_or_create_exam, get_or_create_topic,
    update_or_create_question, delete_choices, create_choice,
    not_null, positive_int, mbind, M_bind, get_db, put_db, raise, mret, M_ret;
  cbn beta iota;
  repeat match goal with
         | |- context [match ?x with _ => _ end] =>
             lazymatch x with
             | context [match _ with _ => _ end] => fail
             | _ => destruct x; cbn beta iota
             end
         end;
  reflexivity.

Lemma keeps_get_or_create_category (name description : string) :
  keeps_questions (get_or_create_category name description).
Proof. run_orm. Qed.

Lemma keeps_get_or_create_exam (category : Category) (name : string) (description : pyval)
    (dm tq ps : Z) :
  keeps_questions (get_or_create_exam category name description dm tq ps).
Proof. run_orm. Qed.

Lemma keeps_get_or_create_topic (exam : Exam) (name : string) (description : pyval) (order : Z) :
  keeps_questions (get_or_create_topic exam name description order).
Proof. run_orm. Qed.

Lemma keeps_delete_choices (question : Question) : keeps_questions (delete_choices question).
Proof. run_orm. Qed.

Lemma keeps_create_choice (question : Question) (text : string) (correct : bool) (order : Z) :
  keeps_questions (create_choice question text correct order).
Proof. run_orm. Qed.

Ltac keeps :=
  repeat first
    [ apply keeps_get_or_create_category | apply keeps_get_or_create_exam
    | apply keeps_get_or_create_topic | apply keeps_delete_choices | apply keeps_create_choice
    | apply reads_keeps; first [ apply reads_ret | apply reads_raise | apply reads_strip_val
                               | apply reads_get_db | apply reads_int_or | apply reads_not_null
                               | apply reads_positive_int ]
    | apply keeps_bind; [| intros ?]
    | match goal with
      | |- keeps_questions (if ?c then _ else _) => destruct c
      | |- keeps_questions (match ?x with _ => _ end) => destruct x
      end ].

Lemma keeps_get_exam_and_topic (row : gmap string pyval) :
  keeps_questions (get_exam_and_topic row).
Proof. unfold get_exam_and_topic. keeps. Qed.

Lemma keeps_for_each {A} (body : A -> M unit) (l : list A) :
  (forall x, keeps_questions (body x)) -> keeps_questions (for_each body l).
Proof. intros H. induction l as [| x l IH]; simpl; keeps; [apply H | apply IH]. Qed.

Lemma keeps_replace_choices (question : Question) (choices_list : list string) (ci : list Z) :
  keeps_questions (replace_choices question choices_list ci).
Proof. unfold replace_choices. keeps. apply keeps_for_each. intros ic. keeps. Qed.

(** *** Importing a question that exists *)

(** The upsert of a pair the table has updates that row and creates none. *)
Lemma update_or_create_existing (exam : Exam) (text : string) (d : QuestionDefaults) (db db' : DB)
    (q0 : Question) (r : Question * bool) :
  In q0 (questions db) -> q_exam q0 = exam_id exam -> q_question_text q0 = text ->
  update_or_create_question exam text d db = (inr r, db') ->
  r = (question_of (q_id q0) (q_exam q0) (q_question_text q0) d, false)
  /\ questions db' = save_row q_id (fst r) (questions db).
Proof.
  intros Hin He Ht H. unfold update_or_create_question, mbind, M_bind, get_db in H.
  cbn beta iota in H.
  assert (Hf : In q0 (List.filter (fun q => (q_exam q =? exam_id exam)
                                            && String.eqb (q_question_text q) text) (questions db))).
  { apply List.filter_In. split; [exact Hin |].
    rewrite He, Ht, Z.eqb_refl, String.eqb_refl. reflexivity. }
  destruct (List.filter _ (questions db)) as [| x [| y l]].
  - destruct Hf.
  - destruct Hf as [-> | []].
    unfold positive_int in H. destruct (d_points d <? 0); [discriminate |].
    destruct (d_order d <? 0); [discriminate |].
    cbn in H. inversion H; subst. split; reflexivity.
  - discriminate.
Qed.

(** The creation loop appends one choice per entry, in order. *)
Lemma for_each_create (question : Question) (ci : list Z) (l : list (Z * string)) (db : DB) :
  exists db',
    for_each (fun ic : Z * string =>
      create_choice question (snd ic) (List.existsb (Z.eqb (fst ic)) ci) (fst ic)) l db
    = (inr tt, db')
    /\ List.map choice_view (List.filter (fun c => ch_question c =? q_id question) (choices db'))
       = (List.map choice_view (List.filter (fun c => ch_question c =? q_id question) (choices db))
          ++ List.map (fun ic => (snd ic, List.existsb (Z.eqb (fst ic)) ci, fst ic)) l)%list.
Proof.
  revert db. induction l as [| ic l IH]; intros db; simpl.
  - exists db. split; [reflexivity |]. rewrite app_nil_r. reflexivity.
  - unfold mbind, M_bind. unfold create_choice at 1. unfold mbind, M_bind, get_db, put_db.
    cbn beta iota.
    match goal with |- context [for_each _ l ?db1] => destruct (IH db1) as (db' & Hrun & Hview) end.
    exists db'. split; [exact Hrun |]. rewrite Hview. simpl.
    rewrite List.filter_app, List.map_app. simpl. rewrite Z.eqb_refl. simpl.
    rewrite <- app_assoc. reflexivity.
Qed.

Lemma filter_out_then_in {A} (p : A -> bool) (l : list A) :
  List.filter p (List.filter (fun x => negb (p x)) l) = [].
Proof.
  induction l as [| x l IH]; simpl; [reflexivity |].
  destruct (p x) eqn:E; simpl; [exact IH |]. rewrite E. exact IH.
Qed.

(** After the replacement the question has the new choices and no other. *)
Lemma replace_choices_result (question : Question) (choices_list : list string) (ci : list Z)
    (db : DB) :
  exists db',
    replace_choices question choices_list ci db = (inr (Z.of_nat (List.length choices_list)), db')
    /\ List.map choice_view (List.filter (fun c => ch_question c =? q_id question) (choices db'))
       = List.map (fun ic => (snd ic, List.existsb (Z.eqb (fst ic)) ci, fst ic))
           (Py.enumerate choices_list).
Proof.
  unfold replace_choices, mbind, M_bind. unfold delete_choices, mbind, M_bind, get_db, put_db.
  cbn beta iota.
  match goal with |- context [for_each _ _ ?db1] =>
    destruct (for_each_create question ci (Py.enumerate choices_list) db1) as (db' & Hrun & Hview)
  end.
  exists db'. rewrite Hrun. split; [reflexivity |]. rewrite Hview. simpl.
  rewrite filter_out_then_in. reflexivity.
Qed.

Lemma reads_run {A} (m : M A) (db db' : DB) (r : exn + A) :
  reads_only m -> m db = (r, db') -> db' = db.
Proof. intros H E. specialize (H db). rewrite E in H. exact H. Qed.

(** C7.  A row whose exam and question text are those of an existing
    question imports successfully only by updating that question in place:
    no question is created, the table keeps its keys, the row of the
    question carries the topic, type, difficulty, explanation, points,
    order and active flag of the import, and the choices of the question
    are afterwards exactly the choices of the row, in order, flagged by the
    resolved indices (the old ones are deleted first). *)
Theorem import_updates_existing_question (row : gmap string pyval) (row_num : Z)
    (has_choice_columns : bool) (db db1 db' : DB) (exam : Exam) (topic : option Z)
    (text : string) (d : QuestionDefaults) (q0 : Question) (result : RowResult) :
  get_exam_and_topic row db = (inr (exam, topic), db1) ->
  parse_question row topic db1 = (inr (text, d), db1) ->
  In q0 (questions db) -> q_exam q0 = exam_id exam -> q_question_text q0 = text ->
  process_row row row_num has_choice_columns db = (inr result, db') ->
  let updated := question_of (q_id q0) (q_exam q0) (q_question_text q0) d in
  created result = false
  /\ questions db' = save_row q_id updated (questions db)
  /\ List.map q_id (questions db') = List.map q_id (questions db)
  /\ find_row q_id (q_id q0) (questions db') = Some updated
  /\ exists choices_list answer dbq,
       parse_choices row has_choice_columns dbq = (inr choices_list, dbq)
       /\ parse_correct_answer_text row dbq = (inr answer, dbq)
       /\ choices_count result = Z.of_nat (List.length choices_list)
       /\ List.map choice_view
            (List.filter (fun c => ch_question c =? q_id q0) (choices db'))
          = List.map (fun ic : Z * string =>
                        (snd ic,
                         List.existsb (Z.eqb (fst ic))
                           (resolve_correct_indices (d_question_type d) text choices_list answer),
                         fst ic))
              (Py.enumerate choices_list).
Proof.
  intros Hget Hparse Hin He Ht Hproc updated.
  assert (Hq1 : questions db1 = questions db).
  { pose proof (keeps_get_exam_and_topic row db) as K. rewrite Hget in K. exact K. }
  unfold process_row, upsert_question, mbind, M_bind in Hproc.
  rewrite Hget in Hproc. cbn [fst snd] in Hproc. rewrite Hparse in Hproc. cbn [fst snd] in Hproc.
  destruct (update_or_create_question exam text d db1) as [[e | r] dbq] eqn:Hup;
    [discriminate |].
  destruct (update_or_create_existing exam text d db1 dbq q0 r) as (-> & Hqq); auto;
    [rewrite Hq1; exact Hin |].
  cbn [fst snd mret M_ret u_question u_created u_question_type u_question_text] in Hproc, Hqq.
  destruct (parse_choices row has_choice_columns dbq) as [[e | choices_list] db2] eqn:Hch;
    [discriminate |].
  assert (db2 = dbq) by (eapply reads_run; [apply reads_parse_choices | exact Hch]). subst db2.
  destruct (is_nil choices_list); [discriminate |].
  destruct (parse_correct_answer_text row dbq) as [[e | answer] db3] eqn:Hans; [discriminate |].
  assert (db3 = dbq) by (eapply reads_run; [apply reads_parse_correct_answer_text | exact Hans]).
  subst db3.
  destruct (check_indices answer choices_list _ dbq) as [[e | []] db4] eqn:Hck; [discriminate |].
  assert (db4 = dbq) by (eapply reads_run; [apply reads_check_indices | exact Hck]). subst db4.
  match type of Hproc with context [replace_choices ?q ?cl ?ci dbq] =>
    destruct (replace_choices_result q cl ci dbq) as (dbr & Hrep & Hview);
    pose proof (keeps_replace_choices q cl ci dbq) as Hkeep
  end.
  rewrite Hrep in Hkeep, Hproc. cbn [snd] in Hkeep. inversion Hproc; subst. clear Hproc.
  assert (Hq' : questions db' = save_row q_id updated (questions db))
    by (rewrite Hkeep, Hqq, Hq1; reflexivity).
  assert (Hfound : exists y, find_row q_id (q_id updated) (questions db) = Some y).
  { unfold find_row. destruct (List.find (fun y => q_id y =? q_id updated) (questions db)) eqn:F;
      [eauto |].
    exfalso. apply (List.find_none _ _ F q0) in Hin. simpl in Hin. lia. }
  destruct Hfound as [y Hy].
  split; [reflexivity |]. split; [exact Hq' |]. split; [| split].
  - rewrite Hq'. apply (TableFacts.save_row_keys q_id updated y), Hy.
  - rewrite Hq'. apply (TableFacts.find_row_save_same q_id updated).
  - exists choices_list, answer, dbq. repeat split; auto.
Qed.


Lemma import_updates_existing_question_witness :
  In (question 1 "single" "2+2?" true) (questions db_imported)
  /\ exists result db',
       process_row row_again 2 true db_imported = (inr result, db')
       /\ created result = false
       /\ List.map q_id (questions db') = List.map q_id (questions db_imported).
Proof.
  assert (Hin : In (question 1 "single" "2+2?" true) (questions db_imported))
    by (left; reflexivity).
  split; [exact Hin |].
  destruct (process_row row_again 2 true db_imported) as [[e | result] db'] eqn:Hrow;
    [vm_compute in Hrow; discriminate Hrow |].
  exists result, db'. split; [reflexivity |].
  destruct (get_exam_and_topic row_again db_imported) as [[e | [exam topic]] db1] eqn:Hget;
    [vm_compute in Hget; discriminate Hget |].
  assert (Hdb1 : db1 = db_imported) by (vm_compute in Hget; inversion Hget; reflexivity).
  assert (Hexam : exam_id exam = 1) by (vm_compute in Hget; inversion Hget; reflexivity).
  destruct (parse_question row_again topic db1) as [[e | [text d]] db2] eqn:Hparse;
    [vm_compute in Hparse; discriminate Hparse |].
  assert (Hdb2 : db2 = db1) by (vm_compute in Hparse; inversion Hparse; reflexivity).
  assert (Htext : text = "2+2?") by (vm_compute in Hparse; inversion Hparse; reflexivity).
  subst db2.
  destruct (import_updates_existing_question row_again 2 true db_imported db1 db' exam topic
              text d (question 1 "single" "2+2?" true) result Hget Hparse Hin)
    as (Hcreated & _ & Hkeys & _).
  - rewrite Hexam. reflexivity.
  - rewrite Htext. reflexivity.
  - exact Hrow.
  - split; [exact Hcreated | exact Hkeys].
Defined.

(** *** The file as a whole *)




(** C1 on a file whose first row is good and whose second row has an
    answer no heuristic resolves.  The file is moved to the failed folder
    and the error log is written, but the transaction is committed: the
    category, the exam, the question and choices of the first row, and the
    question of the failing row itself (left without choices) are in the
    database. *)
Lemma failed_file_keeps_its_rows :
  let run := process_csv_file csv_with_bad_row "inbox/q.csv" "q.csv" "processed" "failed"
               empty_db inbox_fs in
  fst (fst run) = false
  /\ snd run !! "inbox/q.csv" = None
  /\ snd run !! "failed/q.csv" = inbox_fs !! "inbox/q.csv"
  /\ snd run !! "failed/q_errors.txt"
     = Some ("Errors processing q.csv:" +:+ newline +:+ newline +:+ "Row 3: "
             +:+ could_not_determine "banana" ["5"; "6"] +:+ newline)
  /\ List.map cat_name (categories (snd (fst run))) = ["General"]
  /\ List.map exam_name (exams (snd (fst run))) = ["Basic Test"]
  /\ List.map q_question_text (questions (snd (fst run))) = ["2+2?"; "3+3?"]
  /\ List.map choice_view (choices (snd (fst run))) = [("3", false, 0); ("4", true, 1)].
Proof. cbv zeta. repeat split; vm_compute; reflexivity. Qed.


End ImporterFacts.

(** ** The timer of a session *)

Module TimerFacts.
Import Models Spec Samples TableFacts ModelsFacts.

(** The whole part is the only integer at most one below. *)
Lemma floor_unique (a b : Z) (x y : Q) :
  (inject_Z a <= x)%Q -> (x < inject_Z (a + 1))%Q ->
  (inject_Z b <= y)%Q -> (y < inject_Z (b + 1))%Q ->
  (x <= y)%Q -> a <= b.
Proof.
  intros Ha Ha' Hb Hb' Hxy.
  assert (H : (inject_Z a < inject_Z (b + 1))%Q).
  { eapply Qle_lt_trans; [exact Ha |]. eapply Qle_lt_trans; [exact Hxy | exact Hb']. }
  rewrite <- Zlt_Qlt in H. lia.
Qed.

Lemma max0_nonneg (x : Q) : (0 <= max0 x)%Q.
Proof. unfold max0. destruct (Qlt_le_dec 0 x); [apply Qlt_le_weak; assumption | apply Qle_refl]. Qed.


Lemma max0_id (x : Q) : (0 <= x)%Q -> (max0 x == x)%Q.
Proof. intros H. unfold max0. destruct (Qlt_le_dec 0 x); lra. Qed.

(** Truncation grows with the number. *)
Lemma int_of_Q_le (x y : Q) : (0 <= x)%Q -> (x <= y)%Q -> int_of_Q x <= int_of_Q y.
Proof.
  intros Hx Hxy.
  assert (Hy : (0 <= y)%Q) by lra.
  destruct (int_of_Q_floor x Hx) as (_ & H1 & H2).
  destruct (int_of_Q_floor y Hy) as (_ & H3 & H4).
  exact (floor_unique _ _ x y H1 H2 H3 H4 Hxy).
Qed.

Lemma int_of_Q_eq (x y : Q) : (0 <= x)%Q -> (x == y)%Q -> int_of_Q x = int_of_Q y.
Proof.
  intros Hx E. assert (Hy : (0 <= y)%Q) by lra.
  apply Z.le_antisymm; apply int_of_Q_le; lra.
Qed.

(** Adding whole seconds to a time that is not negative adds them to its
    whole part. *)
Lemma int_of_Q_plus (x : Q) (d : Z) :
  (0 <= x)%Q -> 0 <= d -> int_of_Q (x + inject_Z d) = int_of_Q x + d.
Proof.
  intros Hx Hd.
  assert (Hd' : (0 <= inject_Z d)%Q) by (rewrite <- (Zle_Qle 0); exact Hd).
  assert (Hy : (0 <= x + inject_Z d)%Q) by lra.
  destruct (int_of_Q_floor x Hx) as (_ & H1 & H2).
  destruct (int_of_Q_floor _ Hy) as (_ & H3 & H4).
  rewrite inject_Z_plus in H2, H4. 
  assert (A : (inject_Z (int_of_Q (x + inject_Z d)) < inject_Z (int_of_Q x + d + 1))%Q).
  { rewrite !inject_Z_plus. lra. }
  assert (B : (inject_Z (int_of_Q x + d) < inject_Z (int_of_Q (x + inject_Z d) + 1))%Q).
  { rewrite !inject_Z_plus. lra. }
  rewrite <- Zlt_Qlt in A, B. lia.
Qed.


Lemma total_seconds_le (a b : Z) : a <= b -> (total_seconds a <= total_seconds b)%Q.
Proof. unfold total_seconds, Qle. simpl. lia. Qed.

(** The time left on a session that is neither paused nor completed. *)
Lemma get_remaining_time_running (exam : Exam) (now now' : Z) (self : QuizSession) :
  qs_is_completed self = false -> qs_is_paused self = false ->
  get_remaining_time exam now now' self
  = int_of_Q (max0 (inject_Z (exam_duration_minutes exam * 60)
                    - (total_seconds (now - qs_started_at self)
                       - inject_Z (qs_total_paused_seconds self) - 0))).
Proof. intros Hc Hp. unfold get_remaining_time. rewrite Hc, Hp. reflexivity. Qed.

(** A pause followed by a resume.  On a session in progress both succeed;
    the resumed session, which is the stored one, is not paused and has the
    whole seconds of the pause added to its paused total, and from then on
    the time left is larger by exactly these seconds than it would be
    without the pause, as long as the time had not run out. *)
Theorem pause_then_resume_credits_the_pause (exam : Exam) (t1 t2 : Z) (db : DB)
    (self : QuizSession) :
  qs_is_paused self = false -> qs_is_completed self = false ->
  let s1 := fst (fst (pause_quiz t1 db self)) in
  let db1 := snd (fst (pause_quiz t1 db self)) in
  let s2 := fst (fst (resume_quiz t2 db1 s1)) in
  let db2 := snd (fst (resume_quiz t2 db1 s1)) in
  snd (pause_quiz t1 db self) = true
  /\ snd (resume_quiz t2 db1 s1) = true
  /\ qs_is_paused s1 = true /\ qs_paused_at s1 = Some t1
  /\ qs_is_paused s2 = false /\ qs_paused_at s2 = None
  /\ qs_total_paused_seconds s2 = qs_total_paused_seconds self + whole_seconds (t2 - t1)
  /\ find_row qs_id (qs_id self) (quiz_sessions db2) = Some s2
  /\ forall now now',
       t1 <= t2 ->
       now - qs_started_at self
         <= (exam_duration_minutes exam * 60 + qs_total_paused_seconds self) * usec_per_sec ->
       get_remaining_time exam now now' s2
       = get_remaining_time exam now now' self + whole_seconds (t2 - t1).
Proof.
  intros Hp Hc. cbv zeta. unfold pause_quiz. rewrite Hp, Hc. cbn [negb andb fst snd].
  unfold resume_quiz. cbn [qs_is_paused qs_is_completed set_pause]. rewrite Hc.
  cbn [negb andb fst snd qs_paused_at qs_total_paused_seconds].
  repeat split.
  - unfold save_session. cbn [quiz_sessions set_quiz_sessions].
    match goal with
    | |- find_row _ _ (save_row _ ?x _) = _ => exact (find_row_save_same qs_id x _)
    end.
  - intros now now' Ht Hleft.
    rewrite !get_remaining_time_running by (simpl; first [assumption | reflexivity]).
    cbn [exam_duration_minutes qs_started_at qs_total_paused_seconds qs_paused_at set_pause].
    set (D := inject_Z (exam_duration_minutes exam * 60)).
    set (e := total_seconds (now - qs_started_at self)).
    set (p := qs_total_paused_seconds self).
    set (d := whole_seconds (t2 - t1)).
    assert (Hd : 0 <= d).
    { unfold d, whole_seconds, usec_per_sec. apply Z.quot_pos; lia. }
    assert (Hx : (0 <= D - (e - inject_Z p - 0))%Q).
    { unfold D, e.
      assert (H := total_seconds_le _ _ Hleft).
      assert (E : (total_seconds ((exam_duration_minutes exam * 60 + p) * usec_per_sec)
                   == inject_Z (exam_duration_minutes exam * 60) + inject_Z p)%Q).
      { unfold total_seconds, usec_per_sec, Qeq, Qplus, inject_Z. simpl. lia. }
      fold p in H. lra. }
    rewrite <- (int_of_Q_plus _ d (max0_nonneg _) Hd).
    apply int_of_Q_eq; [apply max0_nonneg |].
    assert (Hd' : (0 <= inject_Z d)%Q) by (rewrite <- (Zle_Qle 0); exact Hd).
    fold d. rewrite inject_Z_plus. rewrite !max0_id by lra. lra.
Qed.


(** A question of type [single] or [true_false] can be answered correctly
    only if it has exactly one correct choice, and then only by selecting
    that choice alone. *)
Theorem single_answer_needs_one_correct_choice (db : DB) (question : Question)
    (self : UserAnswer) :
  q_question_type question = "single" \/ q_question_type question = "true_false" ->
  ua_is_correct (fst (check_answer db question self)) = true ->
  size (correct_choices db (q_id question)) = 1%nat
  /\ selected_choices db self = correct_choices db (q_id question)
  /\ selected_choices db self ⊆ ua_selected_choices self.
Proof.
  intros Ht H. unfold check_answer in H.
  assert (Hb : bool_decide (size (selected_choices db self) = 1%nat)
               && bool_decide (selected_choices db self = correct_choices db (q_id question))
               = true).
  { destruct Ht as [E | E]; rewrite E in H; exact H. }
  apply andb_true_iff in Hb. destruct Hb as [H1 H2].
  apply bool_decide_eq_true in H1, H2.
  split; [rewrite <- H2; exact H1 | split; [exact H2 |]].
  unfold selected_choices. intros k Hk.
  apply elem_of_list_to_set in Hk. apply list_elem_of_In in Hk.
  apply in_map_iff in Hk. destruct Hk as (c & <- & Hin).
  apply List.filter_In in Hin. destruct Hin as [_ Hd].
  apply bool_decide_eq_true in Hd. exact Hd.
Qed.

Lemma pause_then_resume_credits_the_pause_witness :
  qs_is_paused (session 1 false 0%float) = false
  /\ whole_seconds (40000000 - 10000000) = 30
  /\ get_remaining_time exam1 60000000 60000000
       (fst (fst (resume_quiz 40000000
                    (snd (fst (pause_quiz 10000000 db_multiple (session 1 false 0%float))))
                    (fst (fst (pause_quiz 10000000 db_multiple (session 1 false 0%float)))))))
     = get_remaining_time exam1 60000000 60000000 (session 1 false 0%float)
       + whole_seconds (40000000 - 10000000).
Proof.
  split; [reflexivity | split; [reflexivity |]].
  refine (proj2 (proj2 (proj2 (proj2 (proj2 (proj2 (proj2 (proj2
            (pause_then_resume_credits_the_pause exam1 10000000 40000000 db_multiple
               (session 1 false 0%float) eq_refl eq_refl))))))))
            60000000 60000000 _ _).
  - lia.
  - vm_compute. discriminate.
Defined.


Lemma single_answer_needs_one_correct_choice_witness :
  ua_is_correct (fst (check_answer db_grown (question 1 "single" "2+2?" true)
                        (answer 1 1 1 [2] true))) = true
  /\ size (correct_choices db_grown 1) = 1%nat
  /\ selected_choices db_grown (answer 1 1 1 [2] true) = correct_choices db_grown 1.
Proof.
  assert (H : ua_is_correct (fst (check_answer db_grown (question 1 "single" "2+2?" true)
                                    (answer 1 1 1 [2] true))) = true) by reflexivity.
  split; [exact H |].
  destruct (single_answer_needs_one_correct_choice db_grown (question 1 "single" "2+2?" true)
              (answer 1 1 1 [2] true) (or_introl eq_refl) H) as (H1 & H2 & _).
  split; [exact H1 | exact H2].
Defined.

End TimerFacts.

(** ** Brackets, indices and counts of the importer *)

Module RowFacts.
Import Models Importer Spec Samples Invariants MoreSamples PyFacts ImporterFacts.

(** *** Removing one character *)

Lemma replace_char_gone (c : ascii) (s : string) :
  Py.has_char c (Py.replace (String c EmptyString) "" s) = false.
Proof.
  unfold Py.replace. induction s as [| d s IH]; [reflexivity |].
  cbn [Py.replace_from Py.startswith String.length Nat.sub].
  destruct (Ascii.eqb_spec c d) as [-> | Hne]; cbn [andb].
  - exact IH.
  - simpl. destruct (Ascii.eqb_spec c d); [contradiction |]. exact IH.
Qed.

Lemma replace_char_others (c d : ascii) (s : string) :
  d <> c -> Py.has_char d (Py.replace (String c EmptyString) "" s) = Py.has_char d s.
Proof.
  intros Hdc. unfold Py.replace. induction s as [| e s IH]; [reflexivity |].
  cbn [Py.replace_from Py.startswith String.length Nat.sub].
  destruct (Ascii.eqb_spec c e) as [-> | Hne]; cbn [andb].
  - simpl. destruct (Ascii.eqb_spec d e); [contradiction |]. exact IH.
  - simpl. rewrite IH. reflexivity.
Qed.

Lemma replace_char_absent (c : ascii) (s : string) :
  Py.has_char c s = false -> Py.replace (String c EmptyString) "" s = s.
Proof.
  unfold Py.replace. induction s as [| e s IH]; [reflexivity |].
  intros H. simpl in H. apply orb_false_iff in H. destruct H as [Hce Hs].
  cbn [Py.replace_from Py.startswith String.length Nat.sub]. rewrite Hce. cbn [andb].
  rewrite (IH Hs). reflexivity.
Qed.

(** [remove_all_brackets] leaves no bracket, keeps every other character,
    changes nothing in a text without brackets, and so changes nothing when
    applied again. *)
Lemma remove_all_brackets_clean (text : string) :
  Py.has_char "[" (remove_all_brackets text) = false
  /\ Py.has_char "]" (remove_all_brackets text) = false
  /\ (forall c, c <> "["%char -> c <> "]"%char ->
        Py.has_char c (remove_all_brackets text) = Py.has_char c text)
  /\ (Py.has_char "[" text = false -> Py.has_char "]" text = false ->
        remove_all_brackets text = text)
  /\ remove_all_brackets (remove_all_brackets text) = remove_all_brackets text.
Proof.
  unfold remove_all_brackets.
  assert (H1 : Py.has_char "[" (Py.replace "]" "" (Py.replace "[" "" text)) = false).
  { rewrite replace_char_others by discriminate. apply replace_char_gone. }
  assert (H2 : Py.has_char "]" (Py.replace "]" "" (Py.replace "[" "" text)) = false)
    by apply replace_char_gone.
  split; [exact H1 | split; [exact H2 | split; [| split]]].
  - intros c Ho Hc. rewrite !replace_char_others by assumption. reflexivity.
  - intros Ho Hc. rewrite (replace_char_absent "[" text Ho). apply replace_char_absent, Hc.
  - rewrite (replace_char_absent "[" _ H1). apply replace_char_absent, H2.
Qed.

(** *** The indices the resolution yields *)

Lemma map_fst_combine {A B} (l : list A) (k : list B) :
  List.length l = List.length k -> List.map fst (List.combine l k) = l.
Proof.
  revert k. induction l as [| x l IH]; intros [| y k] H; simpl in *; try discriminate;
    [reflexivity |]. rewrite IH by lia. reflexivity.
Qed.

Lemma map_snd_combine {A B} (l : list A) (k : list B) :
  List.length l = List.length k -> List.map snd (List.combine l k) = k.
Proof.
  revert k. induction l as [| x l IH]; intros [| y k] H; simpl in *; try discriminate;
    [reflexivity |]. rewrite IH by lia. reflexivity.
Qed.

(** The indices of [enumerate] are the positions of the list. *)
Lemma enumerate_fst {A} (l : list A) :
  Forall (fun ic => 0 <= fst ic < Z.of_nat (List.length l)) (Py.enumerate l).
Proof.
  unfold Py.enumerate. apply List.Forall_forall. intros [i c] Hin.
  apply in_combine_l in Hin. apply in_map_iff in Hin. destruct Hin as (n & <- & Hn).
  apply in_seq in Hn. simpl. lia.
Qed.

Lemma exact_match_in (P : Z -> Prop) (l : list (Z * string)) (correct_lower : string) :
  Forall (fun ic => P (fst ic)) l -> Forall P (exact_match correct_lower l).
Proof.
  intros Hl. induction Hl as [| [idx c] l' Hic _ IH]; simpl; [constructor |].
  destruct (String.eqb _ _); [repeat constructor; exact Hic | exact IH].
Qed.

Lemma substring_match_in (P : Z -> Prop) (l : list (Z * string)) (single : bool)
    (correct_lower : string) :
  Forall (fun ic => P (fst ic)) l -> Forall P (substring_match single correct_lower l).
Proof.
  intros Hl. induction Hl as [| [idx c] l' Hic _ IH]; simpl; [constructor |].
  destruct (_ || _); [| exact IH].
  constructor; [exact Hic |]. destruct single; [constructor | exact IH].
Qed.

Lemma question_text_match_in (P : Z -> Prop) (l : list (Z * string)) (correct_lower : string) :
  Forall (fun ic => P (fst ic)) l -> Forall P (question_text_match correct_lower l).
Proof.
  intros Hl. induction Hl as [| [idx c] l' Hic _ IH]; simpl; [constructor |].
  destruct (_ || _); [repeat constructor; exact Hic |].
  destruct (Py.int correct_lower); [| exact IH].
  destruct (_ || _); [repeat constructor; exact Hic | exact IH].
Qed.

Lemma add_index_in (P : Z -> Prop) (i : Z) (acc : list Z) :
  P i -> Forall P acc -> Forall P (add_index i acc).
Proof.
  intros Hi Hacc. unfold add_index. destruct (List.existsb _ acc); [exact Hacc |].
  apply Forall_app. split; [exact Hacc | repeat constructor; exact Hi].
Qed.

Lemma pipe_text_match_in (P : Z -> Prop) (l : list (Z * string)) (with_eq : bool)
    (parts : list string) (acc : list Z) :
  Forall (fun ic => P (fst ic)) l -> Forall P acc ->
  Forall P (pipe_text_match with_eq parts l acc).
Proof.
  unfold pipe_text_match. intros Hl. revert acc.
  induction Hl as [| ic l' Hic _ IH]; intros acc Hacc; simpl; [exact Hacc |].
  apply IH. clear IH. revert acc Hacc.
  induction parts as [| p parts IHp]; intros acc Hacc; simpl; [exact Hacc |].
  apply IHp. destruct (_ || _); [apply add_index_in; assumption | exact Hacc].
Qed.

Lemma valid_indices_in (len : Z) (indices : list Z) :
  Forall (fun i => 0 <= i < len) (valid_indices len indices).
Proof.
  unfold valid_indices. apply List.Forall_forall. intros i Hin.
  apply in_map_iff in Hin. destruct Hin as (idx & <- & Hidx).
  apply List.filter_In in Hidx. destruct Hidx as [_ H]. lia.
Qed.

Lemma numeric_ladder_in (choices_list : list string) (text : string) :
  Forall (fun i => 0 <= i < Z.of_nat (List.length choices_list))
    (numeric_ladder (Py.enumerate choices_list) (Z.of_nat (List.length choices_list)) text).
Proof.
  unfold numeric_ladder.
  destruct (Py.int (Py.strip text)) as [n |].
  - destruct (_ && _) eqn:E; [| constructor]. repeat constructor; lia.
  - destruct (parse_all (Py.split "," text)); [apply valid_indices_in |].
    destruct (parse_all (Py.split "|" text)); [apply valid_indices_in |].
    apply (pipe_text_match_in (fun i => 0 <= i < Z.of_nat (List.length choices_list)));
      [apply enumerate_fst | constructor].
Qed.

(** Every index resolved is the position of a choice. *)
Lemma resolve_correct_indices_in (question_type question_text : string)
    (choices_list : list string) (answer : string) :
  Forall (fun i => 0 <= i < Z.of_nat (List.length choices_list))
    (resolve_correct_indices question_type question_text choices_list answer).
Proof.
  unfold resolve_correct_indices. destruct (nonempty answer); [| constructor]. cbv zeta.
  pose proof (enumerate_fst choices_list) as He.
  set (P := fun i : Z => 0 <= i < Z.of_nat (List.length choices_list)).
  pose proof (exact_match_in P _ (strip_lower answer) He) as Ha.
  destruct (exact_match (strip_lower answer) (Py.enumerate choices_list)) as [| a0 a];
    cbn [is_nil andb]; [| exact Ha].
  pose proof (substring_match_in P _ (String.eqb question_type "single") (strip_lower answer)
                He) as Hb.
  destruct (substring_match _ _ _) as [| b0 b]; cbn [is_nil andb]; [| exact Hb].
  assert (Hc : Forall P
                 (if Py.contains (strip_lower answer) (Py.lower question_text)
                  then question_text_match (strip_lower answer) (Py.enumerate choices_list)
                  else [])).
  { destruct (Py.contains _ _); [apply (question_text_match_in P); exact He | constructor]. }
  destruct (if Py.contains (strip_lower answer) (Py.lower question_text) then _ else _)
    as [| c0 c]; cbn [is_nil andb]; [| exact Hc].
  pose proof (numeric_ladder_in choices_list answer) as Hd.
  destruct (numeric_ladder _ _ answer) as [| d0 d]; cbn [is_nil andb]; [| exact Hd].
  destruct (Py.contains "|" answer); [| constructor].
  apply (pipe_text_match_in P); [exact He | constructor].
Qed.

(** The check of lines 579-582 never fails on the indices the resolution
    yields: [check_indices] either passes them or raises the error of an
    answer that could not be determined, and it passes them exactly when
    there is at least one. *)
Theorem resolved_indices_are_choices (question_type question_text : string)
    (choices_list : list string) (answer : string) (db : DB) :
  let correct_indices :=
    resolve_correct_indices question_type question_text choices_list answer in
  Forall (fun i => 0 <= i < Z.of_nat (List.length choices_list)) correct_indices
  /\ check_indices answer choices_list correct_indices db
     = (if is_nil correct_indices
        then inl (ValueError (could_not_determine answer choices_list))
        else inr tt, db).
Proof.
  cbv zeta. pose proof (resolve_correct_indices_in question_type question_text choices_list
                          answer) as H.
  split; [exact H |]. unfold check_indices.
  destruct (resolve_correct_indices _ _ _ _) as [| i ci] eqn:E; [reflexivity |].
  cbn [is_nil].
  destruct (List.find _ (i :: ci)) as [idx |] eqn:F; [| reflexivity].
  apply List.find_some in F. destruct F as [Hin Hbad].
  rewrite List.Forall_forall in H. specialize (H idx Hin). lia.
Qed.

(** *** A row that is imported *)

Lemma no_brackets_removed (text : string) : no_brackets (remove_all_brackets text).
Proof.
  destruct (remove_all_brackets_clean text) as (H1 & H2 & _). split; assumption.
Qed.

(** The upsert returns a row of the table it leaves, with the text asked. *)
Lemma update_or_create_in (exam : Exam) (text : string) (d : QuestionDefaults) (db db' : DB)
    (r : Question * bool) :
  update_or_create_question exam text d db = (inr r, db') ->
  In (fst r) (questions db') /\ q_question_text (fst r) = text
  /\ q_explanation (fst r) = d_explanation d.
Proof.
  unfold update_or_create_question, mbind, M_bind, get_db. cbn beta iota.
  destruct (List.filter _ (questions db)) as [| q0 [| q1 l]] eqn:F; [| | discriminate].
  - unfold positive_int. destruct (d_points d <? 0); [discriminate |].
    destruct (d_order d <? 0); [discriminate |]. cbn. intros H. inversion H; subst. clear H.
    simpl. split; [| auto]. apply in_or_app. right. left. reflexivity.
  - unfold positive_int. destruct (d_points d <? 0); [discriminate |].
    destruct (d_order d <? 0); [discriminate |]. cbn. intros H. inversion H; subst. clear H.
    assert (Hq0 : In q0 (List.filter (fun q => (q_exam q =? exam_id exam)
                                              && String.eqb (q_question_text q) text)
                           (questions db))) by (rewrite F; left; reflexivity).
    apply List.filter_In in Hq0. destruct Hq0 as [_ Hq0]. apply andb_true_iff in Hq0.
    destruct Hq0 as [_ Ht]. apply String.eqb_eq in Ht.
    simpl. split; [| auto].
    set (q := question_of (q_id q0) (q_exam q0) (q_question_text q0) d).
    pose proof (TableFacts.find_row_save_same q_id q (questions db)) as Hf.
    apply TableFacts.find_row_key in Hf. tauto.
Qed.

(** The texts [parse_question] returns went through [remove_all_brackets]. *)
Lemma parse_question_no_brackets (row : gmap string pyval) (topic : option Z) (db db' : DB)
    (text : string) (d : QuestionDefaults) :
  parse_question row topic db = (inr (text, d), db') ->
  no_brackets text /\ no_brackets (d_explanation d).
Proof.
  unfold parse_question, mbind, M_bind.
  destruct (strip_val (row_get row "question_text" (PyStr "")) db) as [[e | s0] db0];
    [discriminate |].
  destruct (negb _); [discriminate |].
  destruct (strip_val (row_get row "question_type" _) db0) as [[e | s1] db1]; [discriminate |].
  destruct (strip_val (row_get row "difficulty" _) db1) as [[e | s2] db2]; [discriminate |].
  destruct (strip_val (row_get row "explanation" _) db2) as [[e | s3] db3]; [discriminate |].
  destruct (strip_val (row_get row "points" _) db3) as [[e | s4] db4]; [discriminate |].
  destruct (strip_val (row_get row "order" _) db4) as [[e | s5] db5]; [discriminate |].
  destruct (strip_val (row_get row "is_active" _) db5) as [[e | s6] db6]; [discriminate |].
  cbn. intros H. inversion H; subst. simpl. split; apply no_brackets_removed.
Qed.

Lemma choice_columns_no_brackets (row : gmap string pyval) (keys : list string)
    (acc choices_list : list string) (db db' : DB) :
  Forall no_brackets acc ->
  choice_columns row keys acc db = (inr choices_list, db') ->
  Forall no_brackets choices_list.
Proof.
  revert acc db. induction keys as [| k keys IH]; intros acc db Hacc; simpl.
  - unfold mret, M_ret. intros H. inversion H; subst. exact Hacc.
  - destruct (row !! k) as [v |]; [| apply IH; exact Hacc].
    unfold mbind, M_bind. destruct (strip_val v db) as [[e | s] db1]; [discriminate |].
    destruct (nonempty s); [| apply IH; exact Hacc].
    apply IH. destruct (nonempty (remove_all_brackets s)); [| exact Hacc].
    apply Forall_app. split; [exact Hacc |]. repeat constructor; apply no_brackets_removed.
Qed.

Lemma parse_choices_no_brackets (row : gmap string pyval) (hcc : bool)
    (choices_list : list string) (db db' : DB) :
  parse_choices row hcc db = (inr choices_list, db') -> Forall no_brackets choices_list.
Proof.
  unfold parse_choices. destruct hcc.
  - apply choice_columns_no_brackets. constructor.
  - unfold mbind, M_bind. destruct (strip_val _ db) as [[e | s] db1]; [discriminate |].
    destruct (nonempty s); unfold mret, M_ret; intros H; inversion H; subst; [| constructor].
    apply List.Forall_forall. intros c Hc. apply in_map_iff in Hc.
    destruct Hc as (x & <- & _). apply no_brackets_removed.
Qed.

(** What a successful run of [process_row] went through. *)
Lemma process_row_steps (row : gmap string pyval) (row_num : Z) (hcc : bool) (db db' : DB)
    (result : RowResult) :
  process_row row row_num hcc db = (inr result, db') ->
  exists u db1 choices_list answer,
    upsert_question row db = (inr u, db1)
    /\ parse_choices row hcc db1 = (inr choices_list, db1)
    /\ choices_list <> []
    /\ parse_correct_answer_text row db1 = (inr answer, db1)
    /\ resolve_correct_indices (u_question_type u) (u_question_text u) choices_list answer <> []
    /\ replace_choices (u_question u) choices_list
         (resolve_correct_indices (u_question_type u) (u_question_text u) choices_list answer)
         db1
       = (inr (Z.of_nat (List.length choices_list)), db')
    /\ result = {| created := u_created u;
                   choices_count := Z.of_nat (List.length choices_list) |}.
Proof.
  intros H. unfold process_row, mbind, M_bind in H.
  destruct (upsert_question row db) as [[e | u] db1] eqn:Hup; [discriminate |].
  destruct (parse_choices row hcc db1) as [[e | choices_list] db2] eqn:Hch; [discriminate |].
  assert (db2 = db1) by (eapply reads_run; [apply reads_parse_choices | exact Hch]). subst db2.
  destruct (is_nil choices_list) eqn:Hnil; [discriminate |].
  destruct (parse_correct_answer_text row db1) as [[e | answer] db3] eqn:Hans; [discriminate |].
  assert (db3 = db1) by (eapply reads_run; [apply reads_parse_correct_answer_text | exact Hans]).
  subst db3.
  destruct (check_indices answer choices_list _ db1) as [[e | []] db4] eqn:Hck; [discriminate |].
  assert (db4 = db1) by (eapply reads_run; [apply reads_check_indices | exact Hck]). subst db4.
  set (ci := resolve_correct_indices (u_question_type u) (u_question_text u) choices_list answer)
    in *.
  destruct (replace_choices_result (u_question u) choices_list ci db1) as (dbr & Hrep & _).
  rewrite Hrep in H. cbn in H. inversion H; subst. clear H.
  exists u, db1, choices_list, answer. repeat split; auto.
  - intros ->. discriminate.
  - intros Hci. unfold check_indices in Hck. unfold ci in *. rewrite Hci in Hck. discriminate.
Qed.

(** The question a successful upsert returns. *)
Lemma upsert_question_result (row : gmap string pyval) (db db1 : DB) (u : Upserted) :
  upsert_question row db = (inr u, db1) ->
  In (u_question u) (questions db1)
  /\ no_brackets (q_question_text (u_question u))
  /\ no_brackets (q_explanation (u_question u)).
Proof.
  unfold upsert_question, mbind, M_bind.
  destruct (get_exam_and_topic row db) as [[e | et] db0]; [discriminate |].
  destruct (parse_question row (snd et) db0) as [[e | [text d]] db2] eqn:Hq; [discriminate |].
  destruct (update_or_create_question (fst et) _ _ db2) as [[e | qc] db3] eqn:Hup;
    [discriminate |].
  cbn. intros H. inversion H; subst. clear H. cbn [u_question].
  destruct (update_or_create_in _ _ _ _ _ _ Hup) as (Hin & Ht & He).
  destruct (parse_question_no_brackets _ _ _ _ _ _ Hq) as (Hn1 & Hn2).
  cbn [fst snd] in Ht, He. rewrite Ht, He. auto.
Qed.

(** After a row is imported the question it upserted is in the table; the
    choices of the question are the choices read from the row, in their
    order, each numbered by its position; there is at least one and at
    least one is marked correct. *)
Theorem imported_question_has_a_correct_choice (row : gmap string pyval) (row_num : Z)
    (hcc : bool) (db db' : DB) (result : RowResult) :
  process_row row row_num hcc db = (inr result, db') ->
  exists u db1 choices_list,
    upsert_question row db = (inr u, db1)
    /\ parse_choices row hcc db1 = (inr choices_list, db1)
    /\ In (u_question u) (questions db')
    /\ List.map ch_choice_text (choices_of db' (q_id (u_question u))) = choices_list
    /\ List.map ch_order (choices_of db' (q_id (u_question u)))
       = List.map Z.of_nat (seq 0 (List.length choices_list))
    /\ choices_count result = Z.of_nat (List.length choices_list)
    /\ 1 <= choices_count result
    /\ Exists (fun c => ch_is_correct c = true) (choices_of db' (q_id (u_question u))).
Proof.
  intros H. destruct (process_row_steps _ _ _ _ _ _ H) as (u & db1 & cl & answer & Hup & Hch
    & Hne & Hans & Hci & Hrep & ->).
  set (ci := resolve_correct_indices (u_question_type u) (u_question_text u) cl answer) in *.
  destruct (replace_choices_result (u_question u) cl ci db1) as (dbr & Hrep' & Hview).
  rewrite Hrep in Hrep'. inversion Hrep'; subst dbr. clear Hrep'.
  destruct (upsert_question_result _ _ _ _ Hup) as (Hin & _).
  pose proof (keeps_replace_choices (u_question u) cl ci db1) as Hkeep.
  rewrite Hrep in Hkeep. cbn [snd] in Hkeep.
  fold (choices_of db' (q_id (u_question u))) in Hview.
  assert (Hlen : List.length (Py.enumerate cl) = List.length cl).
  { unfold Py.enumerate. rewrite length_combine, length_map, length_seq. lia. }
  assert (Hsnd : List.map snd (Py.enumerate cl) = cl).
  { unfold Py.enumerate. apply map_snd_combine. rewrite length_map, length_seq. reflexivity. }
  assert (Hfst : List.map fst (Py.enumerate cl) = List.map Z.of_nat (seq 0 (List.length cl))).
  { unfold Py.enumerate. apply map_fst_combine. rewrite length_map, length_seq. reflexivity. }
  exists u, db1, cl. split; [exact Hup | split; [exact Hch |]].
  split; [rewrite Hkeep; exact Hin |].
  split; [| split; [| split; [reflexivity | split]]].
  - rewrite <- Hsnd.
    transitivity (List.map (fun v : string * bool * Z => fst (fst v))
                    (List.map choice_view (choices_of db' (q_id (u_question u))))).
    + rewrite List.map_map. reflexivity.
    + rewrite Hview, List.map_map. reflexivity.
  - rewrite <- Hfst.
    transitivity (List.map (fun v : string * bool * Z => snd v)
                    (List.map choice_view (choices_of db' (q_id (u_question u))))).
    + rewrite List.map_map. reflexivity.
    + rewrite Hview, List.map_map. reflexivity.
  - cbn [choices_count]. destruct cl as [| c cl']; [contradiction | simpl; lia].
  - destruct ci as [| i ci'] eqn:Eci; [contradiction |].
    pose proof (resolve_correct_indices_in (u_question_type u) (u_question_text u) cl answer)
      as Hrange.
    fold ci in Hrange. rewrite Eci in Hrange. apply Forall_cons in Hrange.
    destruct Hrange as [Hi _].
    assert (Hex : Exists (fun v : string * bool * Z => snd (fst v) = true)
                    (List.map choice_view (choices_of db' (q_id (u_question u))))).
    { rewrite Hview. apply Exists_exists.
      assert (Hnth : exists c, In (i, c) (Py.enumerate cl)).
      { assert (Hi' : In i (List.map fst (Py.enumerate cl))).
        { rewrite Hfst. apply in_map_iff. exists (Z.to_nat i). split; [lia |].
          apply in_seq. lia. }
        apply in_map_iff in Hi'. destruct Hi' as ([j c] & Hj & Hin'). simpl in Hj. subst j.
        exists c. exact Hin'. }
      destruct Hnth as [c Hc].
      exists (c, List.existsb (Z.eqb i) (i :: ci'), i). split.
      - apply list_elem_of_In. apply in_map_iff. exists (i, c). split; [reflexivity | exact Hc].
      - simpl. rewrite Z.eqb_refl. reflexivity. }
    apply Exists_exists in Hex. destruct Hex as (v & Hv & Htrue).
    apply list_elem_of_In in Hv. apply in_map_iff in Hv. destruct Hv as (c & <- & Hc).
    apply Exists_exists. exists c. split; [apply list_elem_of_In; exact Hc | exact Htrue].
Qed.

(** No text an imported row stores holds a square bracket: not the text of
    the question it upserted, not its explanation, not the text of any of
    its choices. *)
Theorem imported_texts_have_no_brackets (row : gmap string pyval) (row_num : Z)
    (hcc : bool) (db db' : DB) (result : RowResult) :
  process_row row row_num hcc db = (inr result, db') ->
  exists u db1,
    upsert_question row db = (inr u, db1)
    /\ In (u_question u) (questions db')
    /\ no_brackets (q_question_text (u_question u))
    /\ no_brackets (q_explanation (u_question u))
    /\ Forall (fun c => no_brackets (ch_choice_text c))
         (choices_of db' (q_id (u_question u))).
Proof.
  intros H. destruct (process_row_steps _ _ _ _ _ _ H) as (u & db1 & cl & answer & Hup & Hch
    & Hne & Hans & Hci & Hrep & ->).
  set (ci := resolve_correct_indices (u_question_type u) (u_question_text u) cl answer) in *.
  destruct (replace_choices_result (u_question u) cl ci db1) as (dbr & Hrep' & Hview).
  rewrite Hrep in Hrep'. inversion Hrep'; subst dbr. clear Hrep'.
  destruct (upsert_question_result _ _ _ _ Hup) as (Hin & Hn1 & Hn2).
  pose proof (keeps_replace_choices (u_question u) cl ci db1) as Hkeep.
  rewrite Hrep in Hkeep. cbn [snd] in Hkeep.
  fold (choices_of db' (q_id (u_question u))) in Hview.
  exists u, db1. split; [exact Hup |].
  split; [rewrite Hkeep; exact Hin | split; [exact Hn1 | split; [exact Hn2 |]]].
  assert (Htexts : List.map ch_choice_text (choices_of db' (q_id (u_question u))) = cl).
  { transitivity (List.map (fun v : string * bool * Z => fst (fst v))
                    (List.map choice_view (choices_of db' (q_id (u_question u))))).
    - rewrite List.map_map. reflexivity.
    - rewrite Hview, List.map_map. unfold Py.enumerate. apply map_snd_combine.
      rewrite length_map, length_seq. reflexivity. }
  pose proof (parse_choices_no_brackets _ _ _ _ _ Hch) as Hcl. rewrite <- Htexts in Hcl.
  apply List.Forall_forall. intros c Hc. rewrite List.Forall_forall in Hcl.
  apply Hcl. apply in_map. exact Hc.
Qed.

(** *** The rows of a file *)

(** One row: skipped when blank, otherwise counted once, as created, as
    updated or as an error. *)
Lemma import_row_counts (column_map : gmap string string) (hcc : bool) (row_num : Z)
    (row : CsvRow) (t : Tally) (db : DB) :
  exists t' db', import_row column_map hcc row_num row t db = (inr t', db')
    /\ Z.of_nat (List.length (errors t')) + questions_created t' + questions_updated t'
       = Z.of_nat (List.length (errors t)) + questions_created t + questions_updated t
         + (if any_value row then 1 else 0)
    /\ (any_value row = false -> t' = t /\ db' = db).
Proof.
  unfold import_row. destruct (any_value row); cbn [negb].
  - unfold mbind, M_bind, try_except.
    destruct (process_row (mapped_row column_map row) row_num hcc db) as [[e | r] db1];
      eexists _, _; (split; [reflexivity |]); (split; [| discriminate]); cbn.
    + rewrite length_app. simpl. lia.
    + destruct (created r); lia.
  - eexists _, _. split; [reflexivity |]. split; [lia | auto].
Qed.

(** The loop over the rows of a file always ends normally, and when it
    ends every row that is not blank has been counted exactly once: as a
    question created, as a question updated, or as an error.  Blank rows
    leave the counts and the database alone. *)
Theorem every_row_is_counted_once (column_map : gmap string string) (hcc : bool)
    (row_num : Z) (l : list CsvRow) (t : Tally) (db : DB) :
  exists t' db', import_rows column_map hcc row_num l t db = (inr t', db')
    /\ Z.of_nat (List.length (errors t')) + questions_created t' + questions_updated t'
       = Z.of_nat (List.length (errors t)) + questions_created t + questions_updated t
         + count any_value l
    /\ (Forall (fun row => any_value row = false) l -> t' = t /\ db' = db).
Proof.
  revert row_num t db. induction l as [| row l IH]; intros row_num t db; cbn [import_rows].
  - exists t, db. split; [reflexivity |]. unfold count. simpl. split; [lia | auto].
  - unfold mbind, M_bind.
    destruct (import_row_counts column_map hcc row_num row t db) as (t1 & db1 & E & Hc & Hb).
    rewrite E. destruct (IH (row_num + 1) t1 db1) as (t' & db' & E' & Hc' & Hb').
    exists t', db'. split; [exact E' |]. split.
    + rewrite Hc', Hc. unfold count. simpl. destruct (any_value row); simpl; lia.
    + intros Hall. apply Forall_cons in Hall. destruct Hall as [Hrow Hall].
      destruct (Hb Hrow) as [-> ->]. apply Hb', Hall.
Qed.

(** *** Finding or making a category, an exam, a topic *)

(** A second [get_or_create] with the same name (in the same category, in
    the same exam) returns the row of the first and writes nothing, whatever
    defaults it is given. *)
Theorem get_or_create_finds_what_it_made :
  (forall name d d' db c db1,
     get_or_create_category name d db = (inr c, db1) ->
     cat_name c = name /\ get_or_create_category name d' db1 = (inr c, db1))
  /\ (forall category name d dm tq ps d' dm' tq' ps' db e db1,
        get_or_create_exam category name d dm tq ps db = (inr e, db1) ->
        exam_name e = name /\ exam_category e = cat_id category
        /\ get_or_create_exam category name d' dm' tq' ps' db1 = (inr e, db1))
  /\ (forall exam name d o d' o' db t db1,
        get_or_create_topic exam name d o db = (inr t, db1) ->
        topic_name t = name /\ topic_exam t = exam_id exam
        /\ get_or_create_topic exam name d' o' db1 = (inr t, db1)).
Proof.
  split; [| split].
  - intros name d d' db c db1. unfold get_or_create_category, mbind, M_bind, get_db.
    cbn beta iota.
    destruct (List.filter _ (categories db)) as [| c0 [| c1 l]] eqn:F; [| | discriminate].
    + cbn. intros H. inversion H; subst. clear H. cbn.
      rewrite List.filter_app, F. cbn. rewrite String.eqb_refl. cbn. auto.
    + cbn. intros H. inversion H; subst. clear H. rewrite F. cbn.
      assert (Hc : In c (List.filter (fun c => String.eqb (cat_name c) name) (categories db1)))
        by (rewrite F; left; reflexivity).
      apply List.filter_In in Hc. destruct Hc as [_ Hc]. apply String.eqb_eq in Hc. auto.
  - intros category name d dm tq ps d' dm' tq' ps' db e db1.
    unfold get_or_create_exam, mbind, M_bind, get_db. cbn beta iota.
    destruct (List.filter _ (exams db)) as [| e0 [| e1 l]] eqn:F; [| | discriminate].
    + unfold not_null, positive_int. destruct d as [| dtext]; [discriminate |].
      destruct (dm <? 0); [discriminate |]. destruct (tq <? 0); [discriminate |].
      destruct (ps <? 0); [discriminate |].
      cbn. intros H. inversion H; subst. clear H. cbn.
      rewrite List.filter_app, F. cbn. rewrite Z.eqb_refl, String.eqb_refl. cbn. auto.
    + cbn. intros H. inversion H; subst. clear H. rewrite F. cbn.
      assert (He : In e (List.filter (fun e => (exam_category e =? cat_id category)
                                               && String.eqb (exam_name e) name) (exams db1)))
        by (rewrite F; left; reflexivity).
      apply List.filter_In in He. destruct He as [_ He]. apply andb_true_iff in He.
      destruct He as [H1 H2]. apply String.eqb_eq in H2. apply Z.eqb_eq in H1. auto.
  - intros exam name d o d' o' db t db1.
    unfold get_or_create_topic, mbind, M_bind, get_db. cbn beta iota.
    destruct (List.filter _ (topics db)) as [| t0 [| t1 l]] eqn:F; [| | discriminate].
    + unfold not_null, positive_int. destruct d as [| dtext]; [discriminate |].
      destruct (o <? 0); [discriminate |].
      cbn. intros H. inversion H; subst. clear H. cbn.
      rewrite List.filter_app, F. cbn. rewrite Z.eqb_refl, String.eqb_refl. cbn. auto.
    + cbn. intros H. inversion H; subst. clear H. rewrite F. cbn.
      assert (Ht : In t (List.filter (fun t => (topic_exam t =? exam_id exam)
                                               && String.eqb (topic_name t) name) (topics db1)))
        by (rewrite F; left; reflexivity).
      apply List.filter_In in Ht. destruct Ht as [_ Ht]. apply andb_true_iff in Ht.
      destruct Ht as [H1 H2]. apply String.eqb_eq in H2. apply Z.eqb_eq in H1. auto.
Qed.

(** *** Where the error log goes *)

Lemma has_char_app (c : ascii) (a b : string) :
  Py.has_char c (a +:+ b) = Py.has_char c a || Py.has_char c b.
Proof.
  induction a as [| d a IH]; [reflexivity |].
  change (Py.has_char c (String d (a +:+ b)) = Py.has_char c (String d a) || Py.has_char c b).
  cbn [Py.has_char]. rewrite IH, orb_assoc. reflexivity.
Qed.

Lemma before_suffix_ext (base ext : string) :
  ext <> "" -> Py.has_char "." ext = false ->
  before_suffix (base +:+ "." +:+ ext) = base.
Proof.
  intros Hne Hdot. induction base as [| c base IH].
  - change (before_suffix (String "." ext) = ""). cbn [before_suffix]. rewrite Hdot.
    destruct ext; [contradiction | reflexivity].
  - change (before_suffix (String c (base +:+ "." +:+ ext)) = String c base).
    cbn [before_suffix]. rewrite IH, has_char_app.
    change (Py.has_char "." ("." +:+ ext)) with (Ascii.eqb "." "." || Py.has_char "." ext).
    rewrite Ascii.eqb_refl. cbn [orb negb]. rewrite orb_true_r, andb_false_r. reflexivity.
Qed.

Lemma append_inj_l (a x y : string) : a +:+ x = a +:+ y -> x = y.
Proof.
  induction a as [| c a IH]; [auto |].
  change (String c (a +:+ x) = String c (a +:+ y) -> x = y). intros H. inversion H. auto.
Qed.

(** For a file [base.ext] the error log is [base_errors.txt] in the failed
    folder, which is never the place the file itself is moved to. *)
Theorem error_log_is_beside_the_failed_file (failed_path base ext : string) :
  base <> "" -> ext <> "" -> Py.has_char "." ext = false ->
  stem (base +:+ "." +:+ ext) = base
  /\ error_log_path failed_path (base +:+ "." +:+ ext)
     = failed_path +:+ "/" +:+ base +:+ "_errors.txt"
  /\ error_log_path failed_path (base +:+ "." +:+ ext)
     <> path_join failed_path (base +:+ "." +:+ ext).
Proof.
  intros Hb He Hdot.
  assert (Hstem : stem (base +:+ "." +:+ ext) = base).
  { destruct base as [| c base]; [contradiction |].
    change (String c (before_suffix (base +:+ "." +:+ ext)) = String c base).
    rewrite before_suffix_ext by assumption. reflexivity. }
  unfold error_log_path, path_join. rewrite Hstem.
  split; [reflexivity | split; [reflexivity |]].
  intros H. apply append_inj_l in H. apply (append_inj_l "/") in H.
  apply append_inj_l in H. discriminate.
Qed.

(** [remove_all_brackets] leaves no square bracket and keeps every other
    character; a text without brackets is returned as it is, so cleaning a
    cleaned text changes nothing. *)
Theorem remove_all_brackets_leaves_none (text : string) :
  Py.has_char "[" (remove_all_brackets text) = false
  /\ Py.has_char "]" (remove_all_brackets text) = false
  /\ (forall c, c <> "["%char -> c <> "]"%char ->
        Py.has_char c (remove_all_brackets text) = Py.has_char c text)
  /\ (Py.has_char "[" text = false -> Py.has_char "]" text = false ->
        remove_all_brackets text = text)
  /\ remove_all_brackets (remove_all_brackets text) = remove_all_brackets text.
Proof. exact (remove_all_brackets_clean text). Qed.

Lemma remove_all_brackets_leaves_none_witness :
  Py.has_char "[" "2+2?" = false
  /\ remove_all_brackets "2+2?" = "2+2?".
Proof.
  split; [reflexivity |].
  exact (proj1 (proj2 (proj2 (proj2 (remove_all_brackets_leaves_none "2+2?")))) eq_refl eq_refl).
Defined.

Lemma imported_question_has_a_correct_choice_witness :
  exists result,
    process_row row_good 2 true empty_db = (inr result, db_imported)
    /\ exists u db1 choices_list,
         upsert_question row_good empty_db = (inr u, db1)
         /\ parse_choices row_good true db1 = (inr choices_list, db1)
         /\ In (u_question u) (questions db_imported)
         /\ List.map ch_choice_text (choices_of db_imported (q_id (u_question u)))
            = choices_list
         /\ List.map ch_order (choices_of db_imported (q_id (u_question u)))
            = List.map Z.of_nat (seq 0 (List.length choices_list))
         /\ choices_count result = Z.of_nat (List.length choices_list)
         /\ 1 <= choices_count result
         /\ Exists (fun c => ch_is_correct c = true)
              (choices_of db_imported (q_id (u_question u))).
Proof.
  unfold db_imported.
  destruct (process_row row_good 2 true empty_db) as [[e | result] db'] eqn:Hrow;
    [vm_compute in Hrow; discriminate Hrow |].
  exists result. split; [reflexivity |].
  exact (imported_question_has_a_correct_choice row_good 2 true empty_db db' result Hrow).
Defined.

Lemma imported_texts_have_no_brackets_witness :
  exists result db',
    process_row row_brackets 2 true empty_db = (inr result, db')
    /\ exists u db1,
         upsert_question row_brackets empty_db = (inr u, db1)
         /\ In (u_question u) (questions db')
         /\ no_brackets (q_question_text (u_question u))
         /\ no_brackets (q_explanation (u_question u))
         /\ Forall (fun c => no_brackets (ch_choice_text c))
              (choices_of db' (q_id (u_question u))).
Proof.
  destruct (process_row row_brackets 2 true empty_db) as [[e | result] db'] eqn:Hrow;
    [vm_compute in Hrow; discriminate Hrow |].
  exists result, db'. split; [reflexivity |].
  exact (imported_texts_have_no_brackets row_brackets 2 true empty_db db' result Hrow).
Defined.

Lemma get_or_create_finds_what_it_made_witness :
  exists c db1,
    get_or_create_category "Math" "" empty_db = (inr c, db1)
    /\ cat_name c = "Math"
    /\ get_or_create_category "Math" "Numbers" db1 = (inr c, db1).
Proof.
  destruct (get_or_create_category "Math" "" empty_db) as [[e | c] db1] eqn:Hget;
    [vm_compute in Hget; discriminate Hget |].
  exists c, db1. split; [reflexivity |].
  exact (proj1 get_or_create_finds_what_it_made "Math" "" "Numbers" empty_db c db1 Hget).
Defined.

Lemma error_log_is_beside_the_failed_file_witness :
  Py.has_char "." "csv" = false
  /\ stem "q.csv" = "q"
  /\ error_log_path "failed" "q.csv" = "failed/q_errors.txt".
Proof.
  split; [reflexivity |].
  assert (Hb : "q" <> "") by discriminate.
  assert (He : "csv" <> "") by discriminate.
  destruct (error_log_is_beside_the_failed_file "failed" "q" "csv" Hb He eq_refl)
    as (H1 & H2 & _).
  split; [exact H1 | exact H2].
Defined.

End RowFacts.

(** ** Rows found by another column than the key *)

Module LookupFacts.
Import Models TableFacts.

Section Rows.
Context {A : Type} (key : A -> Z).

(** Saving a row whose key is new appends it. *)
Lemma save_row_new (l : list A) (x : A) :
  ~ In (key x) (List.map key l) -> save_row key x l = (l ++ [x])%list.
Proof.
  induction l as [| y l IH]; simpl; intros H; [reflexivity |].
  destruct (Z.eqb_spec (key y) (key x)) as [E | _]; [tauto |]. rewrite IH by tauto. reflexivity.
Qed.

(** Saving a row over itself changes nothing. *)
Lemma save_row_same (l : list A) (x : A) :
  NoDup (List.map key l) -> In x l -> save_row key x l = l.
Proof.
  induction l as [| y l IH]; simpl; intros Hnd Hin; [contradiction |].
  apply NoDup_cons in Hnd. destruct Hnd as [Hy Hnd].
  destruct (Z.eqb_spec (key y) (key x)) as [E | N].
  - destruct Hin as [-> | Hin]; [reflexivity |]. exfalso. apply Hy. rewrite E.
    apply list_elem_of_In, in_map, Hin.
  - destruct Hin as [-> | Hin]; [congruence |]. rewrite IH by assumption. reflexivity.
Qed.

(** The rows with another key stay. *)
Lemma save_row_others (l : list A) (x y : A) :
  In y l -> key y <> key x -> In y (save_row key x l).
Proof.
  induction l as [| z l IH]; simpl; intros Hin Hne; [contradiction |].
  destruct (Z.eqb_spec (key z) (key x)) as [E | N].
  - destruct Hin as [-> | Hin]; [congruence | right; exact Hin].
  - destruct Hin as [-> | Hin]; [left; reflexivity | right; apply IH; assumption].
Qed.

(** A saved row is in the table. *)
Lemma save_row_in (l : list A) (x : A) : In x (save_row key x l).
Proof.
  induction l as [| z l IH]; simpl; [left; reflexivity |].
  destruct (key z =? key x); [left; reflexivity | right; exact IH].
Qed.

(** Every row of the table saved to is the saved row or was there. *)
Lemma save_row_from (l : list A) (x y : A) : In y (save_row key x l) -> y = x \/ In y l.
Proof.
  induction l as [| z l IH]; simpl; [intros [<- | []]; auto |].
  destruct (key z =? key x); simpl; intros [<- | H]; auto.
  destruct (IH H); auto.
Qed.

(** The keys after a save: those before, and the key saved. *)
Lemma save_row_nodup (l : list A) (x : A) :
  NoDup (List.map key l) -> NoDup (List.map key (save_row key x l)).
Proof.
  intros Hnd. destruct (find_row key (key x) l) as [y |] eqn:F.
  - rewrite (save_row_keys key x y l F). exact Hnd.
  - rewrite save_row_new.
    + rewrite List.map_app. apply NoDup_app. split; [exact Hnd | split].
      * intros k Hk Hk'. apply list_elem_of_In in Hk'. destruct Hk' as [<- | []].
        apply list_elem_of_In, in_map_iff in Hk. destruct Hk as (z & Hz & Hin).
        unfold find_row in F. apply (List.find_none _ _ F) in Hin. lia.
      * apply NoDup_singleton.
    + intros Hk. apply in_map_iff in Hk. destruct Hk as (z & Hz & Hin).
      unfold find_row in F. apply (List.find_none _ _ F) in Hin. lia.
Qed.

(** Saving a row over the first row with its key, when the filter takes
    both or neither. *)
Lemma filter_save_row_out (f : A -> bool) (l : list A) (x0 x : A) :
  find_row key (key x) l = Some x0 -> f x0 = false -> f x = false ->
  List.filter f (save_row key x l) = List.filter f l.
Proof.
  unfold find_row. induction l as [| y l IH]; simpl; [discriminate |].
  destruct (Z.eqb_spec (key y) (key x)) as [E | N]; intros H H0 Hx.
  - inversion H; subst. simpl. rewrite H0, Hx. reflexivity.
  - simpl. rewrite (IH H H0 Hx). reflexivity.
Qed.

Lemma filter_save_row_length (f : A -> bool) (l : list A) (x0 x : A) :
  find_row key (key x) l = Some x0 -> f x = f x0 ->
  List.length (List.filter f (save_row key x l)) = List.length (List.filter f l).
Proof.
  unfold find_row. induction l as [| y l IH]; simpl; [discriminate |].
  destruct (Z.eqb_spec (key y) (key x)) as [E | N]; intros H Hx.
  - inversion H; subst. simpl. rewrite Hx. destruct (f x0); reflexivity.
  - simpl. destruct (f y); simpl; rewrite (IH H Hx); reflexivity.
Qed.

(** The search finds nothing exactly when the filter keeps nothing. *)
Lemma find_none_filter (f : A -> bool) (l : list A) :
  List.find f l = None <-> List.filter f l = [].
Proof.
  induction l as [| y l IH]; simpl; [tauto |].
  destruct (f y); [split; discriminate | exact IH].
Qed.

(** Rows of a table with the same key are the same row. *)
Lemma key_inj (l : list A) (a b : A) :
  NoDup (List.map key l) -> In a l -> In b l -> key a = key b -> a = b.
Proof.
  intros Hnd Ha Hb E. pose proof (find_row_unique key l a Hnd Ha) as Fa.
  pose proof (find_row_unique key l b Hnd Hb) as Fb. rewrite E in Fa. congruence.
Qed.

End Rows.

Section Lookup.
Context {A : Type} (key : A -> Z) (f : A -> bool).

(** Saving a row that agrees with the stored one on the column searched:
    the search finds the same row as before, or the saved row in its place. *)
Lemma find_save_row (l : list A) (x0 x : A) :
  NoDup (List.map key l) -> In x0 l -> key x = key x0 -> f x = f x0 ->
  List.find f (save_row key x l)
  = match List.find f l with
    | Some y => Some (if key y =? key x then x else y)
    | None => None
    end.
Proof.
  intros Hnd Hin Hk Hf. induction l as [| y l IH]; [contradiction |].
  simpl in Hnd. apply NoDup_cons in Hnd. destruct Hnd as [Hy Hnd]. simpl.
  destruct (Z.eqb_spec (key y) (key x)) as [E | N].
  - assert (y = x0) as ->.
    { destruct Hin as [-> | Hin]; [reflexivity |]. exfalso. apply Hy.
      rewrite E, Hk. apply list_elem_of_In, in_map, Hin. }
    simpl. rewrite Hf. destruct (f x0); [rewrite E, Z.eqb_refl; reflexivity |].
    destruct (List.find f l) as [z |] eqn:F; [| reflexivity].
    apply List.find_some in F. destruct F as [Hz _].
    destruct (Z.eqb_spec (key z) (key x)) as [E' | _]; [| reflexivity].
    exfalso. apply Hy. rewrite E, <- E'. apply list_elem_of_In, in_map, Hz.
  - destruct Hin as [-> | Hin]; [congruence |]. simpl.
    destruct (f y); [| apply IH; assumption].
    destruct (Z.eqb_spec (key y) (key x)); [contradiction | reflexivity].
Qed.

(** A row appended is found only when no earlier row is. *)
Lemma find_app_new (l : list A) (x : A) :
  List.find f (l ++ [x])%list
  = match List.find f l with
    | Some y => Some y
    | None => if f x then Some x else None
    end.
Proof.
  induction l as [| y l IH]; simpl; [destruct (f x); reflexivity |].
  destruct (f y); [reflexivity | exact IH].
Qed.

End Lookup.

End LookupFacts.

(** ** Profiles and tokens *)

Module ProfileFacts.
Import Models Views Pages Invariants Samples MoreSamples TableFacts LookupFacts ModelsFacts.

Lemma profile_of_in (db : DB) (u : Z) (p : UserProfile) :
  profile_of db u = Some p -> In p (user_profiles db) /\ up_user p = u.
Proof.
  unfold profile_of. intros H. apply List.find_some in H. destruct H as [Hin Hu].
  split; [exact Hin | lia].
Qed.

(** Saving the profile of a user: it is the profile found from then on, and
    the profiles of the other users are found as before. *)
Lemma profile_of_save (db : DB) (u : Z) (p p' : UserProfile) :
  profile_keys_unique db -> profile_of db u = Some p ->
  up_id p' = up_id p -> up_user p' = u ->
  profile_keys_unique (save_profile p' db)
  /\ profile_of (save_profile p' db) u = Some p'
  /\ (forall u', u' <> u -> profile_of (save_profile p' db) u' = profile_of db u').
Proof.
  intros Hnd Hp Hid Hu. destruct (profile_of_in db u p Hp) as [Hin Hpu].
  unfold profile_keys_unique, profile_of, save_profile in *. cbn [user_profiles set_user_profiles].
  split; [apply save_row_nodup; exact Hnd | split].
  - rewrite (find_save_row up_id _ _ p p' Hnd Hin Hid) by (rewrite Hu, Hpu; reflexivity).
    rewrite Hp, Hid, Z.eqb_refl. reflexivity.
  - intros u' Hne.
    rewrite (find_save_row up_id _ _ p p' Hnd Hin Hid)
      by (rewrite Hu, Hpu; reflexivity).
    destruct (List.find (fun q => up_user q =? u') (user_profiles db)) as [y |] eqn:F;
      [| reflexivity].
    apply List.find_some in F. destruct F as [Hy Hyu].
    destruct (Z.eqb_spec (up_id y) (up_id p')) as [E | _]; [| reflexivity].
    exfalso. rewrite Hid in E. pose proof (key_inj up_id _ y p Hnd Hy Hin E). subst y. lia.
Qed.

(** [get_or_create(user=u)]: the profile returned is the profile of the
    user from then on; it is the one that was there, or a new one with the
    defaults of the fields. *)
Lemma get_or_create_profile_finds (u : Z) (db : DB) :
  profile_keys_unique db ->
  let p := fst (get_or_create_profile u db) in
  let db1 := snd (get_or_create_profile u db) in
  profile_keys_unique db1
  /\ profile_of db1 u = Some p
  /\ up_user p = u
  /\ up_tokens p = balance db u
  /\ (forall u', u' <> u -> profile_of db1 u' = profile_of db u')
  /\ (forall p0, profile_of db u = Some p0 -> p = p0 /\ db1 = db)
  /\ (profile_of db u = None ->
        up_last_token_grant_date p = None /\ up_subscription_plan p = "basic")
  /\ quiz_sessions db1 = quiz_sessions db /\ user_answers db1 = user_answers db
  /\ questions db1 = questions db /\ choices db1 = choices db
  /\ exams db1 = exams db /\ categories db1 = categories db /\ topics db1 = topics db.
Proof.
  intros Hnd. cbv zeta. unfold get_or_create_profile, balance.
  fold (profile_of db u). destruct (profile_of db u) as [p0 |] eqn:F; cbn [fst snd].
  - destruct (profile_of_in db u p0 F) as [_ Hu].
    repeat split; auto; try congruence; intros p1 E; congruence.
  - unfold profile_keys_unique, profile_of in *. cbn [user_profiles set_user_profiles].
    split; [apply fresh_id_new; [exact Hnd | reflexivity] |].
    split; [rewrite find_app_new, F; cbn [up_user]; rewrite Z.eqb_refl; reflexivity |].
    split; [reflexivity |]. split; [reflexivity |].
    split.
    { intros u' Hne. rewrite find_app_new. cbn [up_user].
      destruct (List.find (fun p => up_user p =? u') (user_profiles db)); [reflexivity |].
      destruct (Z.eqb_spec u u'); [congruence | reflexivity]. }
    split; [intros p0; discriminate |].
    repeat split; reflexivity.
Qed.


(** The daily grant on the profile [get_or_create] returns: afterwards the
    profile of the user is stamped with the day, the balance is ten tokens
    up exactly when it was not stamped so before, and the other users'
    profiles are as they were. *)
Lemma grant_after_get_or_create (now u : Z) (db : DB) :
  profile_keys_unique db ->
  let p := fst (get_or_create_profile u db) in
  let db1 := snd (get_or_create_profile u db) in
  let db2 := snd (fst (grant_daily_tokens now db1 p)) in
  let granted := snd (grant_daily_tokens now db1 p) in
  profile_keys_unique db2
  /\ stamped (date_of now) db2 u
  /\ (forall u', u' <> u -> profile_of db2 u' = profile_of db u')
  /\ (stamped (date_of now) db u -> db2 = db /\ granted = false)
  /\ balance db2 u = balance db u + (if granted then 10 else 0).
Proof.
  intros Hnd. cbv zeta.
  destruct (get_or_create_profile_finds u db Hnd)
    as (Hnd1 & Hp1 & Hu & Hbal & Hothers & Hold & _).
  set (p := fst (get_or_create_profile u db)) in *.
  set (db1 := snd (get_or_create_profile u db)) in *.
  unfold grant_daily_tokens. case_bool_decide as Hd; cbn [fst snd].
  - split; [exact Hnd1 |]. split; [exists p; auto |]. split; [exact Hothers |].
    split; [| unfold balance at 1; rewrite Hp1; lia].
    intros (p0 & Hp0 & _). destruct (Hold p0 Hp0) as [_ ->]. auto.
  - set (p' := set_tokens (up_tokens p + 10) (Some (date_of now)) p).
    destruct (profile_of_save db1 u p p' Hnd1 Hp1 eq_refl Hu) as (Hnd2 & Hp2 & Hothers2).
    split; [exact Hnd2 |]. split; [exists p'; auto |]. split.
    { intros u' Hne. rewrite Hothers2 by exact Hne. apply Hothers, Hne. }
    split; [| unfold balance at 1; rewrite Hp2; cbn; lia].
    intros (p0 & Hp0 & Hs). destruct (Hold p0 Hp0) as [E _]. congruence.
Qed.

(** The dashboard and the profile page write the same. *)
Lemma profile_page_writes (clock : Clock) (req : Request) (db : DB) :
  fst (Pages.profile clock req db) = fst (dashboard clock req db).
Proof.
  unfold Pages.profile, dashboard, login_required. destruct (user req) as [u |]; [| reflexivity].
  destruct (get_or_create_profile u db) as [p db1].
  destruct (grant_daily_tokens (clock 0%nat) db1 p) as [[p' db2] g]. reflexivity.
Qed.

Lemma dashboard_writes (clock : Clock) (req : Request) (u : Z) (db : DB) :
  user req = Some u ->
  fst (dashboard clock req db)
  = snd (fst (grant_daily_tokens (clock 0%nat) (snd (get_or_create_profile u db))
                (fst (get_or_create_profile u db)))).
Proof.
  intros Hu. unfold dashboard, login_required. rewrite Hu.
  destruct (get_or_create_profile u db) as [p db1]. cbn [fst snd].
  destruct (grant_daily_tokens (clock 0%nat) db1 p) as [[p' db2] g]. reflexivity.
Qed.

(** Visiting the dashboard or the profile page grants the ten daily tokens
    at most once a day: the first visit of a day leaves the profile
    stamped, at most ten tokens up, and any later visit of either page on
    that date changes nothing in the database. *)
Theorem daily_tokens_once_per_day_on_visits (clock clock' : Clock) (req : Request) (u : Z)
    (db : DB) :
  profile_keys_unique db -> user req = Some u ->
  date_of (clock' 0%nat) = date_of (clock 0%nat) ->
  let db1 := fst (dashboard clock req db) in
  stamped (date_of (clock 0%nat)) db1 u
  /\ (balance db1 u = balance db u \/ balance db1 u = balance db u + 10)
  /\ (stamped (date_of (clock 0%nat)) db u -> db1 = db)
  /\ fst (dashboard clock' req db1) = db1
  /\ fst (Pages.profile clock' req db1) = db1.
Proof.
  intros Hnd Hu Hday. cbv zeta.
  rewrite profile_page_writes, !(dashboard_writes _ req u) by exact Hu.
  destruct (grant_after_get_or_create (clock 0%nat) u db Hnd)
    as (Hnd1 & Hst & _ & Hsame & Hbal).
  set (db1 := snd (fst (grant_daily_tokens (clock 0%nat) (snd (get_or_create_profile u db))
                          (fst (get_or_create_profile u db))))) in *.
  split; [exact Hst |]. split.
  { destruct (snd (grant_daily_tokens _ _ _)); [right | left]; lia. }
  split; [intros H; apply Hsame, H |].
  destruct (grant_after_get_or_create (clock' 0%nat) u db1 Hnd1) as (_ & _ & _ & Hsame' & _).
  rewrite Hday in Hsame'. destruct (Hsame' Hst) as [E _]. auto.
Qed.

(** *** The daily grant for all users *)

Import GrantDailyTokens.

(** A run on a date stamps every user it visits, and keeps the stamps of
    that date. *)
Lemma grant_all_stamps (clock : Clock) (d : Z) (users : list Z) :
  (forall i, date_of (clock i) = d) ->
  forall tick granted_count db,
    profile_keys_unique db ->
    profile_keys_unique (fst (grant_all clock tick users granted_count db))
    /\ (forall u, stamped d db u -> stamped d (fst (grant_all clock tick users granted_count db)) u)
    /\ Forall (stamped d (fst (grant_all clock tick users granted_count db))) users
    /\ granted_count <= snd (grant_all clock tick users granted_count db)
       <= granted_count + Z.of_nat (List.length users).
Proof.
  intros Hday. induction users as [| u users IH]; intros tick c db Hnd; cbn [grant_all].
  - cbn. repeat split; auto; lia.
  - destruct (grant_after_get_or_create (clock tick) u db Hnd)
      as (Hnd2 & Hst & Hothers & _ & _).
    rewrite Hday in Hst.
    destruct (get_or_create_profile u db) as [p db1]. cbn [fst snd] in *.
    destruct (grant_daily_tokens (clock tick) db1 p) as [[p' db2] g]. cbn [fst snd] in *.
    destruct (IH (S tick) (if g then c + 1 else c) db2 Hnd2) as (Hnd3 & Hkeep & Hall & Hcount).
    split; [exact Hnd3 |]. split; [| split].
    + intros u' Hu'. apply Hkeep. destruct (Z.eq_dec u' u) as [-> | Hne]; [exact Hst |].
      destruct Hu' as (q & Hq & Hd). exists q. rewrite Hothers by exact Hne. auto.
    + constructor; [apply Hkeep, Hst | exact Hall].
    + cbn [List.length]. destruct g; lia.
Qed.

(** A run over users who are all stamped with the date grants nothing. *)
Lemma grant_all_stamped (clock : Clock) (d : Z) (users : list Z) (db : DB) :
  (forall i, date_of (clock i) = d) -> Forall (stamped d db) users ->
  forall tick granted_count, grant_all clock tick users granted_count db = (db, granted_count).
Proof.
  intros Hday Hall. induction Hall as [| u users (p & Hp & Hd) _ IH]; intros tick c;
    cbn [grant_all]; [reflexivity |].
  unfold get_or_create_profile. fold (profile_of db u). rewrite Hp.
  rewrite grant_same_day by (rewrite Hday; exact Hd). apply IH.
Qed.

(** The command is idempotent on a date: a run leaves every user with a
    profile stamped with that date and reports at most as many grants as
    there are users; a second run on the same date reports none and leaves
    the database as the first left it. *)
Theorem grant_command_grants_once_a_day (clock clock' : Clock) (d : Z) (users : list Z)
    (db : DB) :
  profile_keys_unique db ->
  (forall i, date_of (clock i) = d) -> (forall i, date_of (clock' i) = d) ->
  let db1 := fst (handle clock users db) in
  Forall (stamped d db1) users
  /\ 0 <= snd (handle clock users db) <= Z.of_nat (List.length users)
  /\ handle clock' users db1 = (db1, 0).
Proof.
  intros Hnd Hday Hday'. cbv zeta. unfold handle.
  destruct (grant_all_stamps clock d users Hday 1%nat 0 db Hnd) as (_ & _ & Hall & Hcount).
  split; [exact Hall |]. split; [lia |].
  apply (grant_all_stamped clock' d); assumption.
Qed.

(** *** The profile of a new user *)

Import Signals.

(** A user just created gets a profile of 100 tokens on the basic plan,
    stamped with the day of the registration, so that no daily grant is
    given on that day; the first grant of a later day brings the balance to
    110.  The save of a user that exists already writes nothing. *)
Theorem new_user_starts_with_100_tokens (now : Z) (u : Z) (db : DB) :
  profile_keys_unique db -> profile_of db u = None ->
  let db1 := post_save now u true db in
  (exists p,
     profile_of db1 u = Some p
     /\ up_tokens p = 100 /\ up_subscription_plan p = "basic"
     /\ up_last_token_grant_date p = Some (date_of now)
     /\ (forall now', date_of now' = date_of now ->
           grant_daily_tokens now' db1 p = (p, db1, false))
     /\ (forall now', date_of now' <> date_of now ->
           up_tokens (fst (fst (grant_daily_tokens now' db1 p))) = 110))
  /\ (forall u', u' <> u -> profile_of db1 u' = profile_of db u')
  /\ post_save now u false db1 = db1.
Proof.
  intros Hnd Hnone. cbv zeta. unfold post_save, create_user_profile.
  fold (profile_of db u). rewrite Hnone. cbn [up_tokens Z.eqb].
  set (p := {| up_id := fresh_id (List.map up_id (user_profiles db)); up_user := u;
               up_subscription_plan := "basic"; up_tokens := 100;
               up_last_token_grant_date := Some (date_of now) |}).
  set (db1 := set_user_profiles (user_profiles db ++ [p]) db).
  assert (Hnd1 : profile_keys_unique db1).
  { unfold profile_keys_unique, db1. cbn. apply fresh_id_new; [exact Hnd | reflexivity]. }
  assert (Hp1 : profile_of db1 u = Some p).
  { unfold profile_of, db1. cbn [user_profiles set_user_profiles].
    rewrite find_app_new. fold (profile_of db u). rewrite Hnone. cbn. rewrite Z.eqb_refl.
    reflexivity. }
  assert (Hsave : save_user_profile u db1 = db1).
  { unfold save_user_profile. fold (profile_of db1 u). rewrite Hp1.
    unfold save_profile. rewrite (save_row_same up_id); [destruct db1; reflexivity | exact Hnd1 |].
    apply (profile_of_in db1 u p Hp1). }
  rewrite Hsave. split; [| split].
  - exists p. repeat split; auto.
    + intros now' Hd. apply grant_same_day. cbn. rewrite Hd. reflexivity.
    + intros now' Hd. rewrite grant_other_day; [reflexivity |]. cbn. congruence.
  - intros u' Hne. unfold profile_of, db1. cbn [user_profiles set_user_profiles].
    rewrite find_app_new. destruct (List.find (fun p => up_user p =? u') (user_profiles db));
      [reflexivity |].
    cbn. destruct (Z.eqb_spec u u'); [congruence | reflexivity].
  - exact Hsave.
Qed.

(** *** Subscription *)

Lemma upgrade_writes (req : Request) (u : Z) (db : DB) :
  user req = Some u ->
  let p := fst (get_or_create_profile u db) in
  let db1 := snd (get_or_create_profile u db) in
  fst (upgrade_subscription req db)
  = if String.eqb (up_subscription_plan p) "premium" then db1
    else save_profile (set_tokens (up_tokens p + 1000) (up_last_token_grant_date p)
                         (set_subscription_plan "premium" p)) db1.
Proof.
  intros Hu. cbv zeta. unfold upgrade_subscription, login_required. rewrite Hu.
  destruct (get_or_create_profile u db) as [p db1]. cbn [fst snd].
  destruct (String.eqb _ _); reflexivity.
Qed.

Lemma downgrade_writes (req : Request) (u : Z) (db : DB) :
  user req = Some u ->
  let p := fst (get_or_create_profile u db) in
  let db1 := snd (get_or_create_profile u db) in
  fst (downgrade_subscription req db)
  = if String.eqb (up_subscription_plan p) "basic" then db1
    else save_profile (set_subscription_plan "basic" p) db1.
Proof.
  intros Hu. cbv zeta. unfold downgrade_subscription, login_required. rewrite Hu.
  destruct (get_or_create_profile u db) as [p db1]. cbn [fst snd].
  destruct (String.eqb _ _); reflexivity.
Qed.

(** What an upgrade leaves: a premium profile, 1000 tokens up when it was
    not premium before. *)
Lemma upgrade_result (req : Request) (u : Z) (db : DB) :
  profile_keys_unique db -> user req = Some u ->
  let db1 := fst (upgrade_subscription req db) in
  let was_premium :=
    match profile_of db u with
    | Some p => String.eqb (up_subscription_plan p) "premium"
    | None => false
    end in
  profile_keys_unique db1
  /\ (exists p, profile_of db1 u = Some p /\ up_subscription_plan p = "premium")
  /\ balance db1 u = balance db u + (if was_premium then 0 else 1000)
  /\ (forall u', u' <> u -> profile_of db1 u' = profile_of db u').
Proof.
  intros Hnd Hu. cbv zeta. rewrite (upgrade_writes req u db Hu).
  destruct (get_or_create_profile_finds u db Hnd)
    as (Hnd1 & Hp1 & Hpu & Hbal & Hothers & Hold & Hnew & _).
  set (p := fst (get_or_create_profile u db)) in *.
  set (db1 := snd (get_or_create_profile u db)) in *.
  assert (Hwas : match profile_of db u with
                 | Some p => String.eqb (up_subscription_plan p) "premium"
                 | None => false
                 end = String.eqb (up_subscription_plan p) "premium").
  { destruct (profile_of db u) as [p0 |] eqn:F.
    - destruct (Hold p0 eq_refl) as [-> _]. reflexivity.
    - destruct (Hnew eq_refl) as [_ ->]. reflexivity. }
  rewrite Hwas. destruct (String.eqb_spec (up_subscription_plan p) "premium") as [E | N].
  - split; [exact Hnd1 |]. split; [exists p; auto |].
    split; [unfold balance at 1; rewrite Hp1; lia | exact Hothers].
  - set (p' := set_tokens _ _ _).
    destruct (profile_of_save db1 u p p' Hnd1 Hp1 eq_refl Hpu) as (Hnd2 & Hp2 & Hothers2).
    split; [exact Hnd2 |]. split; [exists p'; auto |]. split.
    + unfold balance at 1. rewrite Hp2. cbn. lia.
    + intros u' Hne. rewrite Hothers2 by exact Hne. apply Hothers, Hne.
Qed.

Lemma downgrade_result (req : Request) (u : Z) (db : DB) :
  profile_keys_unique db -> user req = Some u ->
  let db1 := fst (downgrade_subscription req db) in
  profile_keys_unique db1
  /\ (exists p, profile_of db1 u = Some p /\ up_subscription_plan p = "basic")
  /\ balance db1 u = balance db u
  /\ (forall u', u' <> u -> profile_of db1 u' = profile_of db u').
Proof.
  intros Hnd Hu. cbv zeta. rewrite (downgrade_writes req u db Hu).
  destruct (get_or_create_profile_finds u db Hnd)
    as (Hnd1 & Hp1 & Hpu & Hbal & Hothers & Hold & Hnew & _).
  set (p := fst (get_or_create_profile u db)) in *.
  set (db1 := snd (get_or_create_profile u db)) in *.
  destruct (String.eqb_spec (up_subscription_plan p) "basic") as [E | N].
  - split; [exact Hnd1 |]. split; [exists p; auto |].
    split; [unfold balance at 1; rewrite Hp1; lia | exact Hothers].
  - set (p' := set_subscription_plan "basic" p).
    destruct (profile_of_save db1 u p p' Hnd1 Hp1 eq_refl Hpu) as (Hnd2 & Hp2 & Hothers2).
    split; [exact Hnd2 |]. split; [exists p'; auto |]. split.
    + unfold balance at 1. rewrite Hp2. cbn. lia.
    + intros u' Hne. rewrite Hothers2 by exact Hne. apply Hothers, Hne.
Qed.

(** An upgrade makes the profile premium and adds 1000 tokens, unless it
    was premium already; upgrading again changes nothing; and the profiles
    of the other users are not touched. *)
Theorem upgrade_pays_1000_once (req : Request) (u : Z) (db : DB) :
  profile_keys_unique db -> user req = Some u ->
  let db1 := fst (upgrade_subscription req db) in
  let was_premium :=
    match profile_of db u with
    | Some p => String.eqb (up_subscription_plan p) "premium"
    | None => false
    end in
  (exists p, profile_of db1 u = Some p /\ up_subscription_plan p = "premium")
  /\ balance db1 u = balance db u + (if was_premium then 0 else 1000)
  /\ (forall u', u' <> u -> profile_of db1 u' = profile_of db u')
  /\ fst (upgrade_subscription req db1) = db1.
Proof.
  intros Hnd Hu. cbv zeta.
  destruct (upgrade_result req u db Hnd Hu) as (Hnd1 & (p & Hp & Hplan) & Hbal & Hothers).
  split; [exists p; auto |]. split; [exact Hbal |]. split; [exact Hothers |].
  set (db1 := fst (upgrade_subscription req db)) in *.
  rewrite (upgrade_writes req u db1 Hu).
  destruct (get_or_create_profile_finds u db1 Hnd1) as (_ & _ & _ & _ & _ & Hold & _).
  destruct (Hold p Hp) as [-> ->]. rewrite Hplan. reflexivity.
Qed.

(** A downgrade makes the profile basic and keeps its tokens, so that an
    upgrade after a downgrade pays another 1000 tokens. *)
Theorem downgrade_keeps_the_tokens (req : Request) (u : Z) (db : DB) :
  profile_keys_unique db -> user req = Some u ->
  let db1 := fst (downgrade_subscription req db) in
  (exists p, profile_of db1 u = Some p /\ up_subscription_plan p = "basic")
  /\ balance db1 u = balance db u
  /\ (forall u', u' <> u -> profile_of db1 u' = profile_of db u')
  /\ fst (downgrade_subscription req db1) = db1
  /\ balance (fst (upgrade_subscription req db1)) u = balance db u + 1000.
Proof.
  intros Hnd Hu. cbv zeta.
  destruct (downgrade_result req u db Hnd Hu) as (Hnd1 & (p & Hp & Hplan) & Hbal & Hothers).
  split; [exists p; auto |]. split; [exact Hbal |]. split; [exact Hothers |].
  set (db1 := fst (downgrade_subscription req db)) in *. split.
  - rewrite (downgrade_writes req u db1 Hu).
    destruct (get_or_create_profile_finds u db1 Hnd1) as (_ & _ & _ & _ & _ & Hold & _).
    destruct (Hold p Hp) as [-> ->]. rewrite Hplan. reflexivity.
  - destruct (upgrade_result req u db1 Hnd1 Hu) as (_ & _ & Hbal2 & _).
    rewrite Hbal2, Hp, Hplan, Hbal. reflexivity.
Qed.

(** *** The assistant *)

(** The assistant takes one token, and only for an answer delivered: a
    reply of status 200 comes with a completion, lowers the balance of the
    user by exactly one token, from at least one, and reports the new
    balance; any other reply leaves the balance as it was.  The profiles of
    the other users, the sessions and the answers are never touched. *)
Theorem assistant_charges_only_for_an_answer (openai : OpenAI) (req : Request)
    (body : RequestBody) (session_id question_id u : Z) (db : DB) :
  profile_keys_unique db -> user req = Some u ->
  let db' := fst (ai_assistant openai req body session_id question_id db) in
  exists r,
    snd (ai_assistant openai req body session_id question_id db) = Some r
    /\ (status r = 200 ->
          1 <= balance db u /\ balance db' u = balance db u - 1
          /\ tokens_remaining r = Some (balance db' u)
          /\ exists text, completion openai = Some text)
    /\ (status r <> 200 -> balance db' u = balance db u)
    /\ (forall u', u' <> u -> profile_of db' u' = profile_of db u')
    /\ quiz_sessions db' = quiz_sessions db /\ user_answers db' = user_answers db.
Proof.
  intros Hnd Hu. cbv zeta.
  set (Post := fun res : DB * option Reply =>
    exists r,
      snd res = Some r
      /\ (status r = 200 ->
            1 <= balance db u /\ balance (fst res) u = balance db u - 1
            /\ tokens_remaining r = Some (balance (fst res) u)
            /\ exists text, completion openai = Some text)
      /\ (status r <> 200 -> balance (fst res) u = balance db u)
      /\ (forall u', u' <> u -> profile_of (fst res) u' = profile_of db u')
      /\ quiz_sessions (fst res) = quiz_sessions db
      /\ user_answers (fst res) = user_answers db).
  change (Post (ai_assistant openai req body session_id question_id db)).
  assert (Hsame : forall n, n <> 200 -> Post (db, Some (reply n))).
  { intros n Hn. exists (reply n). split; [reflexivity |].
    split; [intros E; cbn in E; lia |]. cbn [fst]. auto. }
  destruct (get_or_create_profile_finds u db Hnd)
    as (Hnd1 & Hp1 & Hpu & Hbal & Hothers & _ & _ & Hs & Ha & _).
  set (p := fst (get_or_create_profile u db)) in *.
  set (db1 := snd (get_or_create_profile u db)) in *.
  assert (Hkept : forall n, n <> 200 -> Post (db1, Some (reply n))).
  { intros n Hn. exists (reply n). split; [reflexivity |].
    split; [intros E; cbn in E; lia |]. cbn [fst].
    split; [| auto]. intros _. unfold balance at 1. rewrite Hp1. exact Hbal. }
  unfold ai_assistant. rewrite Hu.
  destruct (negb (String.eqb (method req) "POST")); [apply Hsame; lia |].
  destruct body as [| | | [| s |]]; try (apply Hsame; lia).
  destruct (String.eqb (Py.strip s) ""); [apply Hsame; lia |].
  rewrite (surjective_pairing (get_or_create_profile u db)). fold p db1.
  destruct (negb (has_tokens TOKENS_PER_AI_REQUEST p)) eqn:Htok; [apply Hkept; lia |].
  destruct (negb (prompt_context db1 u session_id question_id)); [apply Hkept; lia |].
  destruct (negb (importable openai)); [apply Hkept; lia |].
  destruct (String.eqb (api_key openai) ""); [apply Hkept; lia |].
  destruct (completion openai) as [text |] eqn:Hcomp; [| apply Hkept; lia].
  destruct (profile_of_in db1 u p Hp1) as [Hin _].
  rewrite (find_row_unique up_id _ p Hnd1 Hin).
  apply negb_false_iff in Htok. unfold has_tokens, TOKENS_PER_AI_REQUEST in Htok.
  unfold deduct_tokens, TOKENS_PER_AI_REQUEST. rewrite Htok.
  set (p' := set_tokens (up_tokens p - 1) (up_last_token_grant_date p) p).
  destruct (profile_of_save db1 u p p' Hnd1 Hp1 eq_refl Hpu) as (_ & Hp2 & Hothers2).
  eexists. split; [reflexivity |]. cbn [fst snd status tokens_remaining].
  assert (Hnew : balance (save_profile p' db1) u = balance db u - 1).
  { unfold balance at 1. rewrite Hp2. cbn. rewrite Hbal. reflexivity. }
  split; [| split; [intros E; congruence | split]].
  - intros _. rewrite Hnew. split; [lia | split; [reflexivity | split; [| eauto]]].
    cbn. rewrite Hbal. reflexivity.
  - intros u' Hne. rewrite Hothers2 by exact Hne. apply Hothers, Hne.
  - cbn. auto.
Qed.

Lemma daily_tokens_once_per_day_on_visits_witness :
  profile_keys_unique db_multiple
  /\ balance (fst (dashboard (at_ 0) (request "GET" (Some 7)) db_multiple)) 7 = 110
  /\ fst (dashboard (at_ 5) (request "GET" (Some 7))
            (fst (dashboard (at_ 0) (request "GET" (Some 7)) db_multiple)))
     = fst (dashboard (at_ 0) (request "GET" (Some 7)) db_multiple).
Proof.
  assert (H : profile_keys_unique db_multiple) by (apply (bool_decide_unpack _); reflexivity).
  split; [exact H | split; [reflexivity |]].
  exact (proj1 (proj2 (proj2 (proj2
    (daily_tokens_once_per_day_on_visits (at_ 0) (at_ 5) (request "GET" (Some 7)) 7
       db_multiple H eq_refl eq_refl))))).
Defined.

Lemma grant_command_grants_once_a_day_witness :
  profile_keys_unique db_multiple
  /\ snd (handle (at_ 0) [7] db_multiple) = 1
  /\ handle (at_ 5) [7] (fst (handle (at_ 0) [7] db_multiple))
     = (fst (handle (at_ 0) [7] db_multiple), 0).
Proof.
  assert (H : profile_keys_unique db_multiple) by (apply (bool_decide_unpack _); reflexivity).
  split; [exact H | split; [reflexivity |]].
  exact (proj2 (proj2
    (grant_command_grants_once_a_day (at_ 0) (at_ 5) (date_of 0) [7] db_multiple H
       (fun _ => eq_refl) (fun _ => eq_refl)))).
Defined.

Lemma new_user_starts_with_100_tokens_witness :
  profile_keys_unique db_inactive
  /\ profile_of db_inactive 7 = None
  /\ exists p,
       profile_of (post_save 0 7 true db_inactive) 7 = Some p
       /\ up_tokens p = 100 /\ up_subscription_plan p = "basic"
       /\ up_last_token_grant_date p = Some (date_of 0).
Proof.
  assert (H : profile_keys_unique db_inactive) by constructor.
  split; [exact H | split; [reflexivity |]].
  destruct (proj1 (new_user_starts_with_100_tokens 0 7 db_inactive H eq_refl))
    as (p & H1 & H2 & H3 & H4 & _).
  exists p. split; [exact H1 | split; [exact H2 | split; [exact H3 | exact H4]]].
Defined.

Lemma upgrade_pays_1000_once_witness :
  profile_keys_unique db_multiple
  /\ balance db_multiple 7 = 100
  /\ balance (fst (upgrade_subscription (request "POST" (Some 7)) db_multiple)) 7
     = balance db_multiple 7 + 1000
  /\ fst (upgrade_subscription (request "POST" (Some 7))
            (fst (upgrade_subscription (request "POST" (Some 7)) db_multiple)))
     = fst (upgrade_subscription (request "POST" (Some 7)) db_multiple).
Proof.
  assert (H : profile_keys_unique db_multiple) by (apply (bool_decide_unpack _); reflexivity).
  split; [exact H | split; [reflexivity |]].
  destruct (upgrade_pays_1000_once (request "POST" (Some 7)) 7 db_multiple H eq_refl)
    as (_ & H1 & _ & H2).
  split; [exact H1 | exact H2].
Defined.

Lemma downgrade_keeps_the_tokens_witness :
  profile_keys_unique db_multiple
  /\ balance (fst (downgrade_subscription (request "POST" (Some 7)) db_multiple)) 7
     = balance db_multiple 7
  /\ balance (fst (upgrade_subscription (request "POST" (Some 7))
                     (fst (downgrade_subscription (request "POST" (Some 7)) db_multiple)))) 7
     = balance db_multiple 7 + 1000.
Proof.
  assert (H : profile_keys_unique db_multiple) by (apply (bool_decide_unpack _); reflexivity).
  split; [exact H |].
  destruct (downgrade_keeps_the_tokens (request "POST" (Some 7)) 7 db_multiple H eq_refl)
    as (_ & H1 & _ & _ & H2).
  split; [exact H1 | exact H2].
Defined.

Lemma assistant_charges_only_for_an_answer_witness :
  profile_keys_unique db_multiple
  /\ snd (ai_assistant openai_ok (request "POST" (Some 7)) body_hint 0 0 db_multiple)
     = Some {| status := 200; tokens_remaining := Some 99 |}
  /\ balance (fst (ai_assistant openai_ok (request "POST" (Some 7)) body_hint 0 0 db_multiple)) 7
     = balance db_multiple 7 - 1.
Proof.
  assert (H : profile_keys_unique db_multiple) by (apply (bool_decide_unpack _); reflexivity).
  split; [exact H | split; [reflexivity |]].
  destruct (assistant_charges_only_for_an_answer openai_ok (request "POST" (Some 7)) body_hint
              0 0 7 db_multiple H eq_refl) as (r & Hr & H200 & _).
  assert (E : status r = 200) by (vm_compute in Hr; inversion Hr; reflexivity).
  exact (proj1 (proj2 (H200 E))).
Defined.

End ProfileFacts.

(** ** Who a request can write for *)

Module OwnershipFacts.
Import Models Views Flow Invariants TableFacts LookupFacts ProfileFacts FlowFacts.

(** *** The reward of a passed quiz *)

(** Saving the session of a user under its key: it is the session found from
    then on. *)
Lemma get_session_save (db : DB) (sid u : Z) (s0 x : QuizSession) :
  session_keys_unique db -> get_session db sid u = Some s0 ->
  qs_id x = sid -> qs_user x = u ->
  session_keys_unique (save_session x db)
  /\ get_session (save_session x db) sid u = Some x
  /\ user_profiles (save_session x db) = user_profiles db
  /\ foreign_sessions u (save_session x db) = foreign_sessions u db
  /\ user_answers (save_session x db) = user_answers db.
Proof.
  intros Hnd Hget Hid Hu.
  destruct (get_session_find db sid u s0 Hnd Hget) as (Hfind & Hid0 & Hu0).
  pose proof Hfind as Hin. apply find_row_key in Hin. destruct Hin as [_ Hin].
  unfold session_keys_unique, get_session, save_session, foreign_sessions in *.
  cbn [quiz_sessions set_quiz_sessions user_profiles user_answers].
  split; [apply save_row_nodup; exact Hnd |].
  split; [| split; [reflexivity | split; [| reflexivity]]].
  - rewrite (find_save_row qs_id _ _ s0 x Hnd Hin)
      by (rewrite ?Hid, ?Hu, ?Hid0, ?Hu0; reflexivity).
    rewrite Hget, Hid, Hid0, Z.eqb_refl. reflexivity.
  - apply (filter_save_row_out qs_id _ _ s0); [rewrite Hid, <- Hid0; exact Hfind | |].
    + rewrite Hu0, Z.eqb_refl. reflexivity.
    + rewrite Hu, Z.eqb_refl. reflexivity.
Qed.

(** What [quiz_result] leaves: the session completed, and the profiles as
    they were unless the session is completed by this request, in which
    case 50 tokens may have been added to the profile of the user. *)
Lemma quiz_result_leaves (clock : Clock) (req : Request) (sid u : Z) (db : DB)
    (s : QuizSession) :
  session_keys_unique db -> user req = Some u -> get_session db sid u = Some s ->
  let db' := fst (quiz_result clock req sid db) in
  session_keys_unique db'
  /\ (exists s', get_session db' sid u = Some s' /\ qs_is_completed s' = true)
  /\ (user_profiles db' = user_profiles db
      \/ qs_is_completed s = false /\ qs_tokens_granted s = false
         /\ exists dbm, user_profiles dbm = user_profiles db
              /\ user_profiles db'
                 = user_profiles (snd (add_tokens 50 (snd (get_or_create_profile u dbm))
                                         (fst (get_or_create_profile u dbm)))))
  /\ foreign_sessions u db' = foreign_sessions u db
  /\ user_answers db' = user_answers db.
Proof.
  intros Hnd Hu Hget. cbv zeta.
  destruct (get_session_find db sid u s Hnd Hget) as (_ & Hid & Hus).
  unfold quiz_result, login_required. rewrite Hu, Hget.
  assert (Hstep1 : exists s1 db1,
            (if negb (qs_is_completed s) then complete_quiz (clock 0%nat) db s else (s, db))
            = (s1, db1)
            /\ session_keys_unique db1 /\ get_session db1 sid u = Some s1
            /\ qs_id s1 = sid /\ qs_user s1 = u /\ qs_is_completed s1 = true
            /\ qs_tokens_granted s1 = qs_tokens_granted s
            /\ user_profiles db1 = user_profiles db
            /\ foreign_sessions u db1 = foreign_sessions u db
            /\ user_answers db1 = user_answers db).
  { destruct (qs_is_completed s) eqn:Hc; cbn [negb].
    - exists s, db. repeat split; auto.
    - unfold complete_quiz.
      set (s1 := fst (calculate_score db (set_completed (clock 0%nat) s))).
      assert (Hk : qs_id s1 = sid /\ qs_user s1 = u /\ qs_is_completed s1 = true
                   /\ qs_tokens_granted s1 = qs_tokens_granted s).
      { unfold s1, calculate_score. destruct (_ =? 0); cbn; auto. }
      destruct Hk as (K1 & K2 & K3 & K4).
      destruct (get_session_save db sid u s s1 Hnd Hget K1 K2) as (N1 & G1 & P1 & F1 & A1).
      exists s1, (save_session s1 db). repeat split; auto. }
  destruct Hstep1 as (s1 & db1 & -> & Hnd1 & Hget1 & Hid1 & Hu1 & Hc1 & Hg1 & Hp1 & Hf1 & Ha1).
  set (s2 := fst (calculate_score db1 s1)).
  assert (Hk : qs_id s2 = sid /\ qs_user s2 = u /\ qs_is_completed s2 = true
               /\ qs_tokens_granted s2 = qs_tokens_granted s).
  { unfold s2, calculate_score. destruct (_ =? 0); cbn; auto. }
  destruct Hk as (K1 & K2 & K3 & K4).
  destruct (get_session_save db1 sid u s1 s2 Hnd1 Hget1 K1 K2)
    as (Hnd2 & Hget2 & Hp2 & Hf2 & Ha2).
  set (db2 := save_session s2 db1) in *.
  assert (Hplain : session_keys_unique db2
            /\ (exists s', get_session db2 sid u = Some s' /\ qs_is_completed s' = true)
            /\ (user_profiles db2 = user_profiles db
                \/ qs_is_completed s = false /\ qs_tokens_granted s = false
                   /\ exists dbm, user_profiles dbm = user_profiles db
                        /\ user_profiles db2
                           = user_profiles (snd (add_tokens 50 (snd (get_or_create_profile u dbm))
                                                   (fst (get_or_create_profile u dbm)))))
            /\ foreign_sessions u db2 = foreign_sessions u db
            /\ user_answers db2 = user_answers db).
  { split; [exact Hnd2 |]. split; [exists s2; auto |].
    split; [left; congruence | split; congruence]. }
  cbv zeta.
  destruct (negb (qs_is_completed s) && negb (qs_tokens_granted s2)) eqn:Hguard;
    [| exact Hplain].
  destruct (find_exam db2 (qs_exam s2)) as [exam |]; [| exact Hplain].
  destruct (PrimFloat.leb _ _); [| exact Hplain].
  apply andb_true_iff in Hguard. destruct Hguard as [G1 G2].
  apply negb_true_iff in G1, G2. rewrite K4 in G2.
  pose proof (profile_steps_sessions u db2) as Hsame.
  destruct (get_or_create_profile u db2) as [profile db3] eqn:Hgoc. cbn [fst snd] in *.
  set (db4 := snd (add_tokens 50 db3 profile)) in *.
  assert (Hnd4 : session_keys_unique db4)
    by (unfold session_keys_unique; rewrite Hsame; exact Hnd2).
  assert (Hget4 : get_session db4 sid u = Some s2)
    by (unfold get_session; rewrite Hsame; exact Hget2).
  destruct (get_session_save db4 sid u s2 (set_tokens_granted s2) Hnd4 Hget4 K1 K2)
    as (Hnd5 & Hget5 & Hp5 & Hf5 & Ha5).
  assert (Hans : user_answers db4 = user_answers db2).
  { unfold db4. unfold get_or_create_profile in Hgoc.
    destruct (List.find _ (user_profiles db2)); inversion Hgoc; reflexivity. }
  split; [exact Hnd5 |]. split; [exists (set_tokens_granted s2); auto |].
  split; [| split].
  - right. split; [exact G1 |]. split; [exact G2 |].
    exists db2. split; [congruence |]. rewrite Hp5. unfold db4. rewrite Hgoc. reflexivity.
  - rewrite Hf5. transitivity (foreign_sessions u db2); [| congruence].
    unfold foreign_sessions. rewrite Hsame. reflexivity.
  - rewrite Ha5, Hans. congruence.
Qed.

(** The reward of a passed quiz is paid at most once.  The result page adds
    nothing or 50 tokens to the balance of the user, and 50 only when the
    request itself completes the session; for a session that is completed
    already it leaves every profile as it is, and so does every later view
    of the result.  The profiles of the other users are never touched. *)
Theorem quiz_reward_is_paid_once (clock clock' : Clock) (req : Request) (sid u : Z) (db : DB)
    (s : QuizSession) :
  session_keys_unique db -> profile_keys_unique db ->
  user req = Some u -> get_session db sid u = Some s ->
  let db1 := fst (quiz_result clock req sid db) in
  (balance db1 u = balance db u
   \/ balance db1 u = balance db u + 50
      /\ qs_is_completed s = false /\ qs_tokens_granted s = false)
  /\ (qs_is_completed s = true -> user_profiles db1 = user_profiles db)
  /\ (forall u', u' <> u -> profile_of db1 u' = profile_of db u')
  /\ user_profiles (fst (quiz_result clock' req sid db1)) = user_profiles db1.
Proof.
  intros Hnd Hpnd Hu Hget. cbv zeta.
  destruct (quiz_result_leaves clock req sid u db s Hnd Hu Hget)
    as (Hnd1 & (s' & Hget' & Hc') & Hprof & _).
  set (db1 := fst (quiz_result clock req sid db)) in *.
  assert (Hsecond : user_profiles (fst (quiz_result clock' req sid db1)) = user_profiles db1).
  { destruct (quiz_result_leaves clock' req sid u db1 s' Hnd1 Hu Hget') as (_ & _ & [E | H] & _);
      [exact E |].
    destruct H as (Hfalse & _). congruence. }
  destruct Hprof as [E | (Hc & Hg & dbm & Em & E)].
  - assert (Hb' : forall v, profile_of db1 v = profile_of db v)
      by (intros v; unfold profile_of; rewrite E; reflexivity).
    split; [left; unfold balance; rewrite Hb'; reflexivity |].
    split; [intros _; exact E |]. split; [intros u' _; apply Hb' | exact Hsecond].
  - assert (Hpm : profile_keys_unique dbm) by (unfold profile_keys_unique; rewrite Em; exact Hpnd).
    destruct (get_or_create_profile_finds u dbm Hpm)
      as (Hp1 & Hf1 & Hu1 & Hb1 & Ho1 & _).
    set (p := fst (get_or_create_profile u dbm)) in *.
    set (dbg := snd (get_or_create_profile u dbm)) in *.
    unfold add_tokens in E. cbn [snd] in E.
    set (p' := set_tokens (up_tokens p + 50) (up_last_token_grant_date p) p) in *.
    destruct (profile_of_save dbg u p p' Hp1 Hf1 eq_refl Hu1) as (_ & Hf2 & Ho2).
    assert (Hbm : forall v, profile_of dbm v = profile_of db v)
      by (intros v; unfold profile_of; rewrite Em; reflexivity).
    assert (Hb' : forall v, profile_of db1 v = profile_of (save_profile p' dbg) v)
      by (intros v; unfold profile_of; rewrite E; reflexivity).
    split; [| split; [congruence | split; [| exact Hsecond]]].
    + right. split; [| auto]. unfold balance. rewrite Hb', Hf2. cbn.
      unfold balance in Hb1. rewrite Hbm in Hb1. lia.
    + intros u' Hne. rewrite Hb', Ho2, Ho1, Hbm by exact Hne. reflexivity.
Qed.

(** *** Starting a quiz *)

(** Starting a quiz reuses the open session: when the user has a session on
    the exam that is not completed, nothing is written; otherwise exactly
    one session is added, of the user, on the exam, started at the reading
    of the clock and not completed.  Starting again then writes nothing. *)
Theorem quiz_start_reuses_the_open_session (clock clock' : Clock) (req : Request)
    (exam_id u : Z) (db : DB) :
  user req = Some u ->
  let db1 := fst (quiz_start clock req exam_id db) in
  (incomplete_sessions db u exam_id <> [] -> db1 = db)
  /\ (db1 = db
      \/ incomplete_sessions db u exam_id = []
         /\ exists s, db1 = set_quiz_sessions (quiz_sessions db ++ [s]) db
              /\ qs_user s = u /\ qs_exam s = exam_id /\ qs_is_completed s = false
              /\ qs_started_at s = clock 0%nat)
  /\ fst (quiz_start clock' req exam_id db1) = db1.
Proof.
  intros Hu. cbv zeta. unfold quiz_start, login_required. rewrite Hu.
  destruct (get_active_exam db exam_id) as [exam |] eqn:Hexam;
    [| cbn [fst]; rewrite Hexam; auto].
  assert (Hid : Models.exam_id exam = exam_id).
  { unfold get_active_exam in Hexam. apply List.find_some in Hexam. lia. }
  rewrite Hid.
  destruct (is_nil (active_questions db exam_id)) eqn:Hq;
    [cbn [fst]; rewrite Hexam, Hid, Hq; auto |].
  set (f := fun s => (qs_user s =? u) && (qs_exam s =? exam_id) && negb (qs_is_completed s)).
  destruct (List.find f (quiz_sessions db)) as [s0 |] eqn:Hfind.
  - cbn [fst]. rewrite Hexam, Hid, Hq. fold f. rewrite Hfind. auto.
  - cbn [fst snd create_session].
    set (s := {| qs_id := fresh_id (List.map qs_id (quiz_sessions db)); qs_user := u |}).
    split; [| split].
    + intros Hne. exfalso. apply Hne. apply find_none_filter. exact Hfind.
    + right. split; [apply find_none_filter; exact Hfind |].
      exists s. repeat split; reflexivity.
    + change (get_active_exam (set_quiz_sessions (quiz_sessions db ++ [s]) db) exam_id)
        with (get_active_exam db exam_id).
      rewrite Hexam, Hid.
      change (active_questions (set_quiz_sessions (quiz_sessions db ++ [s]) db) exam_id)
        with (active_questions db exam_id).
      rewrite Hq. cbn [quiz_sessions set_quiz_sessions]. fold f.
      rewrite (find_app_new f), Hfind.
      assert (Hs : f s = true) by (unfold f, s; cbn; rewrite !Z.eqb_refl; reflexivity).
      rewrite Hs. reflexivity.
Qed.

(** *** Submitting an answer again *)

(** The row [get_or_create] finds or makes for the pair. *)
Lemma get_or_create_answer_finds (now session question : Z) (db : DB) :
  answer_keys_unique db ->
  let a := fst (get_or_create_answer now session question db) in
  let db1 := snd (get_or_create_answer now session question db) in
  answer_keys_unique db1
  /\ find_row ua_id (ua_id a) (user_answers db1) = Some a
  /\ ua_quiz_session a = session /\ ua_question a = question
  /\ List.find (fun x => (ua_quiz_session x =? session) && (ua_question x =? question))
       (user_answers db1) = Some a
  /\ List.length (answers_to db1 session question)
     = Nat.max 1 (List.length (answers_to db session question))
  /\ (forall x, In x (user_answers db) -> In x (user_answers db1))
  /\ (forall f, f a = false -> List.filter f (user_answers db1) = List.filter f (user_answers db))
  /\ choices db1 = choices db /\ quiz_sessions db1 = quiz_sessions db.
Proof.
  intros Hnd. cbv zeta. unfold get_or_create_answer, answers_to.
  set (f := fun x => (ua_quiz_session x =? session) && (ua_question x =? question)).
  destruct (List.find f (user_answers db)) as [a0 |] eqn:Hfind; cbn [fst snd].
  - pose proof Hfind as Hf. apply List.find_some in Hf. destruct Hf as [Hin Hf].
    unfold f in Hf. apply andb_true_iff in Hf.
    split; [exact Hnd |]. split; [apply find_row_unique; assumption |].
    split; [lia |]. split; [lia |]. split; [exact Hfind |].
    split; [| auto].
    assert (Hin' : In a0 (List.filter f (user_answers db)))
      by (apply List.filter_In; split; [exact Hin | unfold f; apply andb_true_iff; exact Hf]).
    destruct (List.filter f (user_answers db)); [destruct Hin' | simpl; lia].
  - set (a := {| ua_id := fresh_id (List.map ua_id (user_answers db));
                 ua_quiz_session := session |}).
    unfold answer_keys_unique. cbn [user_answers set_user_answers choices quiz_sessions].
    assert (Hfa : f a = true) by (unfold f, a; cbn; rewrite !Z.eqb_refl; reflexivity).
    split; [apply fresh_id_new; [exact Hnd | reflexivity] |].
    split.
    { unfold find_row. rewrite (find_app_new (fun y => ua_id y =? ua_id a)).
      destruct (List.find (fun y => ua_id y =? ua_id a) (user_answers db)) as [y |] eqn:Fy.
      - apply List.find_some in Fy. destruct Fy as [Hy Hk].
        pose proof (fresh_id_above (List.map ua_id (user_answers db)) (ua_id y)
                      (in_map ua_id _ _ Hy)) as Hlt.
        cbn in Hk. lia.
      - rewrite Z.eqb_refl. reflexivity. }
    split; [reflexivity |]. split; [reflexivity |].
    split; [rewrite (find_app_new f), Hfind, Hfa; reflexivity |].
    split.
    { rewrite List.filter_app. cbn [List.filter]. rewrite Hfa.
      apply find_none_filter in Hfind. rewrite Hfind. reflexivity. }
    split; [intros x Hx; apply in_or_app; left; exact Hx |].
    split; [| auto]. intros g Hg. rewrite List.filter_app. cbn [List.filter]. rewrite Hg.
    apply app_nil_r.
Qed.

(** Saving the answer under its key. *)
Lemma save_answer_over (db : DB) (a0 a : UserAnswer) (session question : Z) :
  find_row ua_id (ua_id a0) (user_answers db) = Some a0 ->
  ua_id a = ua_id a0 ->
  ua_quiz_session a0 = session -> ua_question a0 = question ->
  ua_quiz_session a = session -> ua_question a = question ->
  List.find (fun x => (ua_quiz_session x =? session) && (ua_question x =? question))
    (user_answers db) = Some a0 ->
  answer_keys_unique db ->
  answer_keys_unique (save_answer a db)
  /\ find_row ua_id (ua_id a) (user_answers (save_answer a db)) = Some a
  /\ List.find (fun x => (ua_quiz_session x =? session) && (ua_question x =? question))
       (user_answers (save_answer a db)) = Some a
  /\ List.length (answers_to (save_answer a db) session question)
     = List.length (answers_to db session question)
  /\ (forall x, In x (user_answers db) -> ua_id x <> ua_id a -> In x (user_answers (save_answer a db)))
  /\ (forall f, f a0 = false -> f a = false ->
        List.filter f (user_answers (save_answer a db)) = List.filter f (user_answers db)).
Proof.
  intros Hrow Hid Hs0 Hq0 Hs Hq Hfind Hnd.
  unfold answer_keys_unique, save_answer, answers_to in *.
  cbn [user_answers set_user_answers].
  pose proof Hrow as Hin. apply find_row_key in Hin. destruct Hin as [_ Hin].
  split; [apply save_row_nodup; exact Hnd |].
  split; [apply find_row_save_same |].
  split.
  { rewrite (find_save_row ua_id _ _ a0 a Hnd Hin Hid)
      by (rewrite Hs, Hq, Hs0, Hq0; reflexivity).
    rewrite Hfind, Hid, Z.eqb_refl. reflexivity. }
  split.
  { apply (filter_save_row_length ua_id _ _ a0); [rewrite Hid; exact Hrow |].
    rewrite Hs, Hq, Hs0, Hq0. reflexivity. }
  split; [intros x Hx Hne; apply save_row_others; assumption |].
  intros f H0 Ha. apply (filter_save_row_out ua_id f _ a0); [rewrite Hid; exact Hrow | | ];
    assumption.
Qed.

(** What [store_answer] leaves. *)
Lemma store_answer_leaves (now : Z) (s : QuizSession) (q : Question)
    (sel : list Choice) (db : DB) :
  answer_keys_unique db ->
  let a := fst (store_answer now s q sel db) in
  let db' := snd (store_answer now s q sel db) in
  answer_keys_unique db'
  /\ ua_quiz_session a = qs_id s /\ ua_question a = q_id q
  /\ ua_selected_choices a = list_to_set (List.map ch_id sel)
  /\ fst (check_answer db' q a) = a
  /\ get_or_create_answer now (qs_id s) (q_id q) db' = (a, db')
  /\ List.length (answers_to db' (qs_id s) (q_id q))
     = Nat.max 1 (List.length (answers_to db (qs_id s) (q_id q)))
  /\ (forall x, In x (user_answers db) -> ua_id x <> ua_id a -> In x (user_answers db'))
  /\ (forall session_id, session_id <> qs_id s ->
        answers_of db' session_id = answers_of db session_id).
Proof.
  intros Hnd. cbv zeta. unfold store_answer.
  destruct (get_or_create_answer_finds now (qs_id s) (q_id q) db Hnd)
    as (Hnd1 & Hrow1 & Hs1 & Hq1 & Hfind1 & Hlen1 & Hin1 & Hout1 & Hch1 & _).
  destruct (get_or_create_answer now (qs_id s) (q_id q) db) as [a0 db1]. cbn [fst snd] in *.
  set (linked := {| ua_id := ua_id a0; ua_quiz_session := ua_quiz_session a0 |}).
  destruct (save_answer_over db1 a0 linked (qs_id s) (q_id q) Hrow1 eq_refl Hs1 Hq1 Hs1 Hq1
              Hfind1 Hnd1) as (Hnd2 & Hrow2 & Hfind2 & Hlen2 & Hin2 & Hout2).
  set (db2 := save_answer linked db1) in *.
  set (checked := fst (check_answer db2 q linked)).
  assert (Hck : ua_id checked = ua_id a0 /\ ua_quiz_session checked = qs_id s
                /\ ua_question checked = q_id q
                /\ ua_selected_choices checked = list_to_set (List.map ch_id sel)).
  { unfold checked, check_answer.
    destruct (String.eqb _ "single"); [cbn; auto |].
    destruct (String.eqb _ "multiple"); [cbn; auto |].
    destruct (String.eqb _ "true_false"); cbn; auto. }
  destruct Hck as (C1 & C2 & C3 & C4).
  destruct (save_answer_over db2 linked checked (qs_id s) (q_id q) Hrow2 C1 Hs1 Hq1 C2 C3
              Hfind2 Hnd2) as (Hnd3 & Hrow3 & Hfind3 & Hlen3 & Hin3 & Hout3).
  set (db3 := save_answer checked db2) in *.
  split; [exact Hnd3 |]. split; [exact C2 |]. split; [exact C3 |]. split; [exact C4 |].
  split.
  { unfold checked, check_answer.
    destruct (String.eqb (q_question_type q) "single"); [reflexivity |].
    destruct (String.eqb (q_question_type q) "multiple"); [reflexivity |].
    destruct (String.eqb (q_question_type q) "true_false"); reflexivity. }
  split; [unfold get_or_create_answer; rewrite Hfind3; reflexivity |].
  split; [rewrite Hlen3, Hlen2; exact Hlen1 |].
  split.
  { intros x Hx Hne. rewrite C1 in Hne. apply Hin3; [| rewrite C1; exact Hne].
    apply Hin2; [| exact Hne]. apply Hin1, Hx. }
  intros sid Hne. unfold answers_of.
  assert (Hf : forall x : UserAnswer, ua_quiz_session x = qs_id s ->
                 (ua_quiz_session x =? sid) = false) by (intros x E; rewrite E; lia).
  rewrite Hout3, Hout2, Hout1 by (apply Hf; assumption). reflexivity.
Qed.

(** Submitting an answer to a question of a session overwrites the answer
    given before: the row of the pair is found or made, it carries the
    choices now selected and the flag [check_answer] gives them, and the
    pair has as many rows as before, one if it had none.  The other rows of
    the table stay, and so do the answers of every other session. *)
Theorem resubmitting_overwrites_the_answer (now : Z) (s : QuizSession) (q : Question)
    (sel : list Choice) (db : DB) :
  answer_keys_unique db ->
  let a := fst (store_answer now s q sel db) in
  let db' := snd (store_answer now s q sel db) in
  answer_keys_unique db'
  /\ ua_quiz_session a = qs_id s /\ ua_question a = q_id q
  /\ ua_selected_choices a = list_to_set (List.map ch_id sel)
  /\ fst (check_answer db' q a) = a
  /\ get_or_create_answer now (qs_id s) (q_id q) db' = (a, db')
  /\ List.length (answers_to db' (qs_id s) (q_id q))
     = Nat.max 1 (List.length (answers_to db (qs_id s) (q_id q)))
  /\ (forall x, In x (user_answers db) -> ua_id x <> ua_id a -> In x (user_answers db'))
  /\ (forall session_id, session_id <> qs_id s ->
        answers_of db' session_id = answers_of db session_id).
Proof. exact (store_answer_leaves now s q sel db). Qed.

(** *** Requests of one user and rows of another *)






Import Samples MoreSamples.

Lemma quiz_reward_is_paid_once_witness :
  session_keys_unique db_grown /\ profile_keys_unique db_grown
  /\ get_session db_grown 1 7 = Some (session 1 true 100%float)
  /\ user_profiles (fst (quiz_result (at_ 0) (request "GET" (Some 7)) 1 db_grown))
     = user_profiles db_grown.
Proof.
  assert (Hs : session_keys_unique db_grown) by (apply (bool_decide_unpack _); reflexivity).
  assert (Hp : profile_keys_unique db_grown) by (apply (bool_decide_unpack _); reflexivity).
  split; [exact Hs | split; [exact Hp | split; [reflexivity |]]].
  exact (proj1 (proj2
    (quiz_reward_is_paid_once (at_ 0) (at_ 5) (request "GET" (Some 7)) 1 7 db_grown
       (session 1 true 100%float) Hs Hp eq_refl eq_refl)) eq_refl).
Defined.

Lemma quiz_start_reuses_the_open_session_witness :
  incomplete_sessions db_grown 7 1 = []
  /\ fst (quiz_start (at_ 5) (request "POST" (Some 7)) 1
            (fst (quiz_start (at_ 0) (request "POST" (Some 7)) 1 db_grown)))
     = fst (quiz_start (at_ 0) (request "POST" (Some 7)) 1 db_grown).
Proof.
  split; [reflexivity |].
  exact (proj2 (proj2
    (quiz_start_reuses_the_open_session (at_ 0) (at_ 5) (request "POST" (Some 7)) 1 7
       db_grown eq_refl))).
Defined.

Lemma resubmitting_overwrites_the_answer_witness :
  answer_keys_unique db_multiple
  /\ List.length (answers_to db_multiple 1 1) = 1%nat
  /\ List.length
       (answers_to (snd (store_answer 5 (session 1 false 0%float)
                           (question 1 "multiple" "Which are even?" true)
                           [choice 1 1 "2" true] db_multiple)) 1 1)
     = Nat.max 1 (List.length (answers_to db_multiple 1 1)).
Proof.
  assert (H : answer_keys_unique db_multiple) by (apply (bool_decide_unpack _); reflexivity).
  split; [exact H | split; [reflexivity |]].
  exact (proj1 (proj2 (proj2 (proj2 (proj2 (proj2 (proj2
    (resubmitting_overwrites_the_answer 5 (session 1 false 0%float)
       (question 1 "multiple" "Which are even?" true) [choice 1 1 "2" true]
       db_multiple H)))))))).
Defined.


End OwnershipFacts.

(** ** Bookmarks and the next question *)

Module PagesFacts.
Import Models Views Pages Invariants TableFacts LookupFacts.

(** *** Bookmarks *)

(** Rows that agree on a column without repetitions are the same row, and
    a part of the table has no repetitions either. *)
Lemma column_inj {A B} (g : A -> B) (l : list A) (x y : A) :
  NoDup (List.map g l) -> In x l -> In y l -> g x = g y -> x = y.
Proof.
  induction l as [| z l IH]; simpl; intros Hnd Hx Hy E; [destruct Hx |].
  apply NoDup_cons in Hnd. destruct Hnd as [Hz Hnd].
  destruct Hx as [-> | Hx], Hy as [-> | Hy]; auto.
  - exfalso. apply Hz. rewrite E. apply list_elem_of_In, in_map_iff. eauto.
  - exfalso. apply Hz. rewrite <- E. apply list_elem_of_In, in_map_iff. eauto.
Qed.

Lemma column_filter {A B} (g : A -> B) (p : A -> bool) (l : list A) :
  NoDup (List.map g l) -> NoDup (List.map g (List.filter p l)).
Proof.
  induction l as [| z l IH]; simpl; intros Hnd; [constructor |].
  apply NoDup_cons in Hnd. destruct Hnd as [Hz Hnd].
  destruct (p z); [| apply IH, Hnd]. simpl. apply NoDup_cons. split; [| apply IH, Hnd].
  intros H. apply Hz. apply list_elem_of_In, in_map_iff in H. destruct H as (w & E & Hw).
  apply List.filter_In in Hw. apply list_elem_of_In, in_map_iff. exists w. tauto.
Qed.

Lemma bookmarked_in (l : list BookmarkedQuestion) (p : Z * Z) :
  p ∈ bookmarked l <-> exists b, In b l /\ (bm_user b, bm_question b) = p.
Proof.
  unfold bookmarked. rewrite elem_of_list_to_set, list_elem_of_In, in_map_iff.
  split; intros (b & H1 & H2); exists b; auto.
Qed.

(** With one row per pair the search of [get_or_create] finds at most one. *)
Lemma one_row_per_pair (l : list BookmarkedQuestion) (u qid : Z) :
  NoDup (List.map (fun b => (bm_user b, bm_question b)) l) ->
  List.filter (fun b => (bm_user b =? u) && (bm_question b =? qid)) l = []
  \/ exists b0, List.filter (fun b => (bm_user b =? u) && (bm_question b =? qid)) l = [b0].
Proof.
  induction l as [| b l IH]; simpl; intros Hnd; [auto |].
  apply NoDup_cons in Hnd. destruct Hnd as [Hb Hnd].
  destruct ((bm_user b =? u) && (bm_question b =? qid)) eqn:E; [| apply IH, Hnd].
  right. exists b. f_equal.
  destruct (List.filter _ l) as [| c r] eqn:F; [reflexivity |]. exfalso.
  assert (Hc : In c (List.filter (fun b => (bm_user b =? u) && (bm_question b =? qid)) l))
    by (rewrite F; left; reflexivity).
  apply List.filter_In in Hc. destruct Hc as [Hin Hc].
  apply Hb. apply list_elem_of_In, in_map_iff. exists c. split; [| exact Hin].
  f_equal; lia.
Qed.

(** Deleting by a key that no other row has removes that row alone. *)
Lemma delete_by_key_in (l : list BookmarkedQuestion) (b0 b : BookmarkedQuestion) :
  NoDup (List.map bm_id l) -> In b0 l ->
  (In b (List.filter (fun b => negb (bm_id b =? bm_id b0)) l) <-> In b l /\ b <> b0).
Proof.
  intros Hnd H0. rewrite List.filter_In. split; intros [Hin H]; (split; [exact Hin |]).
  - intros ->. rewrite Z.eqb_refl in H. discriminate.
  - destruct (Z.eqb_spec (bm_id b) (bm_id b0)) as [E | _]; [| reflexivity].
    exfalso. apply H. exact (key_inj bm_id l b b0 Hnd Hin H0 E).
Qed.

Lemma filter_fresh (l : list BookmarkedQuestion) (k : Z) :
  k = fresh_id (List.map bm_id l) -> List.filter (fun b => negb (bm_id b =? k)) l = l.
Proof.
  intros Hk. apply forallb_filter_id. apply forallb_forall. intros b Hb.
  pose proof (fresh_id_above (List.map bm_id l) (bm_id b) (in_map bm_id _ _ Hb)). lia.
Qed.

(** What one toggle does to a table with one row per pair and per key. *)
Lemma toggle_once (clock : Clock) (req : Request) (qid u : Z) (db : DB)
    (bookmarks : list BookmarkedQuestion) (q : Question) :
  user req = Some u -> method req = "POST" ->
  find_row q_id qid (questions db) = Some q ->
  NoDup (List.map bm_id bookmarks) ->
  NoDup (List.map (fun b => (bm_user b, bm_question b)) bookmarks) ->
  let l' := fst (toggle_bookmark clock req qid db bookmarks) in
  snd (toggle_bookmark clock req qid db bookmarks)
    = Bookmarked (negb (bool_decide ((u, qid) ∈ bookmarked bookmarks)))
  /\ ((u, qid) ∈ bookmarked l' <-> (u, qid) ∉ bookmarked bookmarks)
  /\ (forall p, p <> (u, qid) -> (p ∈ bookmarked l' <-> p ∈ bookmarked bookmarks))
  /\ NoDup (List.map bm_id l')
  /\ NoDup (List.map (fun b => (bm_user b, bm_question b)) l')
  /\ ((u, qid) ∉ bookmarked bookmarks ->
        exists b, l' = (bookmarks ++ [b])%list /\ bm_id b = fresh_id (List.map bm_id bookmarks)
                  /\ bm_user b = u /\ bm_question b = qid).
Proof.
  intros Hu Hm Hq Hids Hpairs. cbv zeta.
  pose proof (find_row_key q_id qid _ q Hq) as [Hqid _].
  unfold toggle_bookmark. rewrite Hu, Hm, Hq, Hqid.
  change (negb (String.eqb "POST" "POST")) with false. cbv iota.
  set (f := fun b => (bm_user b =? u) && (bm_question b =? qid)).
  assert (Hf : forall b, f b = true <-> (bm_user b, bm_question b) = (u, qid)).
  { intros b. unfold f. rewrite andb_true_iff, !Z.eqb_eq. split; [intros []; congruence |].
    intros E; inversion E; auto. }
  assert (Hon : (u, qid) ∈ bookmarked bookmarks <-> List.filter f bookmarks <> []).
  { rewrite bookmarked_in. split.
    - intros (b & Hin & Hp) E.
      assert (Hb : In b (List.filter f bookmarks)) by (apply List.filter_In; rewrite Hf; auto).
      rewrite E in Hb. destruct Hb.
    - intros Hne. destruct (List.filter f bookmarks) as [| b r] eqn:F; [contradiction |].
      assert (Hb : In b (List.filter f bookmarks)) by (rewrite F; left; reflexivity).
      apply List.filter_In in Hb. exists b. rewrite <- Hf. exact Hb. }
  destruct (one_row_per_pair bookmarks u qid Hpairs) as [F | [b0 F]]; fold f in F; rewrite F.
  - assert (Hoff : (u, qid) ∉ bookmarked bookmarks) by (rewrite Hon, F; auto).
    cbn [fst snd].
    set (b := {| bm_id := fresh_id (List.map bm_id bookmarks); bm_user := u |}).
    split; [rewrite bool_decide_eq_false_2 by exact Hoff; reflexivity |].
    split; [| split; [| split; [| split]]].
    + split; [auto |]. intros _. apply bookmarked_in. exists b.
      split; [apply in_or_app; right; left |]; reflexivity.
    + intros p Hp. rewrite !bookmarked_in. split.
      * intros (c & Hc & E). apply in_app_or in Hc. destruct Hc as [Hc | [<- | []]]; [eauto |].
        cbn in E. congruence.
      * intros (c & Hc & E). exists c. split; [apply in_or_app; left; exact Hc | exact E].
    + apply fresh_id_new; [exact Hids | reflexivity].
    + rewrite List.map_app. apply NoDup_app. split; [exact Hpairs | split].
      * intros p Hp Hp'. apply list_elem_of_In in Hp'. destruct Hp' as [<- | []].
        apply Hoff. apply bookmarked_in. apply list_elem_of_In, in_map_iff in Hp.
        destruct Hp as (c & E & Hc). exists c. auto.
      * apply NoDup_singleton.
    + intros _. exists b. repeat split; reflexivity.
  - assert (Hb0 : In b0 bookmarks /\ f b0 = true).
    { assert (H : In b0 (List.filter f bookmarks)) by (rewrite F; left; reflexivity).
      apply List.filter_In in H. exact H. }
    destruct Hb0 as [Hin0 Hf0].
    assert (Hyes : (u, qid) ∈ bookmarked bookmarks) by (rewrite Hon, F; discriminate).
    assert (Honly : forall c, In c bookmarks -> f c = true -> c = b0).
    { intros c Hc Hfc. assert (H : In c (List.filter f bookmarks))
        by (apply List.filter_In; auto).
      rewrite F in H. destruct H as [<- | []]. reflexivity. }
    cbn [fst snd].
    split; [rewrite bool_decide_eq_true_2 by exact Hyes; reflexivity |].
    split; [| split; [| split; [| split]]].
    + split; [| tauto]. intros H. exfalso. apply bookmarked_in in H.
      destruct H as (c & Hc & E). apply (delete_by_key_in _ b0 c Hids Hin0) in Hc.
      destruct Hc as [Hc Hne]. apply Hne, Honly; [exact Hc | apply Hf, E].
    + intros p Hp. rewrite !bookmarked_in. split.
      * intros (c & Hc & E). apply (delete_by_key_in _ b0 c Hids Hin0) in Hc. exists c. tauto.
      * intros (c & Hc & E). exists c. split; [| exact E].
        apply (delete_by_key_in _ b0 c Hids Hin0). split; [exact Hc |].
        intros ->. apply Hp. rewrite <- E. apply Hf, Hf0.
    + apply column_filter, Hids.
    + apply column_filter, Hpairs.
    + intros Hno. contradiction.
Qed.

(** Toggling the bookmark of a question flips it and nothing else, and
    toggling it twice leaves the same questions bookmarked as before: the
    first reply says whether the question is bookmarked now, the second
    says the opposite. *)
Theorem toggling_twice_restores_the_bookmarks (clock clock' : Clock) (req : Request)
    (qid u : Z) (db : DB) (bookmarks : list BookmarkedQuestion) (q : Question) :
  user req = Some u -> method req = "POST" ->
  find_row q_id qid (questions db) = Some q ->
  NoDup (List.map bm_id bookmarks) ->
  NoDup (List.map (fun b => (bm_user b, bm_question b)) bookmarks) ->
  let was := bool_decide ((u, qid) ∈ bookmarked bookmarks) in
  let once := toggle_bookmark clock req qid db bookmarks in
  let twice := toggle_bookmark clock' req qid db (fst once) in
  snd once = Bookmarked (negb was)
  /\ ((u, qid) ∈ bookmarked (fst once) <-> (u, qid) ∉ bookmarked bookmarks)
  /\ (forall p, p <> (u, qid) -> (p ∈ bookmarked (fst once) <-> p ∈ bookmarked bookmarks))
  /\ snd twice = Bookmarked was
  /\ bookmarked (fst twice) = bookmarked bookmarks.
Proof.
  intros Hu Hm Hq Hids Hpairs. cbv zeta.
  destruct (toggle_once clock req qid u db bookmarks q Hu Hm Hq Hids Hpairs)
    as (R1 & Hflip1 & Hrest1 & Hids1 & Hpairs1 & _).
  set (l1 := fst (toggle_bookmark clock req qid db bookmarks)) in *.
  destruct (toggle_once clock' req qid u db l1 q Hu Hm Hq Hids1 Hpairs1)
    as (R2 & Hflip2 & Hrest2 & _).
  split; [exact R1 |]. split; [exact Hflip1 |]. split; [exact Hrest1 |]. split.
  - rewrite R2. f_equal. case_bool_decide as H1; case_bool_decide as H2; try reflexivity;
      exfalso; tauto.
  - apply set_eq. intros p. destruct (decide (p = (u, qid))) as [-> | Hne].
    + rewrite Hflip2, Hflip1. destruct (decide ((u, qid) ∈ bookmarked bookmarks)); tauto.
    + rewrite Hrest2, Hrest1 by exact Hne. reflexivity.
Qed.

(** *** The question an incomplete quiz goes on with *)

Lemma enumerate_from_cons {A} (start : Z) (x : A) (l : list A) :
  enumerate_from start (x :: l) = (start, x) :: enumerate_from (start + 1) l.
Proof.
  unfold enumerate_from. cbn [List.length seq List.map List.combine].
  rewrite Z.add_0_r. f_equal. f_equal. rewrite <- seq_shift, List.map_map.
  apply List.map_ext. intros i. lia.
Qed.

(** The loop returns the number of the first question without an answer,
    and what it was given if every question has one. *)
Lemma first_unanswered_finds (answered : gset Z) (l : list Question) (start default : Z) :
  (forall q, In q l -> q_id q ∈ answered)
  /\ first_unanswered answered (enumerate_from start l) default = default
  \/ exists (i : nat) q,
       l !! i = Some q /\ (q_id q ∉ answered)
       /\ first_unanswered answered (enumerate_from start l) default = start + Z.of_nat i
       /\ forall (j : nat) q', (j < i)%nat -> l !! j = Some q' -> q_id q' ∈ answered.
Proof.
  revert start. induction l as [| x l IH]; intros start.
  - left. split; [intros q [] | reflexivity].
  - rewrite enumerate_from_cons. cbn [first_unanswered].
    case_bool_decide as Hx.
    + destruct (IH (start + 1)) as [[Hall E] | (i & q & Hi & Hq & E & Hbefore)].
      * left. split; [| exact E]. intros q [<- | Hq]; auto.
      * right. exists (S i), q. split; [exact Hi |]. split; [exact Hq |].
        split; [rewrite E; lia |].
        intros [| j] q' Hj Hq'; [cbn in Hq'; congruence |].
        apply (Hbefore j); [lia | exact Hq'].
    + right. exists 0%nat, x. split; [reflexivity |]. split; [exact Hx |].
      split; [lia |]. intros j q' Hj. lia.
Qed.

Lemma insert_by_perm {A} (leb : A -> A -> bool) (x : A) (l : list A) :
  Permutation (insert_by leb x l) (x :: l).
Proof.
  induction l as [| y l IH]; simpl; [reflexivity |].
  destruct (leb x y); [reflexivity |]. rewrite IH. apply perm_swap.
Qed.

Lemma order_by_perm {A} (leb : A -> A -> bool) (l : list A) : Permutation (order_by leb l) l.
Proof.
  unfold order_by. induction l as [| x l IH]; simpl; [reflexivity |].
  rewrite insert_by_perm, IH. reflexivity.
Qed.

Lemma question_leb_total (a b : Question) : question_leb a b = false -> question_leb b a = true.
Proof. unfold question_leb. lia. Qed.

Lemma question_leb_trans (a b c : Question) :
  question_leb a b = true -> question_leb b c = true -> question_leb a c = true.
Proof. unfold question_leb. lia. Qed.

Lemma insert_by_sorted (x : Question) (l : list Question) :
  StronglySorted (fun a b => question_leb a b = true) l ->
  StronglySorted (fun a b => question_leb a b = true) (insert_by question_leb x l).
Proof.
  induction l as [| y l IH]; simpl; intros Hs; [repeat constructor |].
  apply StronglySorted_inv in Hs. destruct Hs as [Hs Hy].
  destruct (question_leb x y) eqn:E.
  - constructor; [constructor; assumption |]. constructor; [exact E |].
    eapply Forall_impl; [exact Hy |]. intros z Hz. eapply question_leb_trans; eassumption.
  - constructor; [apply IH, Hs |].
    assert (Hp := insert_by_perm question_leb x l).
    rewrite List.Forall_forall in Hy |- *. intros z Hz.
    apply (Permutation_in _ Hp) in Hz. destruct Hz as [<- | Hz]; [| apply Hy, Hz].
    apply question_leb_total, E.
Qed.

(** The questions of an exam are listed by their order and, among equals,
    by their key, each active question once.  The number attached to an
    incomplete session is the position (from 1) of the first of them the
    session has no answer to, all questions before it being answered; it is
    1 when every question is answered. *)
Theorem next_question_is_the_first_unanswered (db : DB) (session : QuizSession) :
  let l := questions_list db (qs_exam session) in
  let answered := answered_question_ids db session in
  let n := next_question_num (session_progress db session) in
  Permutation l (active_questions db (qs_exam session))
  /\ StronglySorted (fun a b => question_leb a b = true) l
  /\ ((forall q, In q l -> q_id q ∈ answered) /\ n = 1
      \/ exists (i : nat) q,
           l !! i = Some q /\ (q_id q ∉ answered) /\ n = Z.of_nat i + 1
           /\ forall (j : nat) q', (j < i)%nat -> l !! j = Some q' -> q_id q' ∈ answered).
Proof.
  cbv zeta. split; [apply order_by_perm |]. split.
  - unfold questions_list, order_by.
    induction (active_questions db (qs_exam session)) as [| x l IH]; simpl; [constructor |].
    apply insert_by_sorted, IH.
  - cbn [next_question_num session_progress].
    destruct (first_unanswered_finds (answered_question_ids db session)
                (questions_list db (qs_exam session)) 1 1)
      as [[Hall E] | (i & q & Hi & Hq & E & Hbefore)].
    + left. auto.
    + right. exists i, q. repeat split; auto. rewrite E. lia.
Qed.

Import Samples MoreSamples.

Lemma toggling_twice_restores_the_bookmarks_witness :
  find_row q_id 1 (questions db_grown) = Some (question 1 "single" "2+2?" true)
  /\ NoDup (List.map bm_id [bookmark 1 7 2])
  /\ snd (toggle_bookmark (at_ 0) (request "POST" (Some 7)) 1 db_grown [bookmark 1 7 2])
     = Bookmarked true
  /\ bookmarked
       (fst (toggle_bookmark (at_ 5) (request "POST" (Some 7)) 1 db_grown
               (fst (toggle_bookmark (at_ 0) (request "POST" (Some 7)) 1 db_grown
                       [bookmark 1 7 2]))))
     = bookmarked [bookmark 1 7 2].
Proof.
  assert (H1 : NoDup (List.map bm_id [bookmark 1 7 2])) by (apply (bool_decide_unpack _); reflexivity).
  assert (H2 : NoDup (List.map (fun b => (bm_user b, bm_question b)) [bookmark 1 7 2]))
    by (apply (bool_decide_unpack _); reflexivity).
  split; [reflexivity | split; [exact H1 | split; [reflexivity |]]].
  exact (proj2 (proj2 (proj2 (proj2
    (toggling_twice_restores_the_bookmarks (at_ 0) (at_ 5) (request "POST" (Some 7)) 1 7
       db_grown [bookmark 1 7 2] (question 1 "single" "2+2?" true)
       eq_refl eq_refl eq_refl H1 H2))))).
Defined.

End PagesFacts.

(** ** The command that removes the brackets *)

Module CleanupFacts.
Import Models Importer RemoveBrackets Invariants Cleaned TableFacts LookupFacts PyFacts RowFacts.

(** *** One loop of the command *)

(** A dry run counts and writes nothing. *)
Lemma update_rows_dry {A} (changed : A -> bool) (cleaned : A -> A) (save : A -> M unit)
    (rows : list A) (n : Z) (db : DB) :
  update_rows true changed cleaned save rows n db
  = (inr (n + Z.of_nat (List.length (List.filter changed rows))), db).
Proof.
  revert n. induction rows as [| x rows IH]; intros n; cbn [update_rows List.filter].
  - cbn. rewrite Z.add_0_r. reflexivity.
  - destruct (changed x); [| apply IH].
    unfold mbind, M_bind, mret, M_ret. rewrite IH. cbn [List.length]. do 2 f_equal. lia.
Qed.

(** Rows none of which holds a bracket are left alone. *)
Lemma update_rows_clean {A} (changed : A -> bool) (cleaned : A -> A) (save : A -> M unit)
    (dry_run : bool) (rows : list A) (n : Z) (db : DB) :
  (forall x, In x rows -> changed x = false) ->
  update_rows dry_run changed cleaned save rows n db = (inr n, db).
Proof.
  induction rows as [| x rows IH]; intros H; [reflexivity |].
  cbn [update_rows]. rewrite (H x) by (left; reflexivity).
  apply IH. intros y Hy. apply H. right. exact Hy.
Qed.

Lemma count_perm {A} (changed : A -> bool) (rows l : list A) :
  Permutation rows l ->
  Z.of_nat (List.length (List.filter changed rows))
  = Z.of_nat (List.length (List.filter changed l)).
Proof.
  intros H. f_equal. induction H; cbn [List.filter].
  - reflexivity.
  - destruct (changed x); cbn [List.length]; congruence.
  - destruct (changed x), (changed y); reflexivity.
  - congruence.
Qed.

Section Loop.
Context {A : Type} (key : A -> Z) (get : DB -> list A) (set : list A -> DB -> DB)
  (changed : A -> bool) (cleaned : A -> A) (save : A -> M unit)
  (fails : A -> list A -> bool) (msg : string) (same : A -> A -> bool).
Hypothesis get_set : forall v db, get (set v db) = v.
Hypothesis set_set : forall v w db, set v (set w db) = set v db.
Hypothesis set_get : forall db, set (get db) db = db.
Hypothesis save_eq : forall x db,
  save x db = if fails x (get db) then (inl (IntegrityError msg), db)
              else (inr tt, set (save_row key x (get db)) db).
Hypothesis fails_iff : forall x l,
  fails x l = true <-> exists y, In y l /\ key y <> key x /\ same y x = true.
Hypothesis key_cleaned : forall x, key (cleaned x) = key x.
Hypothesis unchanged : forall x, changed x = false -> cleaned x = x.
Hypothesis same_sym : forall a b, same a b = same b a.
Hypothesis same_cleaned : forall a b,
  same a (cleaned b) = true -> same (cleaned a) (cleaned b) = true.

Lemma update_rows_cons (dry_run : bool) (x : A) (rows : list A) (n : Z) (db : DB) :
  update_rows dry_run changed cleaned save (x :: rows) n db
  = if changed x then
      if dry_run then update_rows dry_run changed cleaned save rows (n + 1) db
      else if fails (cleaned x) (get db) then (inl (IntegrityError msg), db)
           else update_rows dry_run changed cleaned save rows (n + 1)
                  (set (save_row key (cleaned x) (get db)) db)
    else update_rows dry_run changed cleaned save rows n db.
Proof.
  cbn [update_rows]. destruct (changed x); [| reflexivity].
  destruct dry_run; [reflexivity |].
  unfold mbind, M_bind. rewrite save_eq. destruct (fails _ _); reflexivity.
Qed.

Lemma cleaned_where_nil (l : list A) : cleaned_where key cleaned [] l = l.
Proof. unfold cleaned_where. cbn. apply List.map_id. Qed.

Lemma cleaned_where_skip (x : A) (rows l : list A) :
  ~ In (key x) (List.map key l) ->
  cleaned_where key cleaned (x :: rows) l = cleaned_where key cleaned rows l.
Proof.
  intros H. unfold cleaned_where. apply List.map_ext_in. intros y Hy. cbn [List.existsb].
  destruct (Z.eqb_spec (key x) (key y)) as [E | _]; [| reflexivity].
  exfalso. apply H. rewrite E. apply in_map, Hy.
Qed.

Lemma existsb_key_false (y : A) (rows : list A) :
  ~ In (key y) (List.map key rows) -> List.existsb (fun x => key x =? key y) rows = false.
Proof.
  intros H. destruct (List.existsb _ rows) eqn:E; [| reflexivity].
  apply List.existsb_exists in E. destruct E as (x & Hx & E). exfalso. apply H.
  apply Z.eqb_eq in E. rewrite <- E. apply in_map, Hx.
Qed.

Lemma existsb_key_true (y : A) (rows : list A) :
  In (key y) (List.map key rows) -> List.existsb (fun x => key x =? key y) rows = true.
Proof.
  intros H. apply in_map_iff in H. destruct H as (x & E & Hx).
  apply List.existsb_exists. exists x. split; [exact Hx | apply Z.eqb_eq, E].
Qed.

Lemma cleaned_where_saved (x : A) (rows l : list A) :
  NoDup (List.map key l) -> In x l -> ~ In (key x) (List.map key rows) ->
  cleaned_where key cleaned rows (save_row key (cleaned x) l)
  = cleaned_where key cleaned (x :: rows) l.
Proof.
  intros Hnd Hin Hx. induction l as [| y l IH]; [contradiction |].
  cbn [List.map] in Hnd. apply NoDup_cons in Hnd. destruct Hnd as [Hy Hnd].
  rewrite list_elem_of_In in Hy.
  cbn [save_row]. rewrite key_cleaned.
  destruct (Z.eqb_spec (key y) (key x)) as [E | N].
  - assert (y = x) as ->.
    { destruct Hin as [-> | Hin]; [reflexivity |]. exfalso. apply Hy. rewrite E.
      apply in_map, Hin. }
    unfold cleaned_where at 1 2. cbn [List.map List.existsb].
    rewrite key_cleaned, Z.eqb_refl, (existsb_key_false x rows Hx). cbn [orb]. f_equal.
    fold (cleaned_where key cleaned rows l). fold (cleaned_where key cleaned (x :: rows) l).
    symmetry. apply cleaned_where_skip. exact Hy.
  - destruct Hin as [-> | Hin]; [congruence |].
    unfold cleaned_where at 1 2. cbn [List.map List.existsb].
    fold (cleaned_where key cleaned rows (save_row key (cleaned x) l)).
    fold (cleaned_where key cleaned (x :: rows) l).
    rewrite (IH Hnd Hin).
    destruct (Z.eqb_spec (key x) (key y)) as [E | _]; [congruence |]. reflexivity.
Qed.

Lemma cleaned_where_same (x : A) (rows l : list A) :
  changed x = false -> NoDup (List.map key l) -> In x l ->
  cleaned_where key cleaned (x :: rows) l = cleaned_where key cleaned rows l.
Proof.
  intros Hc Hnd Hin. unfold cleaned_where. apply List.map_ext_in. intros y Hy.
  cbn [List.existsb]. destruct (Z.eqb_spec (key x) (key y)) as [E | _]; [| reflexivity].
  assert (y = x) as -> by (symmetry; exact (key_inj key l x y Hnd Hin Hy E)).
  cbn [orb]. rewrite (unchanged x Hc). destruct (List.existsb _ rows); reflexivity.
Qed.

Lemma cleaned_where_all (rows l : list A) :
  (forall y, In y l -> In (key y) (List.map key rows)) ->
  cleaned_where key cleaned rows l = List.map cleaned l.
Proof.
  intros H. unfold cleaned_where. apply List.map_ext_in. intros y Hy.
  rewrite (existsb_key_true y rows (H y Hy)). reflexivity.
Qed.

Lemma cleaned_where_keys (rows l : list A) :
  List.map key (cleaned_where key cleaned rows l) = List.map key l.
Proof.
  unfold cleaned_where. rewrite List.map_map. apply List.map_ext. intros y.
  destruct (List.existsb _ rows); [apply key_cleaned | reflexivity].
Qed.

(** The rows still to come stay in the table when another row is saved. *)
Lemma rest_stays (x : A) (rows l : list A) :
  NoDup (List.map key (x :: rows)) -> (forall y, In y (x :: rows) -> In y l) ->
  ~ In (key x) (List.map key rows)
  /\ forall y, In y rows -> In y (save_row key (cleaned x) l).
Proof.
  intros Hnd Hin. cbn [List.map] in Hnd. apply NoDup_cons in Hnd. destruct Hnd as [Hx _].
  rewrite list_elem_of_In in Hx. split; [exact Hx |].
  intros y Hy. apply save_row_others; [apply Hin; right; exact Hy |].
  rewrite key_cleaned. intros E. apply Hx. rewrite <- E. apply in_map, Hy.
Qed.

(** A real run of the loop: it ends normally, every row of [rows] cleaned
    in the table, or with the error of a unique constraint, only the table
    of the loop written. *)
Lemma update_rows_real (rows : list A) : forall (n : Z) (db : DB),
  NoDup (List.map key (get db)) -> NoDup (List.map key rows) ->
  (forall y, In y rows -> In y (get db)) ->
  update_rows false changed cleaned save rows n db = (inr (n + Z.of_nat (List.length (List.filter changed rows))), set (cleaned_where key cleaned rows (get db)) db)
  \/ exists v, update_rows false changed cleaned save rows n db = (inl (IntegrityError msg), set v db).
Proof.
  induction rows as [| x rows IH]; intros n db Hnd Hrows Hin.
  - left. cbn. rewrite cleaned_where_nil, set_get, Z.add_0_r. reflexivity.
  - rewrite update_rows_cons. cbn [List.filter].
    assert (Hx : In x (get db)) by (apply Hin; left; reflexivity).
    assert (Hrows' : NoDup (List.map key rows))
      by (cbn [List.map] in Hrows; apply NoDup_cons in Hrows; tauto).
    destruct (changed x) eqn:Hc.
    + destruct (fails (cleaned x) (get db)) eqn:Hf.
      * right. exists (get db). rewrite set_get. reflexivity.
      * destruct (rest_stays x rows (get db) Hrows Hin) as [Hnew Hrest].
        set (db1 := set (save_row key (cleaned x) (get db)) db).
        assert (Hg : get db1 = save_row key (cleaned x) (get db)) by apply get_set.
        destruct (IH (n + 1) db1) as [E | (v & E)].
        -- rewrite Hg. apply save_row_nodup, Hnd.
        -- exact Hrows'.
        -- rewrite Hg. exact Hrest.
        -- left. rewrite E, Hg. unfold db1. rewrite set_set.
           rewrite (cleaned_where_saved x rows (get db) Hnd Hx Hnew).
           cbn [List.length]. do 2 f_equal. lia.
        -- right. exists v. rewrite E. unfold db1. rewrite set_set. reflexivity.
    + destruct (IH n db Hnd Hrows') as [E | (v & E)].
      * intros y Hy. apply Hin. right. exact Hy.
      * left. rewrite E, (cleaned_where_same x rows (get db) Hc Hnd Hx). reflexivity.
      * right. exists v. exact E.
Qed.

(** A save that passes the constraint keeps it. *)
Lemma slots_unique_save (x : A) (l : list A) :
  slots_unique key same l -> fails x l = false -> slots_unique key same (save_row key x l).
Proof.
  intros Hu Hf a b Ha Hb Hne.
  assert (Hno : forall y, In y l -> key y <> key x -> same y x = false).
  { intros y Hy Hk. destruct (same y x) eqn:E; [| reflexivity].
    assert (fails x l = true) by (apply fails_iff; exists y; auto). congruence. }
  apply save_row_from in Ha, Hb. destruct Ha as [-> | Ha], Hb as [-> | Hb].
  - congruence.
  - rewrite same_sym. apply Hno; [exact Hb | congruence].
  - apply Hno; assumption.
  - apply Hu; assumption.
Qed.

(** The loop ends normally exactly when the table with the rows cleaned
    satisfies the unique constraint. *)
Lemma update_rows_succeeds (rows : list A) : forall (n : Z) (db : DB),
  NoDup (List.map key (get db)) -> NoDup (List.map key rows) ->
  (forall y, In y rows -> In y (get db)) ->
  slots_unique key same (get db) ->
  ((exists m db', update_rows false changed cleaned save rows n db = (inr m, db'))
   <-> slots_unique key same (cleaned_where key cleaned rows (get db))).
Proof.
  induction rows as [| x rows IH]; intros n db Hnd Hrows Hin Hu.
  - rewrite cleaned_where_nil. split; [intros _; exact Hu |].
    intros _. exists n, db. reflexivity.
  - rewrite update_rows_cons.
    assert (Hx : In x (get db)) by (apply Hin; left; reflexivity).
    assert (Hrows' : NoDup (List.map key rows))
      by (cbn [List.map] in Hrows; apply NoDup_cons in Hrows; tauto).
    destruct (changed x) eqn:Hc.
    + destruct (rest_stays x rows (get db) Hrows Hin) as [Hnew Hrest].
      rewrite <- (cleaned_where_saved x rows (get db) Hnd Hx Hnew).
      destruct (fails (cleaned x) (get db)) eqn:Hf.
      * split; [intros (m & db' & E); discriminate E |].
        intros Hclean. exfalso.
        rewrite (cleaned_where_saved x rows (get db) Hnd Hx Hnew) in Hclean.
        apply fails_iff in Hf. destruct Hf as (y & Hy & Hk & Hs).
        rewrite key_cleaned in Hk.
        assert (Hcx : In (cleaned x) (cleaned_where key cleaned (x :: rows) (get db))).
        { unfold cleaned_where. apply in_map_iff. exists x. split; [| exact Hx].
          cbn [List.existsb]. rewrite Z.eqb_refl. reflexivity. }
        assert (Hcy : In (if List.existsb (fun x0 => key x0 =? key y) (x :: rows)
                          then cleaned y else y)
                        (cleaned_where key cleaned (x :: rows) (get db))).
        { unfold cleaned_where. apply in_map_iff. exists y. split; [reflexivity | exact Hy]. }
        destruct (List.existsb (fun x0 => key x0 =? key y) (x :: rows)).
        -- assert (F := Hclean (cleaned y) (cleaned x) Hcy Hcx).
           rewrite !key_cleaned in F. rewrite (same_cleaned y x Hs) in F.
           specialize (F Hk). discriminate F.
        -- assert (F := Hclean y (cleaned x) Hcy Hcx).
           rewrite key_cleaned in F. rewrite Hs in F. specialize (F Hk). discriminate F.
      * set (db1 := set (save_row key (cleaned x) (get db)) db).
        assert (Hg : get db1 = save_row key (cleaned x) (get db)) by apply get_set.
        rewrite <- Hg. apply IH.
        -- rewrite Hg. apply save_row_nodup, Hnd.
        -- exact Hrows'.
        -- rewrite Hg. exact Hrest.
        -- rewrite Hg. apply slots_unique_save; assumption.
    + rewrite (cleaned_where_same x rows (get db) Hc Hnd Hx). apply IH; try assumption.
      intros y Hy. apply Hin. right. exact Hy.
Qed.

(** Over all rows of the table. *)
Lemma update_rows_table (rows : list A) (n : Z) (db : DB) :
  Permutation rows (get db) -> NoDup (List.map key (get db)) ->
  (update_rows false changed cleaned save rows n db = (inr (n + Z.of_nat (List.length (List.filter changed (get db)))), set (List.map cleaned (get db)) db)
   \/ exists v, update_rows false changed cleaned save rows n db = (inl (IntegrityError msg), set v db))
  /\ (slots_unique key same (get db) ->
      ((exists m db', update_rows false changed cleaned save rows n db = (inr m, db'))
       <-> slots_unique key same (List.map cleaned (get db)))).
Proof.
  intros Hp Hnd.
  assert (Hrows : NoDup (List.map key rows)).
  { rewrite (Permutation_map key Hp). exact Hnd. }
  assert (Hin : forall y, In y rows -> In y (get db)).
  { intros y Hy. eapply Permutation_in; [exact Hp | exact Hy]. }
  assert (Hall : cleaned_where key cleaned rows (get db) = List.map cleaned (get db)).
  { apply cleaned_where_all. intros y Hy. apply in_map.
    eapply Permutation_in; [symmetry; exact Hp | exact Hy]. }
  split.
  - rewrite <- Hall, <- (count_perm changed rows (get db) Hp).
    apply update_rows_real; assumption.
  - intros Hu. rewrite <- Hall. apply update_rows_succeeds; assumption.
Qed.

End Loop.


(** *** The five tables *)

Lemma differ_false (a b : string) : differ a b = false <-> a = b.
Proof.
  unfold differ. rewrite negb_false_iff. apply String.eqb_eq.
Qed.

Lemma remove_brackets_idem (s : string) :
  remove_brackets (remove_brackets s) = remove_brackets s.
Proof. exact (proj2 (proj2 (proj2 (proj2 (remove_all_brackets_clean s))))). Qed.

Lemma remove_brackets_none (s : string) : no_brackets (remove_brackets s).
Proof.
  destruct (remove_all_brackets_clean s) as (H1 & H2 & _). split; [exact H1 | exact H2].
Qed.

Lemma differ_cleaned (s : string) : differ (remove_brackets s) (remove_brackets (remove_brackets s)) = false.
Proof. apply differ_false. symmetry. apply remove_brackets_idem. Qed.

Lemma handle_eq (o : Orderings) (dry_run : bool) (db : DB) :
  handle o dry_run db
  = match update_rows dry_run question_changed cleaned_question save_question
            (question_rows o (questions db)) 0 db with
    | (inl e, db1) => (inl e, db1)
    | (inr n1, db1) =>
    match update_rows dry_run choice_changed cleaned_choice save_choice
            (choice_rows o (choices db1)) 0 db1 with
    | (inl e, db2) => (inl e, db2)
    | (inr n2, db2) =>
    match update_rows dry_run exam_changed cleaned_exam save_exam
            (exam_rows o (exams db2)) 0 db2 with
    | (inl e, db3) => (inl e, db3)
    | (inr n3, db3) =>
    match update_rows dry_run category_changed cleaned_category save_category
            (category_rows o (categories db3)) 0 db3 with
    | (inl e, db4) => (inl e, db4)
    | (inr n4, db4) =>
    match update_rows dry_run topic_changed cleaned_topic save_topic
            (topic_rows o (topics db4)) 0 db4 with
    | (inl e, db5) => (inl e, db5)
    | (inr n5, db5) =>
        (inr {| updated_count := n1; choices_updated := n2; exams_updated := n3;
                categories_updated := n4; topics_updated := n5 |}, db5)
    end end end end end.
Proof.
  unfold handle, mbind, M_bind, get_db, mret, M_ret.
  destruct (update_rows _ _ _ _ _ _ _) as [[e | n1] db1]; [reflexivity |].
  destruct (update_rows _ _ _ _ _ _ _) as [[e | n2] db2]; [reflexivity |].
  destruct (update_rows _ _ _ _ _ _ _) as [[e | n3] db3]; [reflexivity |].
  destruct (update_rows _ _ _ _ _ _ _) as [[e | n4] db4]; [reflexivity |].
  destruct (update_rows _ _ _ _ _ _ _) as [[e | n5] db5]; reflexivity.
Qed.

Lemma exam_fails (x : Exam) (l : list Exam) :
  List.existsb (fun e' => negb (exam_id e' =? exam_id x) && (exam_category e' =? exam_category x)
                          && String.eqb (exam_name e') (exam_name x)) l = true
  <-> exists y, In y l /\ exam_id y <> exam_id x /\ same_exam y x = true.
Proof.
  rewrite List.existsb_exists. unfold same_exam. split; intros (y & Hy & H); exists y.
  - apply andb_true_iff in H. destruct H as [H H3]. apply andb_true_iff in H.
    destruct H as [H1 H2]. apply negb_true_iff, Z.eqb_neq in H1.
    rewrite H2, H3. auto.
  - destruct H as [H1 H2]. apply Z.eqb_neq in H1. rewrite H1. cbn [negb andb].
    split; [exact Hy | exact H2].
Qed.

Lemma category_fails (x : Category) (l : list Category) :
  List.existsb (fun c' => negb (cat_id c' =? cat_id x) && String.eqb (cat_name c') (cat_name x)) l
  = true
  <-> exists y, In y l /\ cat_id y <> cat_id x /\ same_category y x = true.
Proof.
  rewrite List.existsb_exists. unfold same_category. split; intros (y & Hy & H); exists y.
  - apply andb_true_iff in H. destruct H as [H1 H2]. apply negb_true_iff, Z.eqb_neq in H1. auto.
  - destruct H as [H1 H2]. apply Z.eqb_neq in H1. rewrite H1. cbn [negb andb].
    split; [exact Hy | exact H2].
Qed.

Lemma topic_fails (x : Topic) (l : list Topic) :
  List.existsb (fun t' => negb (topic_id t' =? topic_id x) && (topic_exam t' =? topic_exam x)
                          && String.eqb (topic_name t') (topic_name x)) l = true
  <-> exists y, In y l /\ topic_id y <> topic_id x /\ same_topic y x = true.
Proof.
  rewrite List.existsb_exists. unfold same_topic. split; intros (y & Hy & H); exists y.
  - apply andb_true_iff in H. destruct H as [H H3]. apply andb_true_iff in H.
    destruct H as [H1 H2]. apply negb_true_iff, Z.eqb_neq in H1.
    rewrite H2, H3. auto.
  - destruct H as [H1 H2]. apply Z.eqb_neq in H1. rewrite H1. cbn [negb andb].
    split; [exact Hy | exact H2].
Qed.

(** Two names equal before the second is cleaned are equal after both are. *)
Lemma eqb_cleaned (a b : string) :
  String.eqb a (remove_brackets b) = true ->
  String.eqb (remove_brackets a) (remove_brackets b) = true.
Proof.
  intros H. apply String.eqb_eq in H. apply String.eqb_eq. rewrite H.
  apply remove_brackets_idem.
Qed.

Lemma question_unchanged (q : Question) : question_changed q = false -> cleaned_question q = q.
Proof.
  unfold question_changed, cleaned_question. intros H. apply orb_false_iff in H.
  destruct H as [H1 H2]. apply differ_false in H1, H2. rewrite <- H1, <- H2.
  destruct q; reflexivity.
Qed.

Lemma choice_unchanged (c : Choice) : choice_changed c = false -> cleaned_choice c = c.
Proof.
  unfold choice_changed, cleaned_choice. intros H. apply differ_false in H. rewrite <- H.
  destruct c; reflexivity.
Qed.

Lemma exam_unchanged (e : Exam) : exam_changed e = false -> cleaned_exam e = e.
Proof.
  unfold exam_changed, cleaned_exam. intros H. apply orb_false_iff in H.
  destruct H as [H1 H2]. apply differ_false in H1, H2. rewrite <- H1, <- H2.
  destruct e; reflexivity.
Qed.

Lemma category_unchanged (c : Category) : category_changed c = false -> cleaned_category c = c.
Proof.
  unfold category_changed, cleaned_category. intros H. apply orb_false_iff in H.
  destruct H as [H1 H2]. apply differ_false in H1, H2. rewrite <- H1, <- H2.
  destruct c; reflexivity.
Qed.

Lemma topic_unchanged (t : Topic) : topic_changed t = false -> cleaned_topic t = t.
Proof.
  unfold topic_changed, cleaned_topic. intros H. apply orb_false_iff in H.
  destruct H as [H1 H2]. apply differ_false in H1, H2. rewrite <- H1, <- H2.
  destruct t; reflexivity.
Qed.

Lemma never_fails {A} (key : A -> Z) (x : A) (l : list A) :
  false = true <-> exists y, In y l /\ key y <> key x /\ false = true.
Proof. split; [discriminate | intros (y & _ & _ & H); discriminate H]. Qed.

Lemma set_questions_get (db : DB) : set_questions (questions db) db = db.
Proof. destruct db; reflexivity. Qed.

Lemma set_choices_get (db : DB) : set_choices (choices db) db = db.
Proof. destruct db; reflexivity. Qed.

(** The loop over the questions and the loop over the choices never fail:
    no constraint of these tables involves a text. *)
Lemma question_loop (rows : list Question) (n : Z) (db : DB) :
  Permutation rows (questions db) -> NoDup (List.map q_id (questions db)) ->
  update_rows false question_changed cleaned_question save_question rows n db
  = (inr (n + Z.of_nat (List.length (List.filter question_changed (questions db)))),
     set_questions (List.map cleaned_question (questions db)) db).
Proof.
  intros Hp Hnd.
  destruct (update_rows_table q_id questions set_questions question_changed cleaned_question
              save_question (fun _ _ => false) "" (fun _ _ => false)
              (fun _ _ => eq_refl) (fun _ _ _ => eq_refl) set_questions_get
              (fun _ _ => eq_refl) (never_fails q_id) (fun _ => eq_refl) question_unchanged
              (fun _ _ => eq_refl) (fun _ _ H => H) rows n db Hp Hnd)
    as [[E | (v & E)] Hiff].
  - exact E.
  - exfalso. assert (H : exists m db', update_rows false question_changed cleaned_question
                                          save_question rows n db = (inr m, db')).
    { apply Hiff; intros a b _ _ _; reflexivity. }
    destruct H as (m & db' & H). rewrite E in H. discriminate H.
Qed.

Lemma choice_loop (rows : list Choice) (n : Z) (db : DB) :
  Permutation rows (choices db) -> NoDup (List.map ch_id (choices db)) ->
  update_rows false choice_changed cleaned_choice save_choice rows n db
  = (inr (n + Z.of_nat (List.length (List.filter choice_changed (choices db)))),
     set_choices (List.map cleaned_choice (choices db)) db).
Proof.
  intros Hp Hnd.
  destruct (update_rows_table ch_id choices set_choices choice_changed cleaned_choice
              save_choice (fun _ _ => false) "" (fun _ _ => false)
              (fun _ _ => eq_refl) (fun _ _ _ => eq_refl) set_choices_get
              (fun _ _ => eq_refl) (never_fails ch_id) (fun _ => eq_refl) choice_unchanged
              (fun _ _ => eq_refl) (fun _ _ H => H) rows n db Hp Hnd)
    as [[E | (v & E)] Hiff].
  - exact E.
  - exfalso. assert (H : exists m db', update_rows false choice_changed cleaned_choice
                                          save_choice rows n db = (inr m, db')).
    { apply Hiff; intros a b _ _ _; reflexivity. }
    destruct H as (m & db' & H). rewrite E in H. discriminate H.
Qed.

(** The loops over the exams, the categories and the topics end normally
    or with the error of the unique constraint on the name. *)
Lemma exam_loop (rows : list Exam) (n : Z) (db : DB) :
  Permutation rows (exams db) -> NoDup (List.map exam_id (exams db)) ->
  (update_rows false exam_changed cleaned_exam save_exam rows n db
   = (inr (n + Z.of_nat (List.length (List.filter exam_changed (exams db)))),
      set_exams (List.map cleaned_exam (exams db)) db)
   \/ exists v, update_rows false exam_changed cleaned_exam save_exam rows n db
        = (inl (IntegrityError "UNIQUE constraint failed: quiz_exam.category_id, quiz_exam.name"),
           set_exams v db))
  /\ (slots_unique exam_id same_exam (exams db) ->
      ((exists m db', update_rows false exam_changed cleaned_exam save_exam rows n db
                      = (inr m, db'))
       <-> slots_unique exam_id same_exam (List.map cleaned_exam (exams db)))).
Proof.
  apply (update_rows_table exam_id exams set_exams exam_changed cleaned_exam save_exam
           (fun x l => List.existsb
              (fun e' => negb (exam_id e' =? exam_id x) && (exam_category e' =? exam_category x)
                         && String.eqb (exam_name e') (exam_name x)) l)).
  - reflexivity.
  - reflexivity.
  - intros []; reflexivity.
  - intros x db0. unfold save_exam, mbind, M_bind, get_db. cbn beta iota.
    destruct (List.existsb _ _); reflexivity.
  - exact exam_fails.
  - reflexivity.
  - exact exam_unchanged.
  - intros a b. unfold same_exam. rewrite Z.eqb_sym, String.eqb_sym. reflexivity.
  - intros a b. unfold same_exam. cbn [cleaned_exam exam_category exam_name].
    intros H. apply andb_true_iff in H. destruct H as [H1 H2].
    rewrite H1, (eqb_cleaned _ _ H2). reflexivity.
Qed.

Lemma category_loop (rows : list Category) (n : Z) (db : DB) :
  Permutation rows (categories db) -> NoDup (List.map cat_id (categories db)) ->
  (update_rows false category_changed cleaned_category save_category rows n db
   = (inr (n + Z.of_nat (List.length (List.filter category_changed (categories db)))),
      set_categories (List.map cleaned_category (categories db)) db)
   \/ exists v, update_rows false category_changed cleaned_category save_category rows n db
        = (inl (IntegrityError "UNIQUE constraint failed: quiz_category.name"),
           set_categories v db))
  /\ (slots_unique cat_id same_category (categories db) ->
      ((exists m db', update_rows false category_changed cleaned_category save_category rows n db
                      = (inr m, db'))
       <-> slots_unique cat_id same_category (List.map cleaned_category (categories db)))).
Proof.
  apply (update_rows_table cat_id categories set_categories category_changed cleaned_category
           save_category
           (fun x l => List.existsb
              (fun c' => negb (cat_id c' =? cat_id x) && String.eqb (cat_name c') (cat_name x)) l)).
  - reflexivity.
  - reflexivity.
  - intros []; reflexivity.
  - intros x db0. unfold save_category, mbind, M_bind, get_db. cbn beta iota.
    destruct (List.existsb _ _); reflexivity.
  - exact category_fails.
  - reflexivity.
  - exact category_unchanged.
  - intros a b. unfold same_category. apply String.eqb_sym.
  - intros a b. unfold same_category. cbn [cleaned_category cat_name]. apply eqb_cleaned.
Qed.

Lemma topic_loop (rows : list Topic) (n : Z) (db : DB) :
  Permutation rows (topics db) -> NoDup (List.map topic_id (topics db)) ->
  (update_rows false topic_changed cleaned_topic save_topic rows n db
   = (inr (n + Z.of_nat (List.length (List.filter topic_changed (topics db)))),
      set_topics (List.map cleaned_topic (topics db)) db)
   \/ exists v, update_rows false topic_changed cleaned_topic save_topic rows n db
        = (inl (IntegrityError "UNIQUE constraint failed: quiz_topic.exam_id, quiz_topic.name"),
           set_topics v db))
  /\ (slots_unique topic_id same_topic (topics db) ->
      ((exists m db', update_rows false topic_changed cleaned_topic save_topic rows n db
                      = (inr m, db'))
       <-> slots_unique topic_id same_topic (List.map cleaned_topic (topics db)))).
Proof.
  apply (update_rows_table topic_id topics set_topics topic_changed cleaned_topic save_topic
           (fun x l => List.existsb
              (fun t' => negb (topic_id t' =? topic_id x) && (topic_exam t' =? topic_exam x)
                         && String.eqb (topic_name t') (topic_name x)) l)).
  - reflexivity.
  - reflexivity.
  - intros []; reflexivity.
  - intros x db0. unfold save_topic, mbind, M_bind, get_db. cbn beta iota.
    destruct (List.existsb _ _); reflexivity.
  - exact topic_fails.
  - reflexivity.
  - exact topic_unchanged.
  - intros a b. unfold same_topic. rewrite Z.eqb_sym, String.eqb_sym. reflexivity.
  - intros a b. unfold same_topic. cbn [cleaned_topic topic_exam topic_name].
    intros H. apply andb_true_iff in H. destruct H as [H1 H2].
    rewrite H1, (eqb_cleaned _ _ H2). reflexivity.
Qed.

(** *** The command *)

(** A real run on tables with unique keys: it ends normally, having
    cleaned every table, or with the error of a unique constraint, the
    questions and the choices cleaned already; and it ends normally exactly
    when the cleaned names satisfy the constraints. *)
Lemma handle_outcome (o : Orderings) (db : DB) :
  orders o -> keys_unique db ->
  (handle o false db = (inr (counted db), cleaned_db db)
   \/ exists msg db',
        handle o false db = (inl (IntegrityError msg), db')
        /\ questions db' = List.map cleaned_question (questions db)
        /\ choices db' = List.map cleaned_choice (choices db)
        /\ quiz_sessions db' = quiz_sessions db /\ user_answers db' = user_answers db
        /\ user_profiles db' = user_profiles db)
  /\ (names_unique db ->
      ((exists r db', handle o false db = (inr r, db')) <-> names_unique (cleaned_db db))).
Proof.
  intros (Hq & Hc & He & Hcat & Ht) (Kq & Kc & Ke & Kcat & Kt).
  rewrite handle_eq.
  rewrite (question_loop _ 0 db (Hq _) Kq).
  set (db1 := set_questions (List.map cleaned_question (questions db)) db).
  rewrite (choice_loop _ 0 db1 (Hc _) Kc).
  set (db2 := set_choices (List.map cleaned_choice (choices db1)) db1).
  destruct (exam_loop (exam_rows o (exams db2)) 0 db2 (He _) Ke) as [[E3 | (v & E3)] Hiff3];
    rewrite E3.
  2:{ split.
      - right. eexists _, _. split; [reflexivity |]. repeat split.
      - intros (Ue & _ & _). split; [intros (r & db' & H); discriminate H |].
        intros (Ue' & _ & _). apply (Hiff3 Ue) in Ue'. destruct Ue' as (m & db' & H).
        rewrite E3 in H. discriminate H. }
  set (db3 := set_exams (List.map cleaned_exam (exams db2)) db2).
  destruct (category_loop (category_rows o (categories db3)) 0 db3 (Hcat _) Kcat)
    as [[E4 | (v & E4)] Hiff4]; rewrite E4.
  2:{ split.
      - right. eexists _, _. split; [reflexivity |]. repeat split.
      - intros (_ & Uc & _). split; [intros (r & db' & H); discriminate H |].
        intros (_ & Uc' & _). apply (Hiff4 Uc) in Uc'. destruct Uc' as (m & db' & H).
        rewrite E4 in H. discriminate H. }
  set (db4 := set_categories (List.map cleaned_category (categories db3)) db3).
  destruct (topic_loop (topic_rows o (topics db4)) 0 db4 (Ht _) Kt)
    as [[E5 | (v & E5)] Hiff5]; rewrite E5.
  2:{ split.
      - right. eexists _, _. split; [reflexivity |]. repeat split.
      - intros (_ & _ & Ut). split; [intros (r & db' & H); discriminate H |].
        intros (_ & _ & Ut'). apply (Hiff5 Ut) in Ut'. destruct Ut' as (m & db' & H).
        rewrite E5 in H. discriminate H. }
  split.
  - left. reflexivity.
  - intros (Ue & Uc & Ut). split; [| intros _; eexists _, _; reflexivity].
    intros _. split; [| split].
    + apply (Hiff3 Ue). eexists _, _. exact E3.
    + apply (Hiff4 Uc). eexists _, _. exact E4.
    + apply (Hiff5 Ut). eexists _, _. exact E5.
Qed.

(** A run on tables whose texts hold no bracket changes nothing. *)
Lemma handle_nothing_to_do (o : Orderings) (dry_run : bool) (db : DB) :
  orders o ->
  (forall q, In q (questions db) -> question_changed q = false) ->
  (forall c, In c (choices db) -> choice_changed c = false) ->
  (forall e, In e (exams db) -> exam_changed e = false) ->
  (forall c, In c (categories db) -> category_changed c = false) ->
  (forall t, In t (topics db) -> topic_changed t = false) ->
  handle o dry_run db
  = (inr {| updated_count := 0; choices_updated := 0; exams_updated := 0;
            categories_updated := 0; topics_updated := 0 |}, db).
Proof.
  intros (Hq & Hc & He & Hcat & Ht) Cq Cc Ce Ccat Ct.
  rewrite handle_eq.
  rewrite update_rows_clean
    by (intros x Hx; apply Cq; eapply Permutation_in; [apply Hq | exact Hx]).
  rewrite update_rows_clean
    by (intros x Hx; apply Cc; eapply Permutation_in; [apply Hc | exact Hx]).
  rewrite update_rows_clean
    by (intros x Hx; apply Ce; eapply Permutation_in; [apply He | exact Hx]).
  rewrite update_rows_clean
    by (intros x Hx; apply Ccat; eapply Permutation_in; [apply Hcat | exact Hx]).
  rewrite update_rows_clean
    by (intros x Hx; apply Ct; eapply Permutation_in; [apply Ht | exact Hx]).
  reflexivity.
Qed.

Lemma cleaned_db_clean (db : DB) :
  (forall q, In q (questions (cleaned_db db)) -> question_changed q = false)
  /\ (forall c, In c (choices (cleaned_db db)) -> choice_changed c = false)
  /\ (forall e, In e (exams (cleaned_db db)) -> exam_changed e = false)
  /\ (forall c, In c (categories (cleaned_db db)) -> category_changed c = false)
  /\ (forall t, In t (topics (cleaned_db db)) -> topic_changed t = false).
Proof.
  unfold cleaned_db. cbn [questions choices exams categories topics].
  repeat split; intros x Hx; apply in_map_iff in Hx; destruct Hx as (y & <- & _).
  - unfold question_changed. cbn. rewrite !differ_cleaned. reflexivity.
  - unfold choice_changed. cbn. apply differ_cleaned.
  - unfold exam_changed. cbn. rewrite !differ_cleaned. reflexivity.
  - unfold category_changed. cbn. rewrite !differ_cleaned. reflexivity.
  - unfold topic_changed. cbn. rewrite !differ_cleaned. reflexivity.
Qed.

Lemma dry_run_counts (o : Orderings) (db : DB) :
  orders o -> handle o true db = (inr (counted db), db).
Proof.
  rewrite handle_eq, !update_rows_dry.
  intros (Hq & Hc & He & Hcat & Ht). unfold counted.
  rewrite (count_perm _ _ _ (Hq (questions db))), (count_perm _ _ _ (Hc (choices db))),
    (count_perm _ _ _ (He (exams db))), (count_perm _ _ _ (Hcat (categories db))),
    (count_perm _ _ _ (Ht (topics db))).
  reflexivity.
Qed.

(** A dry run writes nothing and never fails, in whatever order the rows
    come; it reports, for each table, the number of rows one of whose
    cleaned texts holds a bracket. *)
Theorem dry_run_only_counts (o : Orderings) (db : DB) :
  (exists r, handle o true db = (inr r, db))
  /\ (orders o -> handle o true db = (inr (counted db), db)).
Proof.
  split; [| exact (dry_run_counts o db)].
  rewrite handle_eq, !update_rows_dry. eexists. reflexivity.
Qed.

(** A real run that ends normally has removed the brackets from every
    text the command cleans and changed nothing else; it reports what the
    dry run reported; no text of a question or of a choice holds a bracket
    any more; and a second run finds nothing to do. *)
Theorem real_run_cleans_every_text (o : Orderings) (db db' : DB) (r : Updated) :
  orders o -> keys_unique db ->
  handle o false db = (inr r, db') ->
  db' = cleaned_db db
  /\ handle o true db = (inr r, db)
  /\ Forall (fun q => no_brackets (q_question_text q) /\ no_brackets (q_explanation q))
       (questions db')
  /\ Forall (fun c => no_brackets (ch_choice_text c)) (choices db')
  /\ handle o false db'
     = (inr {| updated_count := 0; choices_updated := 0; exams_updated := 0;
               categories_updated := 0; topics_updated := 0 |}, db').
Proof.
  intros Ho Hk Hrun.
  destruct (proj1 (handle_outcome o db Ho Hk)) as [E | (msg & db'' & E & _)];
    rewrite E in Hrun; [| discriminate Hrun].
  inversion Hrun; subst r db'. clear Hrun.
  split; [reflexivity |].
  split; [exact (dry_run_counts o db Ho) |].
  split; [| split].
  - apply Forall_forall. intros q Hq. apply list_elem_of_In in Hq.
    cbn [cleaned_db questions] in Hq. apply in_map_iff in Hq. destruct Hq as (q0 & <- & _).
    split; apply remove_brackets_none.
  - apply Forall_forall. intros c Hc. apply list_elem_of_In in Hc.
    cbn [cleaned_db choices] in Hc. apply in_map_iff in Hc. destruct Hc as (c0 & <- & _).
    apply remove_brackets_none.
  - destruct (cleaned_db_clean db) as (C1 & C2 & C3 & C4 & C5).
    apply handle_nothing_to_do; assumption.
Qed.

(** A real run fails only on a unique constraint, and what it wrote before
    stays: the questions and the choices are cleaned when the error is
    raised.  The sessions, answers and profiles are as they were. *)
Theorem failed_run_keeps_its_changes (o : Orderings) (db db' : DB) (e : exn) :
  orders o -> keys_unique db ->
  handle o false db = (inl e, db') ->
  (exists msg, e = IntegrityError msg)
  /\ questions db' = List.map cleaned_question (questions db)
  /\ choices db' = List.map cleaned_choice (choices db)
  /\ quiz_sessions db' = quiz_sessions db /\ user_answers db' = user_answers db
  /\ user_profiles db' = user_profiles db.
Proof.
  intros Ho Hk Hrun.
  destruct (proj1 (handle_outcome o db Ho Hk)) as [E | (msg & db'' & E & H)];
    rewrite E in Hrun; [discriminate Hrun |].
  inversion Hrun; subst e db'. split; [exists msg; reflexivity | exact H].
Qed.

(** On a database that satisfies its unique constraints the real run ends
    normally exactly when no two exams of a category, no two categories and
    no two topics of an exam have the same name once the brackets are
    removed. *)
Theorem real_run_fails_on_a_name_clash (o : Orderings) (db : DB) :
  orders o -> keys_unique db -> names_unique db ->
  ((exists r db', handle o false db = (inr r, db')) <-> names_unique (cleaned_db db)).
Proof. intros Ho Hk Hn. exact (proj2 (handle_outcome o db Ho Hk) Hn). Qed.

Lemma orders_in_table_order : orders in_table_order.
Proof. repeat split; intros l; reflexivity. Qed.

Lemma dry_run_only_counts_witness :
  orders in_table_order
  /\ handle in_table_order true db_brackets
     = (inr {| updated_count := 1; choices_updated := 1; exams_updated := 0;
               categories_updated := 1; topics_updated := 0 |}, db_brackets).
Proof.
  split; [exact orders_in_table_order |].
  exact (proj2 (dry_run_only_counts in_table_order db_brackets) orders_in_table_order).
Defined.

Lemma real_run_cleans_every_text_witness :
  keys_unique db_brackets
  /\ exists r db',
       handle in_table_order false db_brackets = (inr r, db')
       /\ db' = cleaned_db db_brackets
       /\ handle in_table_order true db_brackets = (inr r, db_brackets).
Proof.
  assert (Hk : keys_unique db_brackets) by (repeat split; apply (bool_decide_unpack _); reflexivity).
  split; [exact Hk |].
  destruct (handle in_table_order false db_brackets) as [[e | r] db'] eqn:Hrun;
    [vm_compute in Hrun; discriminate Hrun |].
  exists r, db'. split; [reflexivity |].
  destruct (real_run_cleans_every_text in_table_order db_brackets db' r
              orders_in_table_order Hk Hrun) as (H1 & H2 & _).
  split; [exact H1 | exact H2].
Defined.

Lemma failed_run_keeps_its_changes_witness :
  keys_unique db_clash
  /\ exists e db',
       handle in_table_order false db_clash = (inl e, db')
       /\ (exists msg, e = IntegrityError msg)
       /\ questions db' = List.map cleaned_question (questions db_clash).
Proof.
  assert (Hk : keys_unique db_clash) by (repeat split; apply (bool_decide_unpack _); reflexivity).
  split; [exact Hk |].
  destruct (handle in_table_order false db_clash) as [[e | r] db'] eqn:Hrun;
    [| vm_compute in Hrun; discriminate Hrun].
  exists e, db'. split; [reflexivity |].
  destruct (failed_run_keeps_its_changes in_table_order db_clash db' e
              orders_in_table_order Hk Hrun) as (H1 & H2 & _).
  split; [exact H1 | exact H2].
Defined.

Lemma names_unique_db_clash : names_unique db_clash.
Proof.
  repeat split; intros a b Ha Hb Hne; cbn in Ha, Hb;
    repeat match goal with
           | H : _ \/ _ |- _ => destruct H as [<- | H]
           | H : False |- _ => destruct H
           end; try reflexivity; contradiction Hne; reflexivity.
Qed.

Lemma real_run_fails_on_a_name_clash_witness :
  keys_unique db_clash /\ names_unique db_clash
  /\ same_category (cleaned_category (category 1 "[Math]")) (cleaned_category (category 2 "Math"))
     = true
  /\ ((exists r db', handle in_table_order false db_clash = (inr r, db'))
      <-> names_unique (cleaned_db db_clash)).
Proof.
  assert (Hk : keys_unique db_clash) by (repeat split; apply (bool_decide_unpack _); reflexivity).
  split; [exact Hk | split; [exact names_unique_db_clash | split; [reflexivity |]]].
  exact (real_run_fails_on_a_name_clash in_table_order db_clash orders_in_table_order Hk
           names_unique_db_clash).
Defined.

End CleanupFacts.

(** ** The duration filters *)

Module FiltersFacts.
Import Filters Digits.

Lemma string_of_uint_digits (d : Decimal.uint) :
  all_digits (NilEmpty.string_of_uint d) = true.
Proof. induction d; cbn; auto. Qed.

(** [str] of a number that is not negative is made of digits. *)
Lemma str_of_int_digits (n : Z) : 0 <= n -> all_digits (Py.str_of_int n) = true.
Proof.
  intros H. unfold Py.str_of_int. destruct n as [| p | p]; [reflexivity | | lia].
  cbn [Z.to_int NilZero.string_of_int]. unfold NilZero.string_of_uint.
  destruct (Pos.to_uint p); try reflexivity; apply (string_of_uint_digits (_ _)).
Qed.

Lemma str_of_int_inj (a b : Z) : Py.str_of_int a = Py.str_of_int b -> a = b.
Proof.
  unfold Py.str_of_int. intros H. apply DecimalZ.to_int_inj.
  assert (Hn : forall n, Z.to_int n <> Decimal.Pos Decimal.Nil
                         /\ Z.to_int n <> Decimal.Neg Decimal.Nil).
  { intros [| p | p]; cbn; split; try discriminate; intros E; inversion E as [E'];
      exact (DecimalPos.Unsigned.to_uint_nonnil p E'). }
  destruct (Hn a) as [A1 A2], (Hn b) as [B1 B2].
  pose proof (NilZero.isi _ A1 A2) as Ea. pose proof (NilZero.isi _ B1 B2) as Eb.
  rewrite H in Ea. rewrite Ea in Eb. inversion Eb. reflexivity.
Qed.

(** Two texts that start with digits up to a character that is not a
    digit agree on the digits, on the character and on the rest. *)
Lemma digits_then (d1 d2 : string) (c1 c2 : ascii) (r1 r2 : string) :
  all_digits d1 = true -> all_digits d2 = true -> is_digit c1 = false -> is_digit c2 = false ->
  d1 +:+ String c1 r1 = d2 +:+ String c2 r2 -> d1 = d2 /\ c1 = c2 /\ r1 = r2.
Proof.
  revert d2. induction d1 as [| x d1 IH]; intros [| y d2] H1 H2 N1 N2 E.
  - change (String c1 r1 = String c2 r2) in E. inversion E. auto.
  - change (String c1 r1 = String y (d2 +:+ String c2 r2)) in E. inversion E; subst.
    cbn in H2. rewrite N1 in H2. discriminate H2.
  - change (String x (d1 +:+ String c1 r1) = String c2 r2) in E. inversion E; subst.
    cbn in H1. rewrite N2 in H1. discriminate H1.
  - change (String x (d1 +:+ String c1 r1) = String y (d2 +:+ String c2 r2)) in E.
    inversion E; subst. cbn in H1, H2. apply andb_true_iff in H1, H2.
    destruct (IH d2) as (-> & -> & ->); tauto.
Qed.

(** The two forms of the text. *)
Lemma format_time_some (seconds : Z) :
  seconds <> 0 ->
  format_time (Some seconds)
  = if seconds / 60 >? 0
    then Py.str_of_int (seconds / 60) +:+ String "m" (" " +:+ Py.str_of_int (seconds mod 60)
           +:+ String "s" "")
    else Py.str_of_int (seconds mod 60) +:+ String "s" "".
Proof.
  intros H. unfold format_time. apply Z.eqb_neq in H. rewrite H. reflexivity.
Qed.

(** The dash stands for no time and for zero seconds only, and two
    durations of at least a second are shown alike only if they are equal:
    the text is the number of whole minutes, if there is one, and the
    seconds left over. *)
Theorem format_time_tells_durations_apart :
  (forall seconds, format_time seconds = "-" <-> seconds = None \/ seconds = Some 0)
  /\ (forall a b, 0 < a -> 0 < b -> format_time (Some a) = format_time (Some b) -> a = b)
  /\ (forall a, 0 < a -> minutes_only (Some a) = inr (a / 60) /\ a = 60 * (a / 60) + a mod 60
                         /\ 0 <= a mod 60 < 60).
Proof.
  assert (Hs : forall n, 0 <= n mod 60 < 60) by (intros n; apply Z.mod_pos_bound; lia).
  split; [| split].
  - intros [s |]; [| split; auto].
    split; [| intros [H | H]; [discriminate H | inversion H; reflexivity]].
    destruct (Z.eq_dec s 0) as [-> | Hne]; [auto |].
    rewrite (format_time_some s Hne). intros H. exfalso.
    destruct (Z.gtb_spec (s / 60) 0) as [Hm | Hm].
    + pose proof (str_of_int_digits (s / 60) ltac:(lia)) as D.
      destruct (Py.str_of_int (s / 60)) as [| c d]; [discriminate H |].
      change (String c (d +:+ String "m" (" " +:+ Py.str_of_int (s mod 60) +:+ String "s" ""))
              = "-") in H.
      inversion H; subst. discriminate D.
    + pose proof (str_of_int_digits (s mod 60) ltac:(apply Hs)) as D.
      destruct (Py.str_of_int (s mod 60)) as [| c d]; [discriminate H |].
      change (String c (d +:+ String "s" "") = "-") in H.
      inversion H; subst. discriminate D.
  - intros a b Ha Hb. rewrite !format_time_some by lia.
    pose proof (Z.div_mod a 60 ltac:(lia)) as Da. pose proof (Z.div_mod b 60 ltac:(lia)) as Db.
    assert (Pa : 0 <= a / 60) by (apply Z.div_pos; lia).
    assert (Pb : 0 <= b / 60) by (apply Z.div_pos; lia).
    destruct (Z.gtb_spec (a / 60) 0) as [Ma | Ma], (Z.gtb_spec (b / 60) 0) as [Mb | Mb];
      intros E.
    + apply digits_then in E; try (apply str_of_int_digits; lia); try reflexivity.
      destruct E as (E1 & _ & E2). apply str_of_int_inj in E1.
      change (String " " (Py.str_of_int (a mod 60) +:+ String "s" "")
              = String " " (Py.str_of_int (b mod 60) +:+ String "s" "")) in E2.
      inversion E2 as [E3].
      apply digits_then in E3; try (apply str_of_int_digits; apply Hs); try reflexivity.
      destruct E3 as (E3 & _). apply str_of_int_inj in E3. lia.
    + apply digits_then in E; try (apply str_of_int_digits; first [lia | apply Hs]);
        try reflexivity.
      destruct E as (_ & E & _). discriminate E.
    + apply digits_then in E; try (apply str_of_int_digits; first [lia | apply Hs]);
        try reflexivity.
      destruct E as (_ & E & _). discriminate E.
    + apply digits_then in E; try (apply str_of_int_digits; apply Hs); try reflexivity.
      destruct E as (E & _). apply str_of_int_inj in E. lia.
  - intros a Ha. split; [| split; [apply Z.div_mod; lia | apply Hs]].
    unfold minutes_only. destruct (Z.eqb_spec a 0); [lia | reflexivity].
Qed.

Lemma format_time_tells_durations_apart_witness :
  format_time (Some 125) = "2m 5s" /\ format_time (Some 59) = "59s"
  /\ format_time (Some 0) = "-" /\ minutes_only (Some 125) = inr 2.
Proof.
  split; [reflexivity | split; [reflexivity |]].
  split.
  - exact (proj2 (proj1 format_time_tells_durations_apart (Some 0)) (or_intror eq_refl)).
  - exact (proj1 (proj2 (proj2 format_time_tells_durations_apart) 125 eq_refl)).
Defined.

End FiltersFacts.
